(** * Database Explorer: driver abstraction and connection networking

    A shallow embedding of the driver core of the extension
    (capability model, base driver contract, concrete drivers, driver
    factory, connection lifecycle registry, replica router) together with
    the properties its specification states about it.

    Conventions.
    - A JavaScript string is a [string]: the sequence of its UTF-16 code
      units, for texts whose code units are below U+0100.  On that range
      [trim], [toLowerCase] and the case folding of a regular expression
      are finite tables, written out in [JsString].  The write-query
      classifier is also given on every sequence of 16-bit code units,
      in [Utf16].
    - An optional property ([readOnly?: boolean]) is an [option]; the
      truthiness test of the source is [truthy].
    - A thrown value is a [JsError]; a method that can throw returns a
      [Result], and keeps the state it had reached when it threw.
    - Objects that are shared and mutated (driver instances) live in a
      heap and are named by their address. *)

From Stdlib Require Import ZArith QArith Qround NArith Ascii String DecimalString List Bool Lia.
From stdpp Require Import base option list strings.

Local Open Scope string_scope.
Local Open Scope list_scope.

(* ===================================================================== *)
(** * Part I.  Definitions                                                *)
(* ===================================================================== *)

(** ** types.ts : the capability vocabulary *)

Inductive TreeStructureType :=
| SchemaTableColumn
| DatabaseTableColumn
| DatabaseCollection
| BucketMeasurement
| MetricLabel
| Keyspace.

Record DriverCapabilities := mkCapabilities {
  supportsSchemas : bool;
  supportsTables : bool;
  supportsViews : bool;
  supportsCollections : bool;
  supportsMeasurements : bool;
  supportsSQL : bool;
  supportsNoSQLQueries : bool;
  supportsFlux : bool;
  supportsPromQL : bool;
  supportsInsert : bool;
  supportsUpdate : bool;
  supportsDelete : bool;
  supportsTruncate : bool;
  supportsDDL : bool;
  supportsTransactions : bool;
  supportsPrimaryKeys : bool;
  supportsExport : bool;
  supportsRowEditing : bool;
  treeStructure : TreeStructureType
}.

(** Truthiness of an optional boolean: [undefined] and [false] are falsy. *)
Definition truthy (b : option bool) : bool :=
  match b with
  | Some true => true
  | _ => false
  end.

(** ** capabilities.ts *)

Module Capabilities.

Definition SQL_FULL_CAPABILITIES : DriverCapabilities :=
  {| supportsSchemas := true; supportsTables := true; supportsViews := true;
     supportsCollections := false; supportsMeasurements := false;
     supportsSQL := true; supportsNoSQLQueries := false;
     supportsFlux := false; supportsPromQL := false;
     supportsInsert := true; supportsUpdate := true; supportsDelete := true;
     supportsTruncate := true; supportsDDL := true;
     supportsTransactions := true; supportsPrimaryKeys := true;
     supportsExport := true; supportsRowEditing := true;
     treeStructure := SchemaTableColumn |}.

Definition INFLUXDB_CAPABILITIES : DriverCapabilities :=
  {| supportsSchemas := false; supportsTables := false; supportsViews := false;
     supportsCollections := false; supportsMeasurements := true;
     supportsSQL := false; supportsNoSQLQueries := false;
     supportsFlux := true; supportsPromQL := false;
     supportsInsert := true; supportsUpdate := false; supportsDelete := true;
     supportsTruncate := false; supportsDDL := false;
     supportsTransactions := false; supportsPrimaryKeys := false;
     supportsExport := true; supportsRowEditing := false;
     treeStructure := BucketMeasurement |}.

Definition PROMETHEUS_CAPABILITIES : DriverCapabilities :=
  {| supportsSchemas := false; supportsTables := false; supportsViews := false;
     supportsCollections := false; supportsMeasurements := true;
     supportsSQL := false; supportsNoSQLQueries := false;
     supportsFlux := false; supportsPromQL := true;
     supportsInsert := false; supportsUpdate := false; supportsDelete := false;
     supportsTruncate := false; supportsDDL := false;
     supportsTransactions := false; supportsPrimaryKeys := false;
     supportsExport := true; supportsRowEditing := false;
     treeStructure := MetricLabel |}.

(** [isWriteAllowed(capabilities, connectionReadOnly?)] *)
Definition isWriteAllowed (capabilities : DriverCapabilities)
    (connectionReadOnly : option bool) : bool :=
  if truthy connectionReadOnly then false
  else supportsInsert capabilities
       || supportsUpdate capabilities
       || supportsDelete capabilities.

(** [getEffectiveCapabilities(capabilities, connectionReadOnly?)]: the
    object spread copies every field, the six listed ones are then
    overwritten. *)
Definition getEffectiveCapabilities (capabilities : DriverCapabilities)
    (connectionReadOnly : option bool) : DriverCapabilities :=
  if negb (truthy connectionReadOnly) then capabilities
  else
    {| supportsSchemas := supportsSchemas capabilities;
       supportsTables := supportsTables capabilities;
       supportsViews := supportsViews capabilities;
       supportsCollections := supportsCollections capabilities;
       supportsMeasurements := supportsMeasurements capabilities;
       supportsSQL := supportsSQL capabilities;
       supportsNoSQLQueries := supportsNoSQLQueries capabilities;
       supportsFlux := supportsFlux capabilities;
       supportsPromQL := supportsPromQL capabilities;
       supportsInsert := false;
       supportsUpdate := false;
       supportsDelete := false;
       supportsTruncate := false;
       supportsDDL := false;
       supportsTransactions := supportsTransactions capabilities;
       supportsPrimaryKeys := supportsPrimaryKeys capabilities;
       supportsExport := supportsExport capabilities;
       supportsRowEditing := false;
       treeStructure := treeStructure capabilities |}.

End Capabilities.

(** ** JavaScript strings and the fragment of RegExp the drivers use *)

Module JsString.

Definition code (c : ascii) : N := N_of_ascii c.

Definition between (lo hi n : N) : bool := ((lo <=? n) && (n <=? hi))%N.

(** WhiteSpace and LineTerminator code units below U+0100:
    TAB, LF, VT, FF, CR, SPACE and NO-BREAK SPACE. *)
Definition isWhiteSpace (c : ascii) : bool :=
  between 9 13 (code c) || (code c =? 32)%N || (code c =? 160)%N.

Fixpoint trimStart (s : string) : string :=
  match s with
  | EmptyString => EmptyString
  | String c s' => if isWhiteSpace c then trimStart s' else s
  end.

Fixpoint trimEnd (s : string) : string :=
  match s with
  | EmptyString => EmptyString
  | String c s' =>
      match trimEnd s' with
      | EmptyString => if isWhiteSpace c then EmptyString else String c EmptyString
      | t => String c t
      end
  end.

(** [String.prototype.trim] *)
Definition trim (s : string) : string := trimEnd (trimStart s).

(** Lower-case mapping of one code unit below U+0100: A-Z and the
    Latin-1 capitals U+00C0-U+00DE (U+00D7 excepted) move up by 32. *)
Definition toLowerCaseChar (c : ascii) : ascii :=
  let n := code c in
  if between 65 90 n || between 192 214 n || between 216 222 n
  then ascii_of_N (n + 32) else c.

Fixpoint toLowerCase (s : string) : string :=
  match s with
  | EmptyString => EmptyString
  | String c s' => String (toLowerCaseChar c) (toLowerCase s')
  end.

(** [String.prototype.startsWith] *)
Fixpoint startsWith (s p : string) : bool :=
  match p, s with
  | EmptyString, _ => true
  | String a p', String b s' => Ascii.eqb a b && startsWith s' p'
  | String _ _, EmptyString => false
  end.

(** Canonicalize of a RegExp with the [i] flag and without the [u]
    flag: the upper-case mapping when it is a single code unit, except
    that a non-ASCII unit never folds to an ASCII one.  The result can
    leave the range below U+0100 (U+00B5 and U+00FF), hence [N]. *)
Definition canonicalize (ignoreCase : bool) (c : ascii) : N :=
  let n := code c in
  if negb ignoreCase then n
  else if between 97 122 n then (n - 32)%N
  else if (n =? 181)%N then 924%N
  else if (n =? 255)%N then 376%N
  else if (between 224 246 n || between 248 254 n) then (n - 32)%N
  else n.

(** Pattern syntax: literal characters, sequence, alternation and the
    [^] assertion. *)
Inductive Pattern :=
| PEmpty
| PChar (c : ascii)
| PSeq (p q : Pattern)
| PAlt (p q : Pattern)
| PStart.

Record RegExp := mkRegExp { source : Pattern; ignoreCase : bool }.

(** Backtracking matcher with a continuation; [pos] is the index of
    the next code unit of the input. *)
Fixpoint matchAt (ic : bool) (p : Pattern) (k : nat -> string -> bool)
    (pos : nat) (s : string) : bool :=
  match p with
  | PEmpty => k pos s
  | PChar c =>
      match s with
      | String d s' =>
          if (canonicalize ic d =? canonicalize ic c)%N then k (S pos) s' else false
      | EmptyString => false
      end
  | PSeq p1 p2 => matchAt ic p1 (fun pos' s' => matchAt ic p2 k pos' s') pos s
  | PAlt p1 p2 => matchAt ic p1 k pos s || matchAt ic p2 k pos s
  | PStart => if Nat.eqb pos 0 then k pos s else false
  end.

(** The search of a non-global RegExp: every start index from
    [lastIndex = 0] up to the length of the input. *)
Fixpoint searchFrom (ic : bool) (p : Pattern) (pos : nat) (s : string) : bool :=
  matchAt ic p (fun _ _ => true) pos s
  || match s with
     | EmptyString => false
     | String _ s' => searchFrom ic p (S pos) s'
     end.

(** [RegExp.prototype.test] *)
Definition test (re : RegExp) (s : string) : bool :=
  searchFrom (ignoreCase re) (source re) 0 s.

(** Every code unit below U+0100. *)
Definition allChars : list ascii := map ascii_of_nat (seq 0 256).

(** A run of literal characters. *)
Fixpoint literal (s : string) : Pattern :=
  match s with
  | EmptyString => PEmpty
  | String c s' => PSeq (PChar c) (literal s')
  end.

(** [(a|b|...)] *)
Fixpoint alternatives (ps : list Pattern) : Pattern :=
  match ps with
  | [] => PEmpty
  | [p] => p
  | p :: ps' => PAlt p (alternatives ps')
  end.

End JsString.

(** ** Thrown values, results and the state-and-error monad *)

Inductive JsError :=
| Error (message : string)
| TypeError (message : string).

Inductive Result (A : Type) :=
| Ok (a : A)
| Throw (e : JsError).
Arguments Ok {A} a.
Arguments Throw {A} e.

(** A computation over a mutable state [S]: the state reached is
    returned also when the computation throws. *)
Definition Eff (S A : Type) : Type := S -> Result A * S.

Definition ret {S A} (a : A) : Eff S A := fun s => (Ok a, s).

Definition throw {S A} (e : JsError) : Eff S A := fun s => (Throw e, s).

Definition bind {S A B} (m : Eff S A) (f : A -> Eff S B) : Eff S B :=
  fun s =>
    match m s with
    | (Ok a, s') => f a s'
    | (Throw e, s') => (Throw e, s')
    end.

Definition gets {S A} (f : S -> A) : Eff S A := fun s => (Ok (f s), s).

Definition modify {S} (f : S -> S) : Eff S unit := fun s => (Ok tt, f s).

(** [try { m } catch (e) { h e }] *)
Definition tryCatch {S A} (m : Eff S A) (h : JsError -> Eff S A) : Eff S A :=
  fun s =>
    match m s with
    | (Ok a, s') => (Ok a, s')
    | (Throw e, s') => h e s'
    end.

Declare Scope eff_scope.
Delimit Scope eff_scope with eff.
Notation "x <- m ;; k" := (bind m (fun x => k))
  (at level 100, m at next level, right associativity) : eff_scope.
Notation "m ;;; k" := (bind m (fun _ => k))
  (at level 100, right associativity) : eff_scope.

(** ** types.ts : configuration and results *)

Inductive JsValue :=
| VNull
| VBool (b : bool)
| VNumber (z : Z)
| VString (s : string).

Module ReadReplicaHost.
Record t := mk { host : string; port : Z; weight : option Z }.
End ReadReplicaHost.

Module ReplicaConfig.
Record t := mk {
  enabled : bool;
  writeHost : string;
  writePort : Z;
  readHosts : list ReadReplicaHost.t;
  loadBalancing : string
}.
End ReplicaConfig.

Module ConnectionConfig.
Record t := mk {
  id : string;
  name : string;
  type : string;
  host : option string;
  port : option Z;
  database : option string;
  username : option string;
  filepath : option string;
  readOnly : option bool;
  replicaConfig : option ReplicaConfig.t
}.

(** [{ ...config, host: h, port: p }] *)
Definition withEndpoint (config : t) (h : string) (p : Z) : t :=
  {| id := id config; name := name config; type := type config;
     host := Some h; port := Some p;
     database := database config; username := username config;
     filepath := filepath config; readOnly := readOnly config;
     replicaConfig := replicaConfig config |}.
End ConnectionConfig.

Module QueryResult.
Record t := mk {
  columns : list string;
  rows : list (list (string * JsValue));
  rowCount : Z;
  affectedRows : option Z
}.
End QueryResult.

Module DriverMetadata.
Record t := mk {
  id : string;
  displayName : string;
  category : string;
  defaultPort : option Z;
  capabilities : DriverCapabilities
}.
End DriverMetadata.

(** ** baseDriver.ts : the shared read-only policy *)

Module BaseDbDriver.
Import JsString.

(** [/^(insert|update|delete|drop|alter|create|truncate|grant|revoke)/i] *)
Definition writePattern : RegExp :=
  {| source :=
       PSeq PStart
         (alternatives
            (map literal
               ["insert"; "update"; "delete"; "drop"; "alter"; "create";
                "truncate"; "grant"; "revoke"]));
     ignoreCase := true |}.

Definition isWriteQuery (sql : string) : bool :=
  let normalized := toLowerCase (trim sql) in
  test writePattern normalized.

Definition readOnlyQueryError : JsError :=
  Error "Write queries are not allowed in read-only mode.".

Definition readOnlyWriteError : JsError :=
  Error "Connection is in read-only mode. Write operations are not allowed.".

Definition assertWriteAllowed {S} (config : ConnectionConfig.t) : Eff S unit :=
  if truthy (ConnectionConfig.readOnly config)
  then throw readOnlyWriteError
  else ret tt.

Definition validateQuery {S} (config : ConnectionConfig.t) (sql : string) : Eff S unit :=
  if truthy (ConnectionConfig.readOnly config) && isWriteQuery sql
  then throw readOnlyQueryError
  else ret tt.

End BaseDbDriver.

(** The two policy rejections the specification calls
    [ReadOnlyViolation]. *)
Inductive ReadOnlyViolation : JsError -> Prop :=
| ROV_query : ReadOnlyViolation BaseDbDriver.readOnlyQueryError
| ROV_write : ReadOnlyViolation BaseDbDriver.readOnlyWriteError.

(** ** The JavaScript [Map]: keys in insertion order *)

Module JsMap.
Section WithValue.
Context {V : Type}.

Definition t : Type := list (string * V).

Definition empty : t := [].

Fixpoint get (m : t) (k : string) : option V :=
  match m with
  | [] => None
  | (k', v) :: m' => if String.eqb k' k then Some v else get m' k
  end.

Definition has (m : t) (k : string) : bool :=
  match get m k with Some _ => true | None => false end.

(** [set] keeps the position of a key that is already present and
    appends a new one. *)
Fixpoint set (m : t) (k : string) (v : V) : t :=
  match m with
  | [] => [(k, v)]
  | (k', v') :: m' =>
      if String.eqb k' k then (k', v) :: m' else (k', v') :: set m' k v
  end.

Definition delete (m : t) (k : string) : t :=
  List.filter (fun kv => negb (String.eqb (fst kv) k)) m.

Definition clear (m : t) : t := [].

Definition keys (m : t) : list string := map fst m.

Definition values (m : t) : list V := map snd m.
End WithValue.
Arguments t : clear implicits.
End JsMap.

(** [Array.prototype.join] on strings *)
Fixpoint join (sep : string) (l : list string) : string :=
  match l with
  | [] => EmptyString
  | [x] => x
  | x :: l' => x +:+ sep +:+ join sep l'
  end.

(** ** The concrete drivers

    One record holds the instance fields of [BaseDbDriver] and of its
    subclasses.  What lies outside the repository (the client libraries,
    the servers behind them, [JSON.parse], [encodeURIComponent],
    [fetch]) is the environment [Env] of a driver object: it answers
    every call from the calls made so far, and the calls are logged. *)

Inductive DriverKind :=
| Postgres | MySql | Sqlite | Mssql | Mongo | InfluxDb | Prometheus.

Inductive BackendCall :=
| CConnect
| CClose
| CSave
| CQuery (api : string) (text : string) (params : option (list JsValue)).

Module MongoRequest.
Record t := mk {
  collection : string;
  operation : option string;
  query : option string;
  limit : option Z
}.
End MongoRequest.

Record Env := mkEnv {
  (** [None]: the connection attempt succeeds. *)
  onConnect : list BackendCall -> option JsError;
  onClose : list BackendCall -> option JsError;
  onSave : list BackendCall -> option JsError;
  (** [new InfluxDB({ url, token })] for this [url]: [None] when the client
      is built, [Some e] when the constructor throws [e] (the client's
      transport refuses a URL that is neither http nor https). *)
  newInfluxDB : string -> option JsError;
  (** The reply to a query, in the shape the driver returns it. *)
  onQuery : list BackendCall -> string -> string -> option (list JsValue)
            -> Result QueryResult.t;
  (** [None]: the text is not a JSON object the driver can use. *)
  JSON_parse : string -> option MongoRequest.t;
  encodeURIComponent : string -> string
}.

Record Driver := mkDriver {
  kind : DriverKind;
  config : ConnectionConfig.t;
  password : string;
  (** [BaseDbDriver.connected] *)
  connected : bool;
  (** [pool] (postgres, mysql, mssql), [db] (sqlite), [client] (mongo,
      influxdb) is not [null]. *)
  handle : bool;
  (** [db] (mongo), [queryApi] (influxdb) is not [null]. *)
  queryHandle : bool;
  (** [pool.connected] as the mssql library reports it. *)
  poolConnected : bool;
  (** [baseUrl] (prometheus) *)
  baseUrl : string;
  env : Env;
  calls : list BackendCall
}.

Module Drivers.

Definition setConnected (b : bool) : Eff Driver unit :=
  modify (fun d =>
    {| kind := kind d; config := config d; password := password d;
       connected := b; handle := handle d; queryHandle := queryHandle d;
       poolConnected := poolConnected d; baseUrl := baseUrl d;
       env := env d; calls := calls d |}).

Definition setHandle (b : bool) : Eff Driver unit :=
  modify (fun d =>
    {| kind := kind d; config := config d; password := password d;
       connected := connected d; handle := b; queryHandle := queryHandle d;
       poolConnected := poolConnected d; baseUrl := baseUrl d;
       env := env d; calls := calls d |}).

Definition setQueryHandle (b : bool) : Eff Driver unit :=
  modify (fun d =>
    {| kind := kind d; config := config d; password := password d;
       connected := connected d; handle := handle d; queryHandle := b;
       poolConnected := poolConnected d; baseUrl := baseUrl d;
       env := env d; calls := calls d |}).

Definition setPoolConnected (b : bool) : Eff Driver unit :=
  modify (fun d =>
    {| kind := kind d; config := config d; password := password d;
       connected := connected d; handle := handle d;
       queryHandle := queryHandle d;
       poolConnected := b; baseUrl := baseUrl d;
       env := env d; calls := calls d |}).

Definition setBaseUrl (u : string) : Eff Driver unit :=
  modify (fun d =>
    {| kind := kind d; config := config d; password := password d;
       connected := connected d; handle := handle d;
       queryHandle := queryHandle d;
       poolConnected := poolConnected d; baseUrl := u;
       env := env d; calls := calls d |}).

Definition logCall (c : BackendCall) (d : Driver) : Driver :=
  {| kind := kind d; config := config d; password := password d;
     connected := connected d; handle := handle d;
     queryHandle := queryHandle d;
     poolConnected := poolConnected d; baseUrl := baseUrl d;
     env := env d; calls := calls d ++ [c] |}.

Definition ofOutcome (o : option JsError) : Result unit :=
  match o with None => Ok tt | Some e => Throw e end.

(** Calls into the client library. *)
Definition backendConnect : Eff Driver unit :=
  fun d => (ofOutcome (onConnect (env d) (calls d)), logCall CConnect d).

Definition backendClose : Eff Driver unit :=
  fun d => (ofOutcome (onClose (env d) (calls d)), logCall CClose d).

Definition backendSave : Eff Driver unit :=
  fun d => (ofOutcome (onSave (env d) (calls d)), logCall CSave d).

Definition backendQuery (api text : string) (params : option (list JsValue))
  : Eff Driver QueryResult.t :=
  fun d => (onQuery (env d) (calls d) api text params,
            logCall (CQuery api text params) d).

(** [error instanceof Error ? error.message : String(error)] *)
Definition messageOf (e : JsError) : string :=
  match e with Error m => m | TypeError m => m end.

(** The object a driver class constructor returns. *)
Definition new (k : DriverKind) (e : Env) (cfg : ConnectionConfig.t)
    (pw : string) : Driver :=
  {| kind := k; config := cfg; password := pw; connected := false;
     handle := false; queryHandle := false; poolConnected := false;
     baseUrl := EmptyString; env := e; calls := [] |}.

End Drivers.

Local Open Scope eff_scope.

(** [a || b] on an optional string: [undefined] and the empty string are
    falsy. *)
Definition strOr (a : option string) (b : string) : string :=
  match a with
  | Some (String c s) => String c s
  | _ => b
  end.

(** ** postgresDriver.ts *)

Module PostgresDriver.
Import Drivers.

Definition connect : Eff Driver unit :=
  setHandle true ;;;        (* this.pool = new Pool(...) *)
  backendConnect ;;;        (* await this.pool.connect(); client.release() *)
  setConnected true.

Definition disconnect : Eff Driver unit :=
  h <- gets handle ;;
  (if h then (backendClose ;;; setHandle false) else ret tt) ;;;
  setConnected false.

Definition isConnected (d : Driver) : bool := connected d && handle d.

Definition executeQuery (sql : string) (params : option (list JsValue))
  : Eff Driver QueryResult.t :=
  h <- gets handle ;;
  if negb h then throw (Error "Not connected to database")
  else
    (c <- gets config ;;
     BaseDbDriver.validateQuery c sql ;;;
     backendQuery "pool.query" sql params).
End PostgresDriver.

(** ** mysqlDriver.ts *)

Module MySqlDriver.
Import Drivers.

Definition connect : Eff Driver unit :=
  setHandle true ;;;        (* this.pool = mysql.createPool(...) *)
  backendConnect ;;;        (* await this.pool.getConnection(); conn.release() *)
  setConnected true.

Definition disconnect : Eff Driver unit :=
  h <- gets handle ;;
  (if h then (backendClose ;;; setHandle false) else ret tt) ;;;
  setConnected false.

Definition isConnected (d : Driver) : bool := connected d && handle d.

Definition executeQuery (sql : string) (params : option (list JsValue))
  : Eff Driver QueryResult.t :=
  h <- gets handle ;;
  if negb h then throw (Error "Not connected to database")
  else
    (c <- gets config ;;
     BaseDbDriver.validateQuery c sql ;;;
     backendQuery "pool.query" sql params).
End MySqlDriver.

(** ** sqliteDriver.ts *)

Module SqliteDriver.
Import Drivers.

(** Reading the database file cannot fail the call: a failed read
    falls back to an empty database. *)
Definition connect : Eff Driver unit :=
  backendConnect ;;;        (* await initSqlJs() *)
  setHandle true ;;;        (* this.db = new SQL.Database(...) *)
  setConnected true.

Definition disconnect : Eff Driver unit :=
  h <- gets handle ;;
  (if h then
     (c <- gets config ;;
      (if negb (truthy (ConnectionConfig.readOnly c))
       then backendSave     (* fs.writeFileSync(filepath, db.export()) *)
       else ret tt) ;;;
      backendClose ;;;      (* this.db.close() *)
      setHandle false)
   else ret tt) ;;;
  setConnected false.

Definition isConnected (d : Driver) : bool := connected d && handle d.

Definition executeQuery (sql : string) (params : option (list JsValue))
  : Eff Driver QueryResult.t :=
  h <- gets handle ;;
  if negb h then throw (Error "Not connected to database")
  else
    (c <- gets config ;;
     BaseDbDriver.validateQuery c sql ;;;
     let trimmedSql := JsString.toLowerCase (JsString.trim sql) in
     let isSelect := JsString.startsWith trimmedSql "select"
                     || JsString.startsWith trimmedSql "pragma" in
     if isSelect then backendQuery "db.prepare" sql params
     else backendQuery "db.run" sql params).
End SqliteDriver.

(** ** mssqlDriver.ts *)

Module MssqlDriver.
Import Drivers.

(** The pool that [sql.connect] returns reports [connected]; a closed
    pool does not. *)
Definition connect : Eff Driver unit :=
  backendConnect ;;;        (* this.pool = await sql.connect(sqlConfig) *)
  setHandle true ;;;
  setPoolConnected true ;;;
  setConnected true.

Definition disconnect : Eff Driver unit :=
  h <- gets handle ;;
  (if h then
     (backendClose ;;;      (* await this.pool.close() *)
      setPoolConnected false ;;;
      setHandle false)      (* this.pool = null *)
   else ret tt) ;;;
  setConnected false.

Definition isConnected (d : Driver) : bool :=
  connected d && handle d && poolConnected d.

Definition isWordChar (c : ascii) : bool :=
  let n := JsString.code c in
  JsString.between 97 122 n || JsString.between 65 90 n
  || JsString.between 48 57 n || (n =? 95)%N.

(** [sqlQuery.match(/@\w+/g)]: [cur] is the match being read, if any. *)
Fixpoint namedParamsFrom (cur : option string) (s : string) : list string :=
  let emit w := match w with String _ (String _ _) => [w] | _ => [] end in
  match s with
  | EmptyString => match cur with Some w => emit w | None => [] end
  | String c s' =>
      match cur with
      | Some w =>
          if isWordChar c then namedParamsFrom (Some (w +:+ String c EmptyString)) s'
          else emit w ++ namedParamsFrom
                           (if Ascii.eqb c "@" then Some "@" else None) s'
      | None =>
          namedParamsFrom (if Ascii.eqb c "@" then Some "@" else None) s'
      end
  end.

Definition namedParamsOf (s : string) : list string := namedParamsFrom None s.

(** [[...new Set(l)]] *)
Fixpoint unique (seen l : list string) : list string :=
  match l with
  | [] => []
  | x :: l' =>
      if existsb (String.eqb x) seen then unique seen l'
      else x :: unique (x :: seen) l'
  end.

(** [s.replace(new RegExp(pat, 'g'), rep)] for a literal, non-empty
    [pat]; [skip] counts the code units of a match still to drop. *)
Fixpoint replaceAllFrom (pat rep : string) (skip : nat) (s : string) : string :=
  match s with
  | EmptyString => EmptyString
  | String c s' =>
      match skip with
      | S n => replaceAllFrom pat rep n s'
      | O =>
          if JsString.startsWith s pat
          then rep +:+ replaceAllFrom pat rep (String.length pat - 1) s'
          else String c (replaceAllFrom pat rep 0 s')
      end
  end.

Definition decimal (n : nat) : string :=
  DecimalString.NilZero.string_of_uint (Nat.to_uint n).

Fixpoint rewriteParams (names : list string) (index nparams : nat)
    (sql : string) : string :=
  match names with
  | [] => sql
  | namedParam :: rest =>
      rewriteParams rest (S index) nparams
        (if Nat.ltb index nparams
         then replaceAllFrom namedParam ("@param" +:+ decimal index) 0 sql
         else sql)
  end.

Definition executeQuery (sqlQuery : string) (params : option (list JsValue))
  : Eff Driver QueryResult.t :=
  h <- gets handle ;;
  if negb h then throw (Error "Not connected to database")
  else
    (c <- gets config ;;
     BaseDbDriver.validateQuery c sqlQuery ;;;
     match params with
     | Some ps =>
         let uniqueParams := unique [] (namedParamsOf sqlQuery) in
         let modifiedSql := rewriteParams uniqueParams 0 (length ps) sqlQuery in
         backendQuery "request.query" modifiedSql params
     | None => backendQuery "request.query" sqlQuery None
     end).
End MssqlDriver.

(** ** mongoDriver.ts *)

Module MongoDriver.
Import Drivers.

Definition connect : Eff Driver unit :=
  setHandle true ;;;        (* this.client = new MongoClient(uri) *)
  backendConnect ;;;        (* await this.client.connect() *)
  setQueryHandle true ;;;   (* this.db = this.client.db(...) *)
  setConnected true.

Definition disconnect : Eff Driver unit :=
  h <- gets handle ;;
  (if h then (backendClose ;;; setHandle false ;;; setQueryHandle false)
   else ret tt) ;;;
  setConnected false.

Definition isConnected (d : Driver) : bool := connected d && handle d.

Definition formatError : JsError :=
  let q := String (ascii_of_nat 34) EmptyString in
  Error ("MongoDB queries must be in JSON format: { " +:+ q +:+ "collection"
         +:+ q +:+ ": " +:+ q +:+ "name" +:+ q +:+ ", " +:+ q +:+ "operation"
         +:+ q +:+ ": " +:+ q +:+ "find|aggregate" +:+ q +:+ ", " +:+ q
         +:+ "query" +:+ q +:+ ": {...} }").

Definition executeQuery (sqlQuery : string) (params : option (list JsValue))
  : Eff Driver QueryResult.t :=
  h <- gets queryHandle ;;
  if negb h then throw (Error "Not connected to database")
  else
    (c <- gets config ;;
     BaseDbDriver.validateQuery c sqlQuery ;;;
     tryCatch
       (parse <- gets (fun d => JSON_parse (env d)) ;;
        match parse sqlQuery with
        | None => throw (Error "Unexpected token")
        | Some parsed =>
            if decide (MongoRequest.operation parsed = Some "aggregate")
            then backendQuery "collection.aggregate"
                   (MongoRequest.collection parsed)
                   (option_map (fun q => [VString q]) (MongoRequest.query parsed))
            else backendQuery "collection.find"
                   (MongoRequest.collection parsed)
                   (option_map (fun q => [VString q]) (MongoRequest.query parsed))
        end)
       (fun _ => throw formatError)).
End MongoDriver.

(** ** influxdbDriver.ts *)

Module InfluxDbDriver.
Import Drivers.

(** [this.config.host || 'http://localhost:8086'] *)
Definition url (cfg : ConnectionConfig.t) : string :=
  strOr (ConnectionConfig.host cfg) "http://localhost:8086".

(** [new InfluxDB({ url, token })], evaluated before the assignment to
    [this.client]: when it throws, no field has changed. *)
Definition newClient : Eff Driver unit :=
  fun d => (ofOutcome (newInfluxDB (env d) (url (config d))), d).

(** The constructor call and [getQueryApi] stand before the [try]: what
    the constructor throws leaves [connect()] as it is. *)
Definition connect : Eff Driver unit :=
  newClient ;;;
  setHandle true ;;;        (* this.client = new InfluxDB({ url, token }) *)
  setQueryHandle true ;;;   (* this.queryApi = this.client.getQueryApi(...) *)
  tryCatch
    (_ <- backendQuery "queryApi.queryRows" "buckets() |> limit(n: 1)" None ;;
     setConnected true)
    (fun error =>
       throw (Error ("Failed to connect to InfluxDB: " +:+ messageOf error))).

Definition disconnect : Eff Driver unit :=
  setHandle false ;;;
  setQueryHandle false ;;;
  setConnected false.

Definition isConnected (d : Driver) : bool := connected d && handle d.

(** No [validateQuery] here: "For InfluxDB, we don't check for write
    queries in the same way.  Flux queries are typically read-only
    through the query API". *)
Definition executeQuery (fluxQuery : string) (params : option (list JsValue))
  : Eff Driver QueryResult.t :=
  h <- gets queryHandle ;;
  if negb h then throw (Error "Not connected to InfluxDB")
  else backendQuery "queryApi.queryRows" fluxQuery None.
End InfluxDbDriver.

(** ** prometheusDriver.ts *)

Module PrometheusDriver.
Import Drivers.

(** [s.endsWith('/') ? s.slice(0, -1) : s] *)
Fixpoint stripTrailingSlash (s : string) : string :=
  match s with
  | EmptyString => EmptyString
  | String c EmptyString => if Ascii.eqb c "/" then EmptyString else s
  | String c s' => String c (stripTrailingSlash s')
  end.

(** [fetch] rejects a URL without a scheme before any request is made;
    with an empty [baseUrl] the URL is the bare path. *)
Definition fetchPrometheus (path : string) : Eff Driver QueryResult.t :=
  b <- gets baseUrl ;;
  let url := b +:+ path in
  if JsString.startsWith url "/"
  then throw (TypeError ("Failed to parse URL from " +:+ url))
  else backendQuery "fetch" url None.

(** The [Authorization] header is carried by every request and does
    not influence the control flow; it is left out. *)
Definition connect : Eff Driver unit :=
  c <- gets config ;;
  setBaseUrl
    (stripTrailingSlash (strOr (ConnectionConfig.host c) "http://localhost:9090")) ;;;
  tryCatch
    (_ <- fetchPrometheus "/api/v1/status/buildinfo" ;;
     setConnected true)
    (fun error =>
       throw (Error ("Failed to connect to Prometheus: " +:+ messageOf error))).

Definition disconnect : Eff Driver unit :=
  setBaseUrl EmptyString ;;;
  setConnected false.

Definition isConnected (d : Driver) : bool :=
  connected d && negb (String.eqb (baseUrl d) EmptyString).

Definition executeQuery (promQuery : string) (params : option (list JsValue))
  : Eff Driver QueryResult.t :=
  c <- gets connected ;;
  if negb c then throw (Error "Not connected to Prometheus")
  else
    (encode <- gets (fun d => encodeURIComponent (env d)) ;;
     fetchPrometheus ("/api/v1/query?query=" +:+ encode promQuery)).
End PrometheusDriver.

(** ** The [DbDriver] interface of types.ts

    A driver object owns its state (and its environment): a method acts
    on the object it is called on and on nothing else. *)

Class DbDriver (D : Type) := {
  drv_connect : Eff D unit;
  drv_disconnect : Eff D unit;
  drv_isConnected : D -> bool;
  drv_executeQuery : string -> option (list JsValue) -> Eff D QueryResult.t
}.

(** A driver whose [connect()] has returned reports that it is
    connected. *)
Class DbDriverLaws (D : Type) `{DbDriver D} : Prop := {
  connect_ok_isConnected :
    forall d : D, fst (drv_connect d) = Ok tt ->
                  drv_isConnected (snd (drv_connect d)) = true
}.

(** Method dispatch on the class of the object. *)
Module Driver.

Definition connect : Eff Driver unit :=
  fun d =>
    match kind d with
    | Postgres => PostgresDriver.connect d
    | MySql => MySqlDriver.connect d
    | Sqlite => SqliteDriver.connect d
    | Mssql => MssqlDriver.connect d
    | Mongo => MongoDriver.connect d
    | InfluxDb => InfluxDbDriver.connect d
    | Prometheus => PrometheusDriver.connect d
    end.

Definition disconnect : Eff Driver unit :=
  fun d =>
    match kind d with
    | Postgres => PostgresDriver.disconnect d
    | MySql => MySqlDriver.disconnect d
    | Sqlite => SqliteDriver.disconnect d
    | Mssql => MssqlDriver.disconnect d
    | Mongo => MongoDriver.disconnect d
    | InfluxDb => InfluxDbDriver.disconnect d
    | Prometheus => PrometheusDriver.disconnect d
    end.

Definition isConnected (d : Driver) : bool :=
  match kind d with
  | Postgres => PostgresDriver.isConnected d
  | MySql => MySqlDriver.isConnected d
  | Sqlite => SqliteDriver.isConnected d
  | Mssql => MssqlDriver.isConnected d
  | Mongo => MongoDriver.isConnected d
  | InfluxDb => InfluxDbDriver.isConnected d
  | Prometheus => PrometheusDriver.isConnected d
  end.

Definition executeQuery (text : string) (params : option (list JsValue))
  : Eff Driver QueryResult.t :=
  fun d =>
    match kind d with
    | Postgres => PostgresDriver.executeQuery text params d
    | MySql => MySqlDriver.executeQuery text params d
    | Sqlite => SqliteDriver.executeQuery text params d
    | Mssql => MssqlDriver.executeQuery text params d
    | Mongo => MongoDriver.executeQuery text params d
    | InfluxDb => InfluxDbDriver.executeQuery text params d
    | Prometheus => PrometheusDriver.executeQuery text params d
    end.

End Driver.

#[export] Instance Driver_DbDriver : DbDriver Driver := {
  drv_connect := Driver.connect;
  drv_disconnect := Driver.disconnect;
  drv_isConnected := Driver.isConnected;
  drv_executeQuery := Driver.executeQuery
}.

(** ** Promises

    An [async] method never throws at the call: it returns a promise,
    here already settled.  [await] rethrows a rejection. *)

Definition Promise (A : Type) : Type := Result A.

Definition await {S A} (p : Promise A) : Eff S A :=
  match p with
  | Ok a => ret a
  | Throw e => throw e
  end.

(** [p.catch(h)]: the promise that results is fulfilled whenever [h]
    returns. *)
Definition promiseCatch {S A} (p : Promise A) (h : JsError -> Eff S A)
  : Eff S (Promise A) :=
  match p with
  | Ok a => ret (Ok a)
  | Throw e => fun s => let '(r, s') := h e s in (Ok r, s')
  end.

(** [Promise.all]: rejected with the first rejection, if there is one. *)
Fixpoint Promise_all {A} (ps : list (Promise A)) : Promise (list A) :=
  match ps with
  | [] => Ok []
  | Ok a :: ps' =>
      match Promise_all ps' with
      | Ok l => Ok (a :: l)
      | Throw e => Throw e
      end
  | Throw e :: _ => Throw e
  end.

(** [Array.prototype.map] with an effectful callback. *)
Fixpoint mapM {S A B} (f : A -> Eff S B) (l : list A) : Eff S (list B) :=
  match l with
  | [] => ret []
  | a :: l' => b <- f a ;; bs <- mapM f l' ;; ret (b :: bs)
  end.

(** ** The world: driver objects, what was called on them, the console
    and the static registry of the factory *)

Inductive Method :=
| MConnect
| MDisconnect
| MExecuteQuery (text : string).

Inductive ConsoleEntry :=
| ConsoleWarn (message : string)
| ConsoleError (message : string) (err : JsError).

Module DriverRegistration.
Record t (D : Type) := mk {
  metadata : DriverMetadata.t;
  constructor : ConnectionConfig.t -> string -> D
}.
Arguments mk {D} _ _.
Arguments metadata {D} _.
Arguments constructor {D} _ _ _.
End DriverRegistration.

Record World (D : Type) := mkWorld {
  heap : list D;
  trace : list (nat * Method);
  console : list ConsoleEntry;
  registry : JsMap.t (DriverRegistration.t D)
}.
Arguments mkWorld {D} _ _ _ _.
Arguments heap {D} _.
Arguments trace {D} _.
Arguments console {D} _.
Arguments registry {D} _.

Section Objects.
Context {D : Type} `{DbDriver D}.

(** The world with one more object, [d], at the next free address. *)
Definition allocated (w : World D) (d : D) : World D :=
  {| heap := heap w ++ [d]; trace := trace w;
     console := console w; registry := registry w |}.

(** [new C(...)]: the object gets the next free address. *)
Definition alloc (d : D) : Eff (World D) nat :=
  fun w => (Ok (length (heap w)), allocated w d).

Definition notAnObject : JsError :=
  TypeError "Cannot read properties of undefined".

(** The world after method [m] has run on the object at [r] and left
    it in state [d']. *)
Definition called (w : World D) (r : nat) (m : Method) (d' : D) : World D :=
  {| heap := <[r := d']> (heap w); trace := trace w ++ [(r, m)];
     console := console w; registry := registry w |}.

(** [obj.m(...)] for an [async] method [m]: the object is updated, the
    call is recorded and the promise is returned.  Only a call on
    something that is not an object throws at once.  A method acts on
    its own object only, so calls on different objects commute and each
    call is taken to run to completion where it is made. *)
Definition call {A} (r : nat) (m : Method) (f : Eff D A)
  : Eff (World D) (Promise A) :=
  fun w =>
    match heap w !! r with
    | None => (Throw notAnObject, w)
    | Some d =>
        let '(res, d') := f d in
        (Ok res, called w r m d')
    end.

(** [obj.isConnected()] *)
Definition isConnected (r : nat) : Eff (World D) bool :=
  fun w =>
    match heap w !! r with
    | None => (Throw notAnObject, w)
    | Some d => (Ok (drv_isConnected d), w)
    end.

(** What the object at [r] answers to [isConnected()], if there is an
    object at [r]. *)
Definition reportsConnected (w : World D) (r : nat) : option bool :=
  drv_isConnected <$> heap w !! r.

Definition consoleLog (e : ConsoleEntry) : Eff (World D) unit :=
  modify (fun w =>
    {| heap := heap w; trace := trace w;
       console := console w ++ [e]; registry := registry w |}).

End Objects.

(** ** driverFactory.ts *)

Module DriverFactory.
Section WithDriver.
Context {D : Type} `{DbDriver D}.

Definition register (metadata : DriverMetadata.t)
    (constructor : ConnectionConfig.t -> string -> D) : Eff (World D) unit :=
  reg <- gets registry ;;
  (if JsMap.has reg (DriverMetadata.id metadata)
   then consoleLog
          (ConsoleWarn ("Driver '" +:+ DriverMetadata.id metadata
                        +:+ "' is already registered. Overwriting."))
   else ret tt) ;;;
  modify (fun w =>
    {| heap := heap w; trace := trace w; console := console w;
       registry := JsMap.set (registry w) (DriverMetadata.id metadata)
                     (DriverRegistration.mk metadata constructor) |}).

Definition unknownDriverType (type : string) (keys : list string) : JsError :=
  let available := join ", " keys in
  Error ("Unknown driver type: '" +:+ type +:+ "'. Available drivers: "
         +:+ strOr (Some available) "none registered").

Definition create (type : string) (config : ConnectionConfig.t)
    (password : string) : Eff (World D) nat :=
  reg <- gets registry ;;
  match JsMap.get reg type with
  | None => throw (unknownDriverType type (JsMap.keys reg))
  | Some registration =>
      alloc (DriverRegistration.constructor registration config password)
  end.

Definition isRegistered (type : string) : Eff (World D) bool :=
  gets (fun w => JsMap.has (registry w) type).

End WithDriver.
End DriverFactory.

(** ** storage/connectionStore (outside the modelled sources): the two
    lookups the registry uses, as the functions they compute. *)

Module ConnectionStore.
Record t := mk {
  getConnection : string -> Result (option ConnectionConfig.t);
  getPassword : string -> Result (option string)
}.
End ConnectionStore.

(** ** driverRegistry.ts *)

Module DriverRegistry.

Record t (D : Type) := mk {
  drivers : JsMap.t nat;
  connectionStore : ConnectionStore.t;
  world : World D
}.
Arguments mk {D} _ _ _.
Arguments drivers {D} _.
Arguments connectionStore {D} _.
Arguments world {D} _.

Section WithDriver.
Context {D : Type} `{DbDriver D}.

(** A computation on the world, run from a method of the registry. *)
Definition inWorld {A} (m : Eff (World D) A) : Eff (t D) A :=
  fun s =>
    let '(r, w') := m (world s) in
    (r, {| drivers := drivers s; connectionStore := connectionStore s;
           world := w' |}).

Definition setDrivers (f : JsMap.t nat -> JsMap.t nat) : Eff (t D) unit :=
  modify (fun s =>
    {| drivers := f (drivers s); connectionStore := connectionStore s;
       world := world s |}).

(** [new DriverRegistry(connectionStore)] *)
Definition new (store : ConnectionStore.t) (w : World D) : t D :=
  {| drivers := JsMap.empty; connectionStore := store; world := w |}.

Definition connect (connectionId : string) : Eff (t D) nat :=
  existing <- gets (fun s => JsMap.get (drivers s) connectionId) ;;
  (* existing?.isConnected() *)
  alreadyConnected <-
    match existing with
    | Some r => c <- inWorld (isConnected r) ;; ret (if c then Some r else None)
    | None => ret None
    end ;;
  match alreadyConnected with
  | Some r => ret r
  | None =>
      store <- gets connectionStore ;;
      config <- await (ConnectionStore.getConnection store connectionId) ;;
      match config with
      | None => throw (Error ("Connection " +:+ connectionId +:+ " not found"))
      | Some config =>
          password <- await (ConnectionStore.getPassword store connectionId) ;;
          driver <- inWorld
                      (DriverFactory.create (ConnectionConfig.type config)
                         config (strOr password EmptyString)) ;;
          p <- inWorld (call driver MConnect drv_connect) ;;
          await p ;;;
          setDrivers (fun m => JsMap.set m connectionId driver) ;;;
          ret driver
      end
  end.

Definition disconnect (connectionId : string) : Eff (t D) unit :=
  driver <- gets (fun s => JsMap.get (drivers s) connectionId) ;;
  match driver with
  | Some driver =>
      p <- inWorld (call driver MDisconnect drv_disconnect) ;;
      await p ;;;
      setDrivers (fun m => JsMap.delete m connectionId)
  | None => ret tt
  end.

(** [driver => driver.disconnect().catch(err =>
      console.error('Error disconnecting:', err))] *)
Definition disconnectLogged (driver : nat) : Eff (World D) (Promise unit) :=
  p <- call driver MDisconnect drv_disconnect ;;
  promiseCatch p
    (fun err => consoleLog (ConsoleError "Error disconnecting:" err)).

(** The promises are created in the order of the cache and awaited
    together; the cache is cleared once all of them are settled. *)
Definition disconnectAll : Eff (t D) unit :=
  values <- gets (fun s => JsMap.values (drivers s)) ;;
  disconnectPromises <- inWorld (mapM disconnectLogged values) ;;
  _ <- await (Promise_all disconnectPromises) ;;
  setDrivers JsMap.clear.

Definition getDriver (connectionId : string) (s : t D) : option nat :=
  JsMap.get (drivers s) connectionId.

(** [isConnected(connectionId)]: [driver?.isConnected() ?? false] *)
Definition isConnected (connectionId : string) : Eff (t D) bool :=
  driver <- gets (fun s => JsMap.get (drivers s) connectionId) ;;
  match driver with
  | Some r => inWorld (isConnected r)
  | None => ret false
  end.

End WithDriver.
End DriverRegistry.

(** ** replicaRouter.ts *)

Module ReplicaRouter.

Record t (D : Type) := mk {
  writeDriver : option nat;
  readDrivers : list nat;
  currentReadIndex : nat;
  config : ReplicaConfig.t;
  baseConfig : ConnectionConfig.t;
  password : string;
  world : World D
}.
Arguments mk {D} _ _ _ _ _ _ _.
Arguments writeDriver {D} _.
Arguments readDrivers {D} _.
Arguments currentReadIndex {D} _.
Arguments config {D} _.
Arguments baseConfig {D} _.
Arguments password {D} _.
Arguments world {D} _.

Section WithDriver.
Context {D : Type} `{DbDriver D}.

Definition inWorld {A} (m : Eff (World D) A) : Eff (t D) A :=
  fun s =>
    let '(r, w') := m (world s) in
    (r, {| writeDriver := writeDriver s; readDrivers := readDrivers s;
           currentReadIndex := currentReadIndex s; config := config s;
           baseConfig := baseConfig s; password := password s;
           world := w' |}).

Definition setWriteDriver (d : option nat) : Eff (t D) unit :=
  modify (fun s =>
    {| writeDriver := d; readDrivers := readDrivers s;
       currentReadIndex := currentReadIndex s; config := config s;
       baseConfig := baseConfig s; password := password s;
       world := world s |}).

Definition setReadDrivers (f : list nat -> list nat) : Eff (t D) unit :=
  modify (fun s =>
    {| writeDriver := writeDriver s; readDrivers := f (readDrivers s);
       currentReadIndex := currentReadIndex s; config := config s;
       baseConfig := baseConfig s; password := password s;
       world := world s |}).

Definition setCurrentReadIndex (i : nat) : Eff (t D) unit :=
  modify (fun s =>
    {| writeDriver := writeDriver s; readDrivers := readDrivers s;
       currentReadIndex := i; config := config s;
       baseConfig := baseConfig s; password := password s;
       world := world s |}).

(** [new ReplicaRouter(config, baseConfig, password)] *)
Definition new (cfg : ReplicaConfig.t) (base : ConnectionConfig.t)
    (pw : string) (w : World D) : t D :=
  {| writeDriver := None; readDrivers := []; currentReadIndex := 0;
     config := cfg; baseConfig := base; password := pw; world := w |}.

(** The body of [for (const readHost of this.config.readHosts)]. *)
Fixpoint connectReadReplicas (hosts : list ReadReplicaHost.t) : Eff (t D) unit :=
  match hosts with
  | [] => ret tt
  | readHost :: rest =>
      base <- gets baseConfig ;;
      pw <- gets password ;;
      let readConfig :=
        ConnectionConfig.withEndpoint base
          (ReadReplicaHost.host readHost) (ReadReplicaHost.port readHost) in
      readDriver <- inWorld
                      (DriverFactory.create (ConnectionConfig.type base)
                         readConfig pw) ;;
      p <- inWorld (call readDriver MConnect drv_connect) ;;
      await p ;;;
      setReadDrivers (fun l => l ++ [readDriver]) ;;;
      connectReadReplicas rest
  end.

Definition connect : Eff (t D) unit :=
  cfg <- gets config ;;
  base <- gets baseConfig ;;
  pw <- gets password ;;
  let writeConfig :=
    ConnectionConfig.withEndpoint base
      (ReplicaConfig.writeHost cfg) (ReplicaConfig.writePort cfg) in
  w <- inWorld (DriverFactory.create (ConnectionConfig.type base) writeConfig pw) ;;
  setWriteDriver (Some w) ;;;
  p <- inWorld (call w MConnect drv_connect) ;;
  await p ;;;
  connectReadReplicas (ReplicaConfig.readHosts cfg).

(** The body of [for (const driver of this.readDrivers)]. *)
Fixpoint disconnectReadReplicas (l : list nat) : Eff (t D) unit :=
  match l with
  | [] => ret tt
  | driver :: rest =>
      p <- inWorld (call driver MDisconnect drv_disconnect) ;;
      await p ;;;
      disconnectReadReplicas rest
  end.

Definition disconnect : Eff (t D) unit :=
  w <- gets writeDriver ;;
  (match w with
   | Some w =>
       p <- inWorld (call w MDisconnect drv_disconnect) ;;
       await p ;;;
       setWriteDriver None
   | None => ret tt
   end) ;;;
  l <- gets readDrivers ;;
  disconnectReadReplicas l ;;;
  setReadDrivers (fun _ => []).

Definition getWriteDriver : Eff (t D) nat :=
  w <- gets writeDriver ;;
  match w with
  | None => throw (Error "Write replica not connected")
  | Some w => ret w
  end.

(** [Array.prototype.find] with [d => d.isConnected()] *)
Fixpoint findConnected (l : list nat) : Eff (World D) (option nat) :=
  match l with
  | [] => ret None
  | d :: rest =>
      c <- isConnected d ;;
      if c then ret (Some d) else findConnected rest
  end.

(** [Array.prototype.some] with [d => d.isConnected()] *)
Fixpoint someConnected (l : list nat) : Eff (World D) bool :=
  match l with
  | [] => ret false
  | d :: rest =>
      c <- isConnected d ;;
      if c then ret true else someConnected rest
  end.

(** [array[i]] for a number [i] that is an integer: [undefined]
    outside the array. *)
Definition at_ (l : list nat) (i : Z) : option nat :=
  if (i <? 0)%Z then None else l !! Z.to_nat i.

(** The [switch] on [this.config.loadBalancing]; [random] is the value
    [Math.random()] returns, should this call draw one. *)
Definition pickReadDriver (random : Q) (l : list nat) : Eff (t D) (option nat) :=
  strategy <- gets (fun s => ReplicaConfig.loadBalancing (config s)) ;;
  if String.eqb strategy "round-robin" then
    (i <- gets currentReadIndex ;;
     setCurrentReadIndex ((i + 1) mod length l) ;;;
     ret (l !! i))
  else if String.eqb strategy "random" then
    (let randomIndex := Qfloor (random * inject_Z (Z.of_nat (length l))) in
     ret (at_ l randomIndex))
  else if String.eqb strategy "first-available" then
    (found <- inWorld (findConnected l) ;;
     ret (match found with
          | Some d => Some d
          | None => l !! 0
          end))
  else ret (l !! 0).

(** "Ensure the driver is connected": [driver.isConnected()] on the
    driver picked, which is [undefined] when the index was outside the
    array, and the fall back to the write driver. *)
Definition ensureConnected (driver : option nat) : Eff (t D) nat :=
  match driver with
  | None => throw notAnObject
  | Some driver =>
      c <- inWorld (isConnected driver) ;;
      if negb c then getWriteDriver else ret driver
  end.

Definition getReadDriver (random : Q) : Eff (t D) nat :=
  l <- gets readDrivers ;;
  if Nat.eqb (length l) 0 then getWriteDriver
  else (driver <- pickReadDriver random l ;; ensureConnected driver).

(** [/^(insert|update|delete|drop|alter|create|truncate|grant|revoke)/i] *)
Definition writePattern : JsString.RegExp :=
  {| JsString.source :=
       JsString.PSeq JsString.PStart
         (JsString.alternatives
            (map JsString.literal
               ["insert"; "update"; "delete"; "drop"; "alter"; "create";
                "truncate"; "grant"; "revoke"]));
     JsString.ignoreCase := true |}.

Definition isWriteQuery (sql : string) : bool :=
  let normalized := JsString.toLowerCase (JsString.trim sql) in
  JsString.test writePattern normalized.

Definition executeQuery (sql : string) (params : option (list JsValue))
    (random : Q) : Eff (t D) QueryResult.t :=
  driver <- (if isWriteQuery sql then getWriteDriver
             else getReadDriver random) ;;
  p <- inWorld (call driver (MExecuteQuery sql) (drv_executeQuery sql params)) ;;
  await p.

(** [isConnected()] of the router *)
Definition isConnected : Eff (t D) bool :=
  w <- gets writeDriver ;;
  writeConnected <-
    match w with
    | Some w => inWorld (isConnected w)
    | None => ret false
    end ;;
  l <- gets readDrivers ;;
  readsConnected <-
    (if Nat.eqb (length l) 0 then ret true
     else inWorld (someConnected l)) ;;
  ret (writeConnected && readsConnected).

End WithDriver.
End ReplicaRouter.

(** ** The write-query classifier on every string

    A JavaScript string is a sequence of 16-bit code units.  [JsString]
    writes out [trim], [toLowerCase] and the case folding of a RegExp
    for the units below U+0100; this module gives them for every unit.
    From U+0100 up they follow the Unicode tables of the engine, of which
    the text below spells out the white space and the two code points
    whose lower-case mapping has a letter a-z (U+0130 and U+212A), and
    leaves the rest to a [Unicode] record. *)

Module Utf16.
Import JsString.

(** The code units of a string. *)
Definition JsText : Type := list N.

Definition isCodeUnit (c : N) : Prop := (c < 65536)%N.

(** The text of a [string] of [JsString]. *)
Definition units (s : string) : JsText := map code (list_ascii_of_string s).

(** WhiteSpace and LineTerminator: TAB, LF, VT, FF, CR, SPACE, NO-BREAK
    SPACE, U+1680, U+2000-U+200A, LINE SEPARATOR U+2028, PARAGRAPH
    SEPARATOR U+2029, U+202F, U+205F, U+3000 and U+FEFF. *)
Definition isWhiteSpace (c : N) : bool :=
  between 9 13 c || (c =? 32)%N || (c =? 160)%N || (c =? 0x1680)%N
  || between 0x2000 0x200A c || (c =? 0x2028)%N || (c =? 0x2029)%N
  || (c =? 0x202F)%N || (c =? 0x205F)%N || (c =? 0x3000)%N || (c =? 0xFEFF)%N.

Fixpoint trimStart (s : JsText) : JsText :=
  match s with
  | [] => []
  | c :: s' => if isWhiteSpace c then trimStart s' else s
  end.

Fixpoint trimEnd (s : JsText) : JsText :=
  match s with
  | [] => []
  | c :: s' =>
      match trimEnd s' with
      | [] => if isWhiteSpace c then [] else [c]
      | t => c :: t
      end
  end.

(** [String.prototype.trim] *)
Definition trim (s : JsText) : JsText := trimEnd (trimStart s).

(** What the engine takes from the Unicode tables for the units this
    module does not spell out. *)
Record Unicode := mkUnicode {
  (** [toLowerCase] from the first unit that is not spelled out:
      [lowerFrom before rest] is the lower-case text of [rest], which
      stands after the units [before] in the string.  It is given the
      whole rest and what precedes it because the mapping can depend on
      the neighbours (a surrogate pair is one code point; capital sigma
      has a final form). *)
  lowerFrom : JsText -> JsText -> JsText;
  (** The upper-case mapping of a unit from U+0100 up, when it is one
      code unit. *)
  upperUnit : N -> option N
}.

(** The lower-case mapping of the units spelled out here: those below
    U+0100 as in [JsString], LATIN CAPITAL LETTER I WITH DOT ABOVE
    (U+0130, to i and COMBINING DOT ABOVE) and KELVIN SIGN (U+212A, to
    k). *)
Definition lowerUnit (c : N) : option JsText :=
  if (c <? 256)%N then Some [code (toLowerCaseChar (ascii_of_N c))]
  else if (c =? 0x130)%N then Some [0x69; 0x307]%N
  else if (c =? 0x212A)%N then Some [0x6B]%N
  else None.

Definition spelledOut (c : N) : Prop := lowerUnit c <> None.

(** The one fact about the other code points that the classifier rests
    on: the lower-case text of a rest that starts with one of them
    starts with a unit that is not ASCII.  (In the Unicode Character
    Database, U+0130 and U+212A are the only code points from U+0080 up
    whose lower-case mapping has an ASCII code point, and no mapping is
    empty.) *)
Definition lowerFromNotAscii (U : Unicode) : Prop :=
  forall (before : JsText) (c : N) (rest : JsText),
    Forall spelledOut before -> isCodeUnit c -> lowerUnit c = None ->
    exists u t, lowerFrom U before (c :: rest) = u :: t /\ (128 <= u)%N.

Fixpoint toLowerCaseFrom (U : Unicode) (before s : JsText) : JsText :=
  match s with
  | [] => []
  | c :: s' =>
      match lowerUnit c with
      | Some l => l ++ toLowerCaseFrom U (before ++ [c]) s'
      | None => lowerFrom U before s
      end
  end.

(** [String.prototype.toLowerCase] *)
Definition toLowerCase (U : Unicode) (s : JsText) : JsText :=
  toLowerCaseFrom U [] s.

(** Canonicalize of a RegExp without the [u] flag, on any code unit:
    with the [i] flag, the upper-case mapping when it is a single code
    unit, except that a non-ASCII unit never folds to an ASCII one. *)
Definition canonicalize (U : Unicode) (ignoreCase : bool) (c : N) : N :=
  if (c <? 256)%N then JsString.canonicalize ignoreCase (ascii_of_N c)
  else if negb ignoreCase then c
  else match upperUnit U c with
       | Some cu => if (cu <? 128)%N then c else cu
       | None => c
       end.

(** The matcher of [JsString] on code units; the characters of a
    pattern are below U+0100. *)
Fixpoint matchAt (U : Unicode) (ic : bool) (p : Pattern)
    (k : nat -> JsText -> bool) (pos : nat) (s : JsText) : bool :=
  match p with
  | PEmpty => k pos s
  | PChar c =>
      match s with
      | d :: s' =>
          if (canonicalize U ic d =? JsString.canonicalize ic c)%N
          then k (S pos) s' else false
      | [] => false
      end
  | PSeq p1 p2 => matchAt U ic p1 (fun pos' s' => matchAt U ic p2 k pos' s') pos s
  | PAlt p1 p2 => matchAt U ic p1 k pos s || matchAt U ic p2 k pos s
  | PStart => if Nat.eqb pos 0 then k pos s else false
  end.

Fixpoint searchFrom (U : Unicode) (ic : bool) (p : Pattern) (pos : nat)
    (s : JsText) : bool :=
  matchAt U ic p (fun _ _ => true) pos s
  || match s with
     | [] => false
     | _ :: s' => searchFrom U ic p (S pos) s'
     end.

(** [RegExp.prototype.test] *)
Definition test (U : Unicode) (re : RegExp) (s : JsText) : bool :=
  searchFrom U (ignoreCase re) (source re) 0 s.

(** [isWriteQuery] of baseDriver.ts *)
Definition BaseDbDriver_isWriteQuery (U : Unicode) (sql : JsText) : bool :=
  let normalized := toLowerCase U (trim sql) in
  test U BaseDbDriver.writePattern normalized.

(** [isWriteQuery] of replicaRouter.ts *)
Definition ReplicaRouter_isWriteQuery (U : Unicode) (sql : JsText) : bool :=
  let normalized := toLowerCase U (trim sql) in
  test U ReplicaRouter.writePattern normalized.

End Utf16.

(** ** The write-query classifier in the words of the specification

    "A case-insensitive match against a fixed prefix set - insert,
    update, delete, drop, alter, create, truncate, grant, revoke -
    applied to the trimmed query text." *)

Module Spec.

Definition writePrefixes : list string :=
  ["insert"; "update"; "delete"; "drop"; "alter"; "create";
   "truncate"; "grant"; "revoke"].

Definition isSmallLetter (p : ascii) : bool :=
  JsString.between 97 122 (JsString.code p).

Fixpoint allSmallLetters (s : string) : bool :=
  match s with
  | EmptyString => true
  | String c s' => isSmallLetter c && allSmallLetters s'
  end.

(** The capital of a small letter a-z. *)
Definition capital (p : ascii) : ascii :=
  if isSmallLetter p then ascii_of_N (JsString.code p - 32) else p.

(** [c] is the letter [p], small or capital. *)
Definition sameLetter (p c : ascii) : bool :=
  Ascii.eqb c p || Ascii.eqb c (capital p).

Fixpoint beginsWith (prefix text : string) : bool :=
  match prefix, text with
  | EmptyString, _ => true
  | String p prefix', String c text' =>
      sameLetter p c && beginsWith prefix' text'
  | String _ _, EmptyString => false
  end.

Definition isWriteQuery (text : string) : bool :=
  existsb (fun prefix => beginsWith prefix (JsString.trim text)) writePrefixes.

End Spec.

(** The same on every string.  "Case-insensitive" is read on the
    letters a-z and A-Z in [sameLetter]; [sameLetterOrKelvin] also takes
    KELVIN SIGN for the letter k. *)

Module SpecUtf16.
Import Utf16.

Definition sameLetter (p : ascii) (c : N) : bool :=
  (c =? JsString.code p)%N || (c =? JsString.code (Spec.capital p))%N.

Definition kelvinSign : N := 0x212A%N.

Definition sameLetterOrKelvin (p : ascii) (c : N) : bool :=
  sameLetter p c || (Ascii.eqb p "k" && (c =? kelvinSign)%N).

Fixpoint beginsWith (same : ascii -> N -> bool) (prefix : string)
    (text : JsText) : bool :=
  match prefix, text with
  | EmptyString, _ => true
  | String p prefix', c :: text' => same p c && beginsWith same prefix' text'
  | String _ _, [] => false
  end.

Definition isWriteQuery (same : ascii -> N -> bool) (text : JsText) : bool :=
  existsb (fun prefix => beginsWith same prefix (trim text)) Spec.writePrefixes.

Fixpoint lastLetter (prefix : string) : option ascii :=
  match prefix with
  | EmptyString => None
  | String p EmptyString => Some p
  | String _ prefix' => lastLetter prefix'
  end.

End SpecUtf16.

(** ** Concrete objects used to exercise the definitions *)

Module Examples.

Definition emptyResult : QueryResult.t :=
  {| QueryResult.columns := []; QueryResult.rows := [];
     QueryResult.rowCount := 0; QueryResult.affectedRows := None |}.

(** A client that is built for http and https URLs only. *)
Definition httpOnly (url : string) : option JsError :=
  if JsString.startsWith url "http://" || JsString.startsWith url "https://"
  then None
  else Some (Error ("Unsupported protocol in URL: " +:+ url)).

(** A backend that accepts every call and returns no rows. *)
Definition quietEnv : Env :=
  {| onConnect := fun _ => None;
     onClose := fun _ => None;
     onSave := fun _ => None;
     newInfluxDB := httpOnly;
     onQuery := fun _ _ _ _ => Ok emptyResult;
     JSON_parse := fun _ => None;
     encodeURIComponent := fun s => s |}.

Definition exampleConfig (type : string) (ro : option bool) : ConnectionConfig.t :=
  {| ConnectionConfig.id := "c1"; ConnectionConfig.name := "main";
     ConnectionConfig.type := type;
     ConnectionConfig.host := Some "http://db.example";
     ConnectionConfig.port := Some 5432%Z;
     ConnectionConfig.database := Some "app";
     ConnectionConfig.username := Some "reader";
     ConnectionConfig.filepath := Some "/tmp/app.db";
     ConnectionConfig.readOnly := ro;
     ConnectionConfig.replicaConfig := None |}.

Definition brokenCloseEnv : Env :=
  {| onConnect := fun _ => None;
     onClose := fun _ => Some (Error "socket hang up");
     onSave := fun _ => None;
     newInfluxDB := httpOnly;
     onQuery := fun _ _ _ _ => Ok emptyResult;
     JSON_parse := fun _ => None;
     encodeURIComponent := fun s => s |}.

Definition metadataOf (id displayName : string) : DriverMetadata.t :=
  {| DriverMetadata.id := id; DriverMetadata.displayName := displayName;
     DriverMetadata.category := "relational";
     DriverMetadata.defaultPort := Some 5432%Z;
     DriverMetadata.capabilities := Capabilities.SQL_FULL_CAPABILITIES |}.

Definition emptyWorld : World Driver :=
  {| heap := []; trace := []; console := []; registry := JsMap.empty |}.

(** Two registered driver types: "postgres", and "flaky", a postgres
    driver whose pool fails to close. *)
Definition exampleWorld : World Driver :=
  snd ((DriverFactory.register (metadataOf "postgres" "PostgreSQL")
          (Drivers.new Postgres quietEnv) ;;;
        DriverFactory.register (metadataOf "flaky" "Flaky")
          (Drivers.new Postgres brokenCloseEnv)) emptyWorld).

Definition exampleStore : ConnectionStore.t :=
  {| ConnectionStore.getConnection := fun id =>
       if String.eqb id "c1" then Ok (Some (exampleConfig "postgres" None))
       else if String.eqb id "c2" then Ok (Some (exampleConfig "flaky" None))
       else Ok None;
     ConnectionStore.getPassword := fun _ => Ok (Some "secret") |}.

(** A registry with "c1" and "c2" connected. *)
Definition twoConnections : DriverRegistry.t Driver :=
  snd ((DriverRegistry.connect "c1" ;;; DriverRegistry.connect "c2")
         (DriverRegistry.new exampleStore exampleWorld)).

(** The same registry after a caller that holds the driver of "c1" has
    called [disconnect()] on it directly: the cache entry is stale. *)
Definition staleConnection : DriverRegistry.t Driver :=
  {| DriverRegistry.drivers := DriverRegistry.drivers twoConnections;
     DriverRegistry.connectionStore := exampleStore;
     DriverRegistry.world :=
       snd (call 0 MDisconnect Driver.disconnect
              (DriverRegistry.world twoConnections)) |}.

(** A replica configuration with one primary and three read replicas. *)
Definition replicaConfig (strategy : string) : ReplicaConfig.t :=
  {| ReplicaConfig.enabled := true;
     ReplicaConfig.writeHost := "primary";
     ReplicaConfig.writePort := 1433%Z;
     ReplicaConfig.readHosts :=
       [ReadReplicaHost.mk "replica1" 1433%Z None;
        ReadReplicaHost.mk "replica2" 1433%Z None;
        ReadReplicaHost.mk "replica3" 1433%Z None];
     ReplicaConfig.loadBalancing := strategy |}.

Definition refusingEnv : Env :=
  {| onConnect := fun _ => Some (Error "connect ECONNREFUSED");
     onClose := fun _ => None;
     onSave := fun _ => None;
     newInfluxDB := httpOnly;
     onQuery := fun _ _ _ _ => Ok emptyResult;
     JSON_parse := fun _ => None;
     encodeURIComponent := fun s => s |}.

(** The mssql driver class in a network where the hosts [down] refuse
    connections. *)
Definition mssqlWhereDown (down : list string) (cfg : ConnectionConfig.t)
    (pw : string) : Driver :=
  Drivers.new Mssql
    (match ConnectionConfig.host cfg with
     | Some h => if existsb (String.eqb h) down then refusingEnv else quietEnv
     | None => quietEnv
     end) cfg pw.

Definition networkWhereDown (down : list string) : Eff (World Driver) unit :=
  DriverFactory.register (metadataOf "mssql" "Microsoft SQL Server")
    (mssqlWhereDown down).

Definition freshRouter (strategy : string) (down : list string)
  : ReplicaRouter.t Driver :=
  ReplicaRouter.new (replicaConfig strategy) (exampleConfig "mssql" None)
    "secret" (snd (networkWhereDown down emptyWorld)).

(** All hosts up: the router after a successful [connect()]. *)
Definition connectedRouter (strategy : string) : ReplicaRouter.t Driver :=
  snd (ReplicaRouter.connect (freshRouter strategy [])).

(** The link of the driver at [r] drops: its pool reports
    [connected === false] from now on. *)
Definition linkLost (r : nat) : Eff (World Driver) unit :=
  modify (fun w =>
    {| heap := match heap w !! r with
               | Some d => <[r := snd (Drivers.setPoolConnected false d)]> (heap w)
               | None => heap w
               end;
       trace := trace w; console := console w; registry := registry w |}).

(** A router that is used, disconnected and connected again while
    "replica2" is down:
    [connect(); getReadDriver(); getReadDriver(); disconnect();]
    then "replica2" goes down, [connect()] fails at the second read
    replica, and the link of the one read driver that did connect
    drops. *)
Definition reconnectedRouter : ReplicaRouter.t Driver :=
  snd ((ReplicaRouter.getReadDriver 0 ;;;
        ReplicaRouter.getReadDriver 0 ;;;
        ReplicaRouter.disconnect ;;;
        ReplicaRouter.inWorld (networkWhereDown ["replica2"]) ;;;
        tryCatch ReplicaRouter.connect (fun _ => ret tt) ;;;
        ReplicaRouter.inWorld (linkLost 5))
         (connectedRouter "round-robin")).

(** A router that is used once, disconnected and connected again, all
    hosts up: [connect(); getReadDriver(); disconnect(); connect()]. *)
Definition readThenReconnected : ReplicaRouter.t Driver :=
  snd ((ReplicaRouter.getReadDriver 0 ;;;
        ReplicaRouter.disconnect ;;;
        ReplicaRouter.connect)
         (connectedRouter "round-robin")).

(** Unicode tables in which no unit from U+0100 up has a case mapping
    of its own. *)
Definition caselessAbove : Utf16.Unicode :=
  {| Utf16.lowerFrom := fun _ rest => rest;
     Utf16.upperUnit := fun c => Some c |}.

(** "REVOKE ALL ON t FROM u" with KELVIN SIGN for the K. *)
Definition kelvinRevoke : Utf16.JsText :=
  Utf16.units "REVO" ++ [SpecUtf16.kelvinSign] ++ Utf16.units "E ALL ON t FROM u".

(** "insert into t ..." after an IDEOGRAPHIC SPACE and a BYTE ORDER
    MARK. *)
Definition paddedInsert : Utf16.JsText :=
  [0x3000; 0xFEFF]%N ++ Utf16.units "insert into t ...".

(** "INSERT INTO t ..." with LATIN CAPITAL LETTER I WITH DOT ABOVE for
    the first letter. *)
Definition dottedInsert : Utf16.JsText :=
  [0x130%N] ++ Utf16.units "NSERT INTO t ...".

(** A driver of class [k] on a read-only connection, after its
    [connect()] has succeeded. *)
Definition connectedReadOnly (k : DriverKind) : Driver :=
  snd (Driver.connect
         (Drivers.new k quietEnv (exampleConfig "db" (Some true)) "secret")).

End Examples.

(** ** Further definitions *)

From Stdlib Require DecimalNat DecimalFacts.

(** A text made of WhiteSpace and LineTerminator code units only. *)
Fixpoint allWhiteSpace (s : string) : bool :=
  match s with
  | EmptyString => true
  | String c s' => JsString.isWhiteSpace c && allWhiteSpace s'
  end.

(** The first letters of the nine write prefixes, small and capital. *)
Definition writeInitials : list ascii :=
  list_ascii_of_string "iudactgrIUDACTGR".

(** [s.includes(c)] for one code unit. *)
Fixpoint hasChar (c : ascii) (s : string) : bool :=
  match s with
  | EmptyString => false
  | String a s' => Ascii.eqb a c || hasChar c s'
  end.

(** ** Row operations

    A plain object [Record<string, unknown>] is the list of its own
    entries, in the order [Object.entries] enumerates them. *)

Definition JsObject : Type := list (string * JsValue).

Definition Object_keys (o : JsObject) : list string := map fst o.
Definition Object_values (o : JsObject) : list JsValue := map snd o.

(** The line feed of the template literals. *)
Definition LF : string := String (ascii_of_nat 10) EmptyString.

Definition doubleQuote : string := String (ascii_of_nat 34) EmptyString.

(** [a || b] where [b] may be [undefined] too. *)
Definition strOrUndefined (a b : option string) : option string :=
  match a with
  | Some (String c s) => a
  | _ => b
  end.

(** A [string | undefined] inside a template literal. *)
Definition interpolate (o : option string) : string :=
  match o with
  | Some s => s
  | None => "undefined"
  end.

(** The loops
    [for (const [col, val] of Object.entries(o)) {
       clauses.push(render(col, paramIndex)); values.push(val); paramIndex++ }]. *)
Fixpoint forEntries (render : string -> nat -> string) (o : JsObject)
    (clauses : list string) (values : list JsValue) (paramIndex : nat)
  : list string * list JsValue * nat :=
  match o with
  | [] => (clauses, values, paramIndex)
  | (col, val) :: o' =>
      forEntries render o' (clauses ++ [render col paramIndex])
        (values ++ [val]) (S paramIndex)
  end.

(** [{ ...writeResult, rows: selectResult.rows, columns: selectResult.columns }] *)
Definition withRowsOf (writeResult selectResult : QueryResult.t) : QueryResult.t :=
  {| QueryResult.columns := QueryResult.columns selectResult;
     QueryResult.rows := QueryResult.rows selectResult;
     QueryResult.rowCount := QueryResult.rowCount writeResult;
     QueryResult.affectedRows := QueryResult.affectedRows writeResult |}.

Local Open Scope eff_scope.

(** *** baseDriver.ts: the defaults *)

Module BaseDbDriverRows.

Definition insertRow {S} (config : ConnectionConfig.t) (table : string)
    (data : JsObject) (schema : option string) : Eff S QueryResult.t :=
  BaseDbDriver.assertWriteAllowed config ;;;
  throw (Error "Row insertion is not supported by this driver.").

Definition updateRow {S} (config : ConnectionConfig.t) (table : string)
    (primaryKeyValues data : JsObject) (schema : option string)
  : Eff S QueryResult.t :=
  BaseDbDriver.assertWriteAllowed config ;;;
  throw (Error "Row updates are not supported by this driver.").

Definition deleteRow {S} (config : ConnectionConfig.t) (table : string)
    (primaryKeyValues : JsObject) (schema : option string)
  : Eff S QueryResult.t :=
  BaseDbDriver.assertWriteAllowed config ;;;
  throw (Error "Row deletion is not supported by this driver.").

End BaseDbDriverRows.

(** *** postgresDriver.ts *)

Module PostgresDriverRows.

Definition quoted (c : string) : string := doubleQuote +:+ c +:+ doubleQuote.

Definition clause (col : string) (paramIndex : nat) : string :=
  quoted col +:+ " = $" +:+ MssqlDriver.decimal paramIndex.

Definition insertSql (schemaFilter table : string) (columns : list string) : string :=
  let placeholders :=
    imap (fun i _ => "$" +:+ MssqlDriver.decimal (i + 1)) columns in
  LF +:+ "      INSERT INTO " +:+ quoted schemaFilter +:+ "." +:+ quoted table
  +:+ " (" +:+ join ", " (map quoted columns) +:+ ")"
  +:+ LF +:+ "      VALUES (" +:+ join ", " placeholders +:+ ")"
  +:+ LF +:+ "      RETURNING *"
  +:+ LF +:+ "    ".

Definition insertRow (table : string) (data : JsObject) (schema : option string)
  : Eff Driver QueryResult.t :=
  c <- gets config ;;
  BaseDbDriver.assertWriteAllowed c ;;;
  let schemaFilter := strOr schema "public" in
  let columns := Object_keys data in
  let values := Object_values data in
  PostgresDriver.executeQuery (insertSql schemaFilter table columns) (Some values).

Definition updateSql (schemaFilter table : string)
    (setClauses whereClauses : list string) : string :=
  LF +:+ "      UPDATE " +:+ quoted schemaFilter +:+ "." +:+ quoted table
  +:+ LF +:+ "      SET " +:+ join ", " setClauses
  +:+ LF +:+ "      WHERE " +:+ join " AND " whereClauses
  +:+ LF +:+ "      RETURNING *"
  +:+ LF +:+ "    ".

Definition updateRow (table : string) (primaryKeyValues data : JsObject)
    (schema : option string) : Eff Driver QueryResult.t :=
  c <- gets config ;;
  BaseDbDriver.assertWriteAllowed c ;;;
  let schemaFilter := strOr schema "public" in
  let '(setClauses, values, paramIndex) := forEntries clause data [] [] 1 in
  let '(whereClauses, values, _) :=
    forEntries clause primaryKeyValues [] values paramIndex in
  PostgresDriver.executeQuery
    (updateSql schemaFilter table setClauses whereClauses) (Some values).

Definition deleteSql (schemaFilter table : string) (whereClauses : list string)
  : string :=
  LF +:+ "      DELETE FROM " +:+ quoted schemaFilter +:+ "." +:+ quoted table
  +:+ LF +:+ "      WHERE " +:+ join " AND " whereClauses
  +:+ LF +:+ "      RETURNING *"
  +:+ LF +:+ "    ".

Definition deleteRow (table : string) (primaryKeyValues : JsObject)
    (schema : option string) : Eff Driver QueryResult.t :=
  c <- gets config ;;
  BaseDbDriver.assertWriteAllowed c ;;;
  let schemaFilter := strOr schema "public" in
  let '(whereClauses, values, _) := forEntries clause primaryKeyValues [] [] 1 in
  PostgresDriver.executeQuery
    (deleteSql schemaFilter table whereClauses) (Some values).

End PostgresDriverRows.

(** *** mysqlDriver.ts *)

Module MySqlDriverRows.

Definition quoted (c : string) : string := "`" +:+ c +:+ "`".

Definition clause (col : string) (paramIndex : nat) : string :=
  quoted col +:+ " = ?".

Definition insertSql (schemaFilter : option string) (table : string)
    (columns : list string) : string :=
  let placeholders := map (fun _ => "?") columns in
  LF +:+ "      INSERT INTO " +:+ quoted (interpolate schemaFilter) +:+ "."
  +:+ quoted table
  +:+ " (" +:+ join ", " (map quoted columns) +:+ ")"
  +:+ LF +:+ "      VALUES (" +:+ join ", " placeholders +:+ ")"
  +:+ LF +:+ "    ".

Definition insertedSql (schemaFilter : option string) (table : string) : string :=
  "SELECT * FROM " +:+ quoted (interpolate schemaFilter) +:+ "." +:+ quoted table
  +:+ " WHERE LAST_INSERT_ID() > 0 ORDER BY LAST_INSERT_ID() DESC LIMIT 1".

Definition insertRow (table : string) (data : JsObject) (schema : option string)
  : Eff Driver QueryResult.t :=
  c <- gets config ;;
  BaseDbDriver.assertWriteAllowed c ;;;
  let schemaFilter := strOrUndefined schema (ConnectionConfig.database c) in
  let columns := Object_keys data in
  let values := Object_values data in
  insertResult <-
    MySqlDriver.executeQuery (insertSql schemaFilter table columns) (Some values) ;;
  selectResult <-
    MySqlDriver.executeQuery (insertedSql schemaFilter table) None ;;
  ret (withRowsOf insertResult selectResult).

Definition updateSql (schemaFilter : option string) (table : string)
    (setClauses whereClauses : list string) : string :=
  LF +:+ "      UPDATE " +:+ quoted (interpolate schemaFilter) +:+ "."
  +:+ quoted table
  +:+ LF +:+ "      SET " +:+ join ", " setClauses
  +:+ LF +:+ "      WHERE " +:+ join " AND " whereClauses
  +:+ LF +:+ "    ".

Definition updatedSql (schemaFilter : option string) (table : string)
    (selectWhere : string) : string :=
  "SELECT * FROM " +:+ quoted (interpolate schemaFilter) +:+ "." +:+ quoted table
  +:+ " WHERE " +:+ selectWhere.

Definition updateRow (table : string) (primaryKeyValues data : JsObject)
    (schema : option string) : Eff Driver QueryResult.t :=
  c <- gets config ;;
  BaseDbDriver.assertWriteAllowed c ;;;
  let schemaFilter := strOrUndefined schema (ConnectionConfig.database c) in
  let '(setClauses, values, _) := forEntries clause data [] [] 0 in
  let '(whereClauses, values, _) :=
    forEntries clause primaryKeyValues [] values 0 in
  updateResult <-
    MySqlDriver.executeQuery
      (updateSql schemaFilter table setClauses whereClauses) (Some values) ;;
  let selectValues := Object_values primaryKeyValues in
  let selectWhere :=
    join " AND " (map (fun c => quoted c +:+ " = ?") (Object_keys primaryKeyValues)) in
  selectResult <-
    MySqlDriver.executeQuery (updatedSql schemaFilter table selectWhere)
      (Some selectValues) ;;
  ret (withRowsOf updateResult selectResult).

Definition deleteSql (schemaFilter : option string) (table : string)
    (whereClauses : list string) : string :=
  LF +:+ "      DELETE FROM " +:+ quoted (interpolate schemaFilter) +:+ "."
  +:+ quoted table
  +:+ LF +:+ "      WHERE " +:+ join " AND " whereClauses
  +:+ LF +:+ "    ".

Definition deleteRow (table : string) (primaryKeyValues : JsObject)
    (schema : option string) : Eff Driver QueryResult.t :=
  c <- gets config ;;
  BaseDbDriver.assertWriteAllowed c ;;;
  let schemaFilter := strOrUndefined schema (ConnectionConfig.database c) in
  let '(whereClauses, values, _) := forEntries clause primaryKeyValues [] [] 0 in
  MySqlDriver.executeQuery
    (deleteSql schemaFilter table whereClauses) (Some values).

End MySqlDriverRows.

(** *** sqliteDriver.ts *)

Module SqliteDriverRows.

Definition quoted (c : string) : string := doubleQuote +:+ c +:+ doubleQuote.

Definition clause (col : string) (paramIndex : nat) : string :=
  quoted col +:+ " = ?".

Definition insertSql (table : string) (columns : list string) : string :=
  let placeholders := map (fun _ => "?") columns in
  LF +:+ "      INSERT INTO " +:+ quoted table
  +:+ " (" +:+ join ", " (map quoted columns) +:+ ")"
  +:+ LF +:+ "      VALUES (" +:+ join ", " placeholders +:+ ")"
  +:+ LF +:+ "    ".

Definition insertedSql (table : string) : string :=
  "SELECT * FROM " +:+ quoted table +:+ " WHERE rowid = last_insert_rowid()".

Definition insertRow (table : string) (data : JsObject) (schema : option string)
  : Eff Driver QueryResult.t :=
  c <- gets config ;;
  BaseDbDriver.assertWriteAllowed c ;;;
  let columns := Object_keys data in
  let values := Object_values data in
  insertResult <-
    SqliteDriver.executeQuery (insertSql table columns) (Some values) ;;
  selectResult <- SqliteDriver.executeQuery (insertedSql table) None ;;
  ret (withRowsOf insertResult selectResult).

Definition updateSql (table : string) (setClauses whereClauses : list string)
  : string :=
  LF +:+ "      UPDATE " +:+ quoted table
  +:+ LF +:+ "      SET " +:+ join ", " setClauses
  +:+ LF +:+ "      WHERE " +:+ join " AND " whereClauses
  +:+ LF +:+ "    ".

Definition updatedSql (table : string) (selectWhere : string) : string :=
  "SELECT * FROM " +:+ quoted table +:+ " WHERE " +:+ selectWhere.

Definition updateRow (table : string) (primaryKeyValues data : JsObject)
    (schema : option string) : Eff Driver QueryResult.t :=
  c <- gets config ;;
  BaseDbDriver.assertWriteAllowed c ;;;
  let '(setClauses, values, _) := forEntries clause data [] [] 0 in
  let '(whereClauses, values, _) :=
    forEntries clause primaryKeyValues [] values 0 in
  updateResult <-
    SqliteDriver.executeQuery (updateSql table setClauses whereClauses)
      (Some values) ;;
  let selectValues := Object_values primaryKeyValues in
  let selectWhere :=
    join " AND " (map (fun c => quoted c +:+ " = ?") (Object_keys primaryKeyValues)) in
  selectResult <-
    SqliteDriver.executeQuery (updatedSql table selectWhere) (Some selectValues) ;;
  ret (withRowsOf updateResult selectResult).

Definition deleteSql (table : string) (whereClauses : list string) : string :=
  LF +:+ "      DELETE FROM " +:+ quoted table
  +:+ LF +:+ "      WHERE " +:+ join " AND " whereClauses
  +:+ LF +:+ "    ".

Definition deleteRow (table : string) (primaryKeyValues : JsObject)
    (schema : option string) : Eff Driver QueryResult.t :=
  c <- gets config ;;
  BaseDbDriver.assertWriteAllowed c ;;;
  let '(whereClauses, values, _) := forEntries clause primaryKeyValues [] [] 0 in
  SqliteDriver.executeQuery (deleteSql table whereClauses) (Some values).

End SqliteDriverRows.

(** *** mssqlDriver.ts *)

Module MssqlDriverRows.

Definition quoted (c : string) : string := "[" +:+ c +:+ "]".

Definition clause (col : string) (paramIndex : nat) : string :=
  quoted col +:+ " = @param" +:+ MssqlDriver.decimal paramIndex.

Definition insertSql (schemaFilter table : string) (columns : list string) : string :=
  LF +:+ "      INSERT INTO " +:+ quoted schemaFilter +:+ "." +:+ quoted table
  +:+ " (" +:+ join ", " (map quoted columns) +:+ ")"
  +:+ LF +:+ "      OUTPUT INSERTED.*"
  +:+ LF +:+ "      VALUES ("
  +:+ join ", " (imap (fun i _ => "@param" +:+ MssqlDriver.decimal i) columns)
  +:+ ")"
  +:+ LF +:+ "    ".

Definition insertRow (table : string) (data : JsObject) (schema : option string)
  : Eff Driver QueryResult.t :=
  c <- gets config ;;
  BaseDbDriver.assertWriteAllowed c ;;;
  let schemaFilter := strOr schema "dbo" in
  let columns := Object_keys data in
  let values := Object_values data in
  MssqlDriver.executeQuery (insertSql schemaFilter table columns) (Some values).

Definition updateSql (schemaFilter table : string)
    (setClauses whereClauses : list string) : string :=
  LF +:+ "      UPDATE " +:+ quoted schemaFilter +:+ "." +:+ quoted table
  +:+ LF +:+ "      SET " +:+ join ", " setClauses
  +:+ LF +:+ "      OUTPUT INSERTED.*"
  +:+ LF +:+ "      WHERE " +:+ join " AND " whereClauses
  +:+ LF +:+ "    ".

Definition updateRow (table : string) (primaryKeyValues data : JsObject)
    (schema : option string) : Eff Driver QueryResult.t :=
  c <- gets config ;;
  BaseDbDriver.assertWriteAllowed c ;;;
  let schemaFilter := strOr schema "dbo" in
  let '(setClauses, values, paramIndex) := forEntries clause data [] [] 0 in
  let '(whereClauses, values, _) :=
    forEntries clause primaryKeyValues [] values paramIndex in
  MssqlDriver.executeQuery
    (updateSql schemaFilter table setClauses whereClauses) (Some values).

Definition deleteSql (schemaFilter table : string) (whereClauses : list string)
  : string :=
  LF +:+ "      DELETE FROM " +:+ quoted schemaFilter +:+ "." +:+ quoted table
  +:+ LF +:+ "      OUTPUT DELETED.*"
  +:+ LF +:+ "      WHERE " +:+ join " AND " whereClauses
  +:+ LF +:+ "    ".

Definition deleteRow (table : string) (primaryKeyValues : JsObject)
    (schema : option string) : Eff Driver QueryResult.t :=
  c <- gets config ;;
  BaseDbDriver.assertWriteAllowed c ;;;
  let schemaFilter := strOr schema "dbo" in
  let '(whereClauses, values, _) := forEntries clause primaryKeyValues [] [] 0 in
  MssqlDriver.executeQuery
    (deleteSql schemaFilter table whereClauses) (Some values).

End MssqlDriverRows.

(** *** influxdbDriver.ts, prometheusDriver.ts

    Neither class overrides the row operations: both inherit the
    defaults of [BaseDbDriver]. *)

Module InfluxDbDriverRows.

Definition insertRow (table : string) (data : JsObject) (schema : option string)
  : Eff Driver QueryResult.t :=
  c <- gets config ;; BaseDbDriverRows.insertRow c table data schema.

Definition updateRow (table : string) (primaryKeyValues data : JsObject)
    (schema : option string) : Eff Driver QueryResult.t :=
  c <- gets config ;; BaseDbDriverRows.updateRow c table primaryKeyValues data schema.

Definition deleteRow (table : string) (primaryKeyValues : JsObject)
    (schema : option string) : Eff Driver QueryResult.t :=
  c <- gets config ;; BaseDbDriverRows.deleteRow c table primaryKeyValues schema.

End InfluxDbDriverRows.

Module PrometheusDriverRows.

Definition insertRow (table : string) (data : JsObject) (schema : option string)
  : Eff Driver QueryResult.t :=
  c <- gets config ;; BaseDbDriverRows.insertRow c table data schema.

Definition updateRow (table : string) (primaryKeyValues data : JsObject)
    (schema : option string) : Eff Driver QueryResult.t :=
  c <- gets config ;; BaseDbDriverRows.updateRow c table primaryKeyValues data schema.

Definition deleteRow (table : string) (primaryKeyValues : JsObject)
    (schema : option string) : Eff Driver QueryResult.t :=
  c <- gets config ;; BaseDbDriverRows.deleteRow c table primaryKeyValues schema.

End PrometheusDriverRows.

(** [s.slice(n)] for [n] within the text or past its end. *)
Fixpoint sliceFrom (n : nat) (s : string) : string :=
  match n, s with
  | O, _ => s
  | S n', String _ s' => sliceFrom n' s'
  | S _, EmptyString => EmptyString
  end.

(** ** driverFactory.ts: the queries on the registry of driver types *)

Module DriverFactoryQueries.
Section WithDriver.
Context {D : Type}.

(** [DriverFactory.registry.get(type)?.metadata] *)
Definition getMetadata (type : string) : Eff (World D) (option DriverMetadata.t) :=
  gets (fun w => DriverRegistration.metadata <$> JsMap.get (registry w) type).

(** [DriverFactory.registry.get(type)?.metadata.capabilities] *)
Definition getCapabilities (type : string)
  : Eff (World D) (option DriverCapabilities) :=
  gets (fun w =>
          (fun reg => DriverMetadata.capabilities (DriverRegistration.metadata reg))
            <$> JsMap.get (registry w) type).

(** [DriverFactory.registry.size] *)
Definition getRegisteredCount : Eff (World D) nat :=
  gets (fun w => length (registry w)).

Definition clearRegistry : Eff (World D) unit :=
  modify (fun w =>
    {| heap := heap w; trace := trace w; console := console w;
       registry := JsMap.clear (registry w) |}).

End WithDriver.
End DriverFactoryQueries.

(** ** replicaRouter.ts: the count of connected read replicas and the
    factory function *)

Module ReplicaRouterQueries.
Section WithDriver.
Context {D : Type} `{DbDriver D}.

(** [Array.prototype.filter] with [d => d.isConnected()] *)
Fixpoint filterConnected (l : list nat) : Eff (World D) (list nat) :=
  match l with
  | [] => ret []
  | d :: rest =>
      c <- isConnected d ;;
      kept <- filterConnected rest ;;
      ret (if c then d :: kept else kept)
  end.

Definition getConnectedReadReplicaCount : Eff (ReplicaRouter.t D) nat :=
  l <- gets ReplicaRouter.readDrivers ;;
  kept <- ReplicaRouter.inWorld (filterConnected l) ;;
  ret (length kept).

(** [createReplicaRouterIfNeeded(config, password)]: [None] is [null]. *)
Definition createReplicaRouterIfNeeded (config : ConnectionConfig.t)
    (password : string) (w : World D) : option (ReplicaRouter.t D) :=
  match ConnectionConfig.replicaConfig config with
  | Some replicaConfig =>
      if ReplicaConfig.enabled replicaConfig
      then Some (ReplicaRouter.new replicaConfig config password w)
      else None
  | None => None
  end.

End WithDriver.
End ReplicaRouterQueries.

Module Scenarios.

(** A backend on which the database file cannot be written. *)
Definition readOnlyDiskEnv : Env :=
  {| onConnect := fun _ => None;
     onClose := fun _ => None;
     onSave := fun _ => Some (Error "EACCES: permission denied, open '/tmp/app.db'");
     newInfluxDB := Examples.httpOnly;
     onQuery := fun _ _ _ _ => Ok Examples.emptyResult;
     JSON_parse := fun _ => None;
     encodeURIComponent := fun s => s |}.

(** A driver of class [k] on a writable connection, after its
    [connect()] has succeeded. *)
Definition connectedWritable (k : DriverKind) (e : Env) : Driver :=
  snd (Driver.connect
         (Drivers.new k e (Examples.exampleConfig "db" None) "secret")).


(** A connection whose configuration names one primary and three read
    replicas. *)
Definition replicatedConfig (strategy : string) : ConnectionConfig.t :=
  {| ConnectionConfig.id := "c1"; ConnectionConfig.name := "main";
     ConnectionConfig.type := "mssql";
     ConnectionConfig.host := Some "primary";
     ConnectionConfig.port := Some 1433%Z;
     ConnectionConfig.database := Some "app";
     ConnectionConfig.username := Some "reader";
     ConnectionConfig.filepath := None;
     ConnectionConfig.readOnly := None;
     ConnectionConfig.replicaConfig := Some (Examples.replicaConfig strategy) |}.

(** The connected router after the link of its second read driver has
    dropped. *)
Definition oneReplicaDown (strategy : string) : ReplicaRouter.t Driver :=
  snd (ReplicaRouter.inWorld (Examples.linkLost 2)
         (Examples.connectedRouter strategy)).

End Scenarios.

(* ===================================================================== *)
(** * Part II.  Properties                                                *)
(* ===================================================================== *)

(** ** Capability model *)

(** C3: with [readOnly = true] the effective capabilities have
    [supportsInsert], [supportsUpdate], [supportsDelete],
    [supportsTruncate], [supportsDDL] and [supportsRowEditing] all false
    and every other field equal to the field of [C]; with
    [readOnly = false] the effective capabilities are [C] itself. *)
Theorem effective_capabilities_read_only (C : DriverCapabilities) :
  let E := Capabilities.getEffectiveCapabilities C (Some true) in
  (supportsInsert E = false /\ supportsUpdate E = false
   /\ supportsDelete E = false /\ supportsTruncate E = false
   /\ supportsDDL E = false /\ supportsRowEditing E = false)
  /\ (supportsSchemas E = supportsSchemas C
      /\ supportsTables E = supportsTables C
      /\ supportsViews E = supportsViews C
      /\ supportsCollections E = supportsCollections C
      /\ supportsMeasurements E = supportsMeasurements C
      /\ supportsSQL E = supportsSQL C
      /\ supportsNoSQLQueries E = supportsNoSQLQueries C
      /\ supportsFlux E = supportsFlux C
      /\ supportsPromQL E = supportsPromQL C
      /\ supportsTransactions E = supportsTransactions C
      /\ supportsPrimaryKeys E = supportsPrimaryKeys C
      /\ supportsExport E = supportsExport C
      /\ treeStructure E = treeStructure C)
  /\ Capabilities.getEffectiveCapabilities C (Some false) = C.
Proof.
  cbn. repeat split.
Qed.

(** An absent flag is falsy: the capabilities are returned as they are. *)
Lemma effective_capabilities_undefined (C : DriverCapabilities) :
  Capabilities.getEffectiveCapabilities C None = C.
Proof. reflexivity. Qed.

(** C8: the read-only transformation is idempotent, for every
    capability set and every read-only flag (absent, false or true). *)
Theorem effective_capabilities_idempotent (C : DriverCapabilities)
    (r : option bool) :
  Capabilities.getEffectiveCapabilities
    (Capabilities.getEffectiveCapabilities C r) r
  = Capabilities.getEffectiveCapabilities C r.
Proof.
  unfold Capabilities.getEffectiveCapabilities.
  destruct (truthy r); reflexivity.
Qed.

(** [isWriteAllowed] refuses every write on a read-only connection. *)
Lemma write_not_allowed_read_only (C : DriverCapabilities) :
  Capabilities.isWriteAllowed C (Some true) = false.
Proof. reflexivity. Qed.

(** ** Strings and the classifier *)

Module JsStringFacts.
Import JsString.

Lemma allChars_complete (c : ascii) : In c allChars.
Proof.
  unfold allChars. rewrite <- (ascii_nat_embedding c).
  apply in_map, in_seq. pose proof (nat_ascii_bounded c). lia.
Qed.

Lemma forall_chars (f : ascii -> bool) :
  forallb f allChars = true -> forall c, f c = true.
Proof.
  intros Hall c. rewrite forallb_forall in Hall. apply Hall, allChars_complete.
Qed.

(** After lower-casing, the case folding of the RegExp identifies a
    code unit with a small letter exactly when the unit was that
    letter, small or capital. *)
Lemma fold_small_letter (p c : ascii) :
  Spec.isSmallLetter p = true ->
  (canonicalize true (toLowerCaseChar c) =? canonicalize true p)%N
  = Spec.sameLetter p c.
Proof.
  revert c. revert p.
  assert (Hall : forallb (fun p =>
                   implb (Spec.isSmallLetter p)
                     (forallb (fun c =>
                        Bool.eqb
                          (canonicalize true (toLowerCaseChar c)
                             =? canonicalize true p)%N
                          (Spec.sameLetter p c)) allChars)) allChars = true)
    by (vm_compute; reflexivity).
  intros p c Hp.
  pose proof (forall_chars _ Hall p) as Hp'. cbv beta in Hp'.
  rewrite Hp in Hp'. cbn [implb] in Hp'.
  pose proof (forall_chars _ Hp' c) as Hc. cbv beta in Hc.
  apply Bool.eqb_prop in Hc. exact Hc.
Qed.

(** A literal of small letters, matched under [i] against lower-cased
    text, tests for the prefix regardless of case. *)
Lemma match_literal (p : string) :
  Spec.allSmallLetters p = true ->
  forall pos t,
    matchAt true (literal p) (fun _ _ => true) pos (toLowerCase t)
    = Spec.beginsWith p t.
Proof.
  induction p as [|a p IH]; intros Hp pos t.
  - destruct t; reflexivity.
  - cbn [Spec.allSmallLetters] in Hp. apply andb_prop in Hp as [Ha Hp].
    destruct t as [|c t]; [reflexivity|].
    cbn [literal matchAt toLowerCase Spec.beginsWith].
    rewrite (fold_small_letter a c Ha).
    destruct (Spec.sameLetter a c); cbn [andb]; [apply IH; exact Hp | reflexivity].
Qed.

(** A pattern that begins with [^] matches at index 0 only. *)
Lemma search_anchored (ic : bool) (q : Pattern) (s : string) (pos : nat) :
  searchFrom ic (PSeq PStart q) (S pos) s = false.
Proof.
  revert pos. induction s as [|c s IH]; intros pos; cbn [searchFrom matchAt Nat.eqb].
  - reflexivity.
  - apply IH.
Qed.

Lemma test_anchored (ic : bool) (q : Pattern) (s : string) :
  test {| source := PSeq PStart q; ignoreCase := ic |} s
  = matchAt ic q (fun _ _ => true) 0 s.
Proof.
  unfold test. cbn [source ignoreCase].
  destruct s as [|c s]; cbn [searchFrom matchAt Nat.eqb].
  - apply orb_false_r.
  - rewrite search_anchored. apply orb_false_r.
Qed.

Lemma match_alternatives (ic : bool) (p : Pattern) (ps : list Pattern)
    (k : nat -> string -> bool) (pos : nat) (s : string) :
  matchAt ic (alternatives (p :: ps)) k pos s
  = existsb (fun q => matchAt ic q k pos s) (p :: ps).
Proof.
  revert p. induction ps as [|q ps IH]; intros p.
  - cbn. symmetry. apply orb_false_r.
  - change (alternatives (p :: q :: ps)) with (PAlt p (alternatives (q :: ps))).
    cbn [matchAt]. rewrite IH. reflexivity.
Qed.

End JsStringFacts.

Lemma base_isWriteQuery_spec (sql : string) :
  BaseDbDriver.isWriteQuery sql = Spec.isWriteQuery sql.
Proof.
  unfold BaseDbDriver.isWriteQuery, BaseDbDriver.writePattern, Spec.isWriteQuery,
    Spec.writePrefixes.
  rewrite JsStringFacts.test_anchored. cbn [map].
  rewrite JsStringFacts.match_alternatives. cbn [existsb].
  rewrite !JsStringFacts.match_literal by reflexivity.
  reflexivity.
Qed.

Lemma router_isWriteQuery_base (sql : string) :
  ReplicaRouter.isWriteQuery sql = BaseDbDriver.isWriteQuery sql.
Proof. reflexivity. Qed.

(** ** The classifier on every string *)

Module Utf16Facts.
Import JsString Utf16.

Lemma code_lt (c : ascii) : (code c < 256)%N.
Proof. apply N_ascii_bounded. Qed.

Lemma ascii_of_code (c : ascii) : ascii_of_N (code c) = c.
Proof. apply ascii_N_embedding. Qed.

Lemma code_of_ascii (n : N) : (n < 256)%N -> code (ascii_of_N n) = n.
Proof. apply N_ascii_embedding. Qed.

Lemma eqb_code (n : N) (p : ascii) :
  (n < 256)%N -> Ascii.eqb (ascii_of_N n) p = (n =? code p)%N.
Proof.
  intros Hn. destruct (N.eqb_spec n (code p)) as [->|Hne].
  - rewrite ascii_of_code. apply Ascii.eqb_refl.
  - apply Ascii.eqb_neq. intros <-. apply Hne. symmetry. apply code_of_ascii, Hn.
Qed.

Lemma canonicalize_code (U : Unicode) (ic : bool) (c : ascii) :
  canonicalize U ic (code c) = JsString.canonicalize ic c.
Proof.
  unfold canonicalize. pose proof (code_lt c) as Hc.
  apply N.ltb_lt in Hc. rewrite Hc, ascii_of_code. reflexivity.
Qed.

(** The case folding of a RegExp takes no unit from U+0080 up to an
    ASCII unit. *)
Lemma canonicalize_not_ascii (U : Unicode) (c : N) :
  (128 <= c)%N -> (128 <= canonicalize U true c)%N.
Proof.
  intros Hc. unfold canonicalize.
  destruct (N.ltb_spec c 256) as [Hlt|Hge].
  - assert (Hall : forallb (fun a =>
                     implb (128 <=? code a)%N
                       (128 <=? JsString.canonicalize true a)%N) allChars = true)
      by (vm_compute; reflexivity).
    pose proof (JsStringFacts.forall_chars _ Hall (ascii_of_N c)) as Ha.
    cbv beta in Ha. rewrite (code_of_ascii c Hlt) in Ha.
    apply N.leb_le in Hc. rewrite Hc in Ha. apply N.leb_le. exact Ha.
  - cbn [negb]. destruct (upperUnit U c) as [cu|]; [|exact Hc].
    destruct (N.ltb_spec cu 128); lia.
Qed.

Lemma small_letter_ascii (p : ascii) :
  Spec.isSmallLetter p = true -> (JsString.canonicalize true p < 128)%N.
Proof.
  intros Hp.
  assert (Hall : forallb (fun a =>
                   implb (Spec.isSmallLetter a)
                     (JsString.canonicalize true a <? 128)%N) allChars = true)
    by (vm_compute; reflexivity).
  pose proof (JsStringFacts.forall_chars _ Hall p) as Ha. cbv beta in Ha.
  rewrite Hp in Ha. apply N.ltb_lt. exact Ha.
Qed.

(** Among the small letters, only [c] itself folds to what [c] folds to. *)
Lemma small_letter_fold (c p : ascii) :
  Spec.isSmallLetter c = true -> Spec.isSmallLetter p = true ->
  (JsString.canonicalize true c =? JsString.canonicalize true p)%N = Ascii.eqb p c.
Proof.
  intros Hc Hp.
  assert (Hall : forallb (fun c =>
                   forallb (fun p =>
                     implb (Spec.isSmallLetter c && Spec.isSmallLetter p)
                       (Bool.eqb
                          (JsString.canonicalize true c
                             =? JsString.canonicalize true p)%N
                          (Ascii.eqb p c))) allChars) allChars = true)
    by (vm_compute; reflexivity).
  pose proof (JsStringFacts.forall_chars _ Hall c) as H1. cbv beta in H1.
  pose proof (JsStringFacts.forall_chars _ H1 p) as H2. cbv beta in H2.
  rewrite Hc, Hp in H2. apply Bool.eqb_prop in H2. exact H2.
Qed.

Lemma lowerUnit_none (c : N) :
  lowerUnit c = None -> (256 <= c)%N /\ c <> 0x130%N /\ c <> 0x212A%N.
Proof.
  unfold lowerUnit.
  destruct (N.ltb_spec c 256); [discriminate|].
  destruct (N.eqb_spec c 0x130); [discriminate|].
  destruct (N.eqb_spec c 0x212A); [discriminate|].
  intros _. auto.
Qed.

Lemma same_letter_below (p : ascii) (c : N) :
  (c < 256)%N ->
  Spec.sameLetter p (ascii_of_N c) = SpecUtf16.sameLetterOrKelvin p c.
Proof.
  intros Hc. unfold Spec.sameLetter, SpecUtf16.sameLetterOrKelvin, SpecUtf16.sameLetter.
  rewrite !eqb_code by exact Hc.
  replace (c =? SpecUtf16.kelvinSign)%N with false.
  - rewrite andb_false_r, orb_false_r. reflexivity.
  - symmetry. apply N.eqb_neq. unfold SpecUtf16.kelvinSign. lia.
Qed.

Lemma same_letter_above (p : ascii) (c : N) :
  (256 <= c)%N ->
  SpecUtf16.sameLetterOrKelvin p c = Ascii.eqb p "k" && (c =? SpecUtf16.kelvinSign)%N.
Proof.
  intros Hc. unfold SpecUtf16.sameLetterOrKelvin, SpecUtf16.sameLetter.
  pose proof (code_lt p). pose proof (code_lt (Spec.capital p)).
  replace (c =? code p)%N with false by (symmetry; apply N.eqb_neq; lia).
  replace (c =? code (Spec.capital p))%N with false
    by (symmetry; apply N.eqb_neq; lia).
  reflexivity.
Qed.

Lemma lastLetter_cons (a b : ascii) (p : string) :
  SpecUtf16.lastLetter (String a (String b p)) = SpecUtf16.lastLetter (String b p).
Proof. reflexivity. Qed.

(** A literal of small letters that does not end with i, matched under
    [i] against lower-cased text, tests for the prefix, where each
    letter may be small or capital and k may be the Kelvin sign. *)
Lemma match_literal_units (U : Unicode) (p : string) :
  lowerFromNotAscii U ->
  Spec.allSmallLetters p = true ->
  SpecUtf16.lastLetter p <> Some "i"%char ->
  forall pos before t,
    Forall spelledOut before -> Forall isCodeUnit t ->
    matchAt U true (literal p) (fun _ _ => true) pos (toLowerCaseFrom U before t)
    = SpecUtf16.beginsWith SpecUtf16.sameLetterOrKelvin p t.
Proof.
  intros HU. induction p as [|a p IH]; intros Hp Hlast pos before t Hb Ht.
  - destruct t; reflexivity.
  - cbn [Spec.allSmallLetters] in Hp. apply andb_prop in Hp as [Ha Hp].
    assert (Hlast' : SpecUtf16.lastLetter p <> Some "i"%char).
    { destruct p as [|b p]; [discriminate | exact Hlast]. }
    destruct t as [|c t]; [reflexivity|].
    apply Forall_cons in Ht as [Hc Ht].
    cbn [literal toLowerCaseFrom SpecUtf16.beginsWith].
    destruct (lowerUnit c) as [l|] eqn:El.
    + assert (Hb' : Forall spelledOut (before ++ [c])).
      { apply Forall_app. split; [exact Hb|]. constructor; [|constructor].
        unfold spelledOut. rewrite El. discriminate. }
      specialize (IH Hp Hlast').
      revert El. unfold lowerUnit.
      destruct (N.ltb_spec c 256) as [Hlt|Hge].
      * (* a unit below U+0100 *)
        intros [= <-]. cbn [app matchAt].
        rewrite canonicalize_code, (JsStringFacts.fold_small_letter a _ Ha).
        rewrite (same_letter_below a c Hlt).
        destruct (SpecUtf16.sameLetterOrKelvin a c); cbn [andb];
          [apply IH; assumption | reflexivity].
      * rewrite (same_letter_above a c Hge).
        destruct (N.eqb_spec c 0x130) as [->|Hdot].
        { (* I with dot above: i, then a combining mark no letter matches *)
          intros [= <-]. cbn [app matchAt].
          change 0x69%N with (code "i"). rewrite canonicalize_code.
          rewrite (small_letter_fold "i" a eq_refl Ha).
          replace (304 =? SpecUtf16.kelvinSign)%N with false by reflexivity.
          rewrite andb_false_r.
          destruct (Ascii.eqb_spec a "i") as [->|_]; [|reflexivity].
          destruct p as [|b p]; [contradiction Hlast; reflexivity|].
          cbn [Spec.allSmallLetters] in Hp. apply andb_prop in Hp as [Hb2 _].
          cbn [literal matchAt].
          pose proof (canonicalize_not_ascii U 0x307 ltac:(lia)) as Hhi.
          pose proof (small_letter_ascii b Hb2) as Hlo.
          destruct (N.eqb_spec (canonicalize U true 0x307)
                      (JsString.canonicalize true b)); [lia | reflexivity]. }
        destruct (N.eqb_spec c 0x212A) as [->|Hk]; [|discriminate].
        (* Kelvin sign: k *)
        intros [= <-]. cbn [app matchAt].
        change 0x6B%N with (code "k"). rewrite canonicalize_code.
        rewrite (small_letter_fold "k" a eq_refl Ha).
        replace (8490 =? SpecUtf16.kelvinSign)%N with true by reflexivity.
        rewrite andb_true_r.
        destruct (Ascii.eqb a "k"); cbn [andb];
          [apply IH; assumption | reflexivity].
    + (* any other unit: its lower-case text starts outside ASCII *)
      destruct (lowerUnit_none c El) as (Hge & Hdot & Hk).
      destruct (HU before c t Hb Hc El) as (u & t' & -> & Hu).
      cbn [matchAt].
      pose proof (canonicalize_not_ascii U u Hu) as Hhi.
      pose proof (small_letter_ascii a Ha) as Hlo.
      destruct (N.eqb_spec (canonicalize U true u) (JsString.canonicalize true a));
        [lia|].
      rewrite (same_letter_above a c Hge).
      replace (c =? SpecUtf16.kelvinSign)%N with false
        by (symmetry; apply N.eqb_neq; exact Hk).
      rewrite andb_false_r. reflexivity.
Qed.

Lemma search_anchored_units (U : Unicode) (ic : bool) (q : Pattern) (s : JsText)
    (pos : nat) :
  searchFrom U ic (PSeq PStart q) (S pos) s = false.
Proof.
  revert pos. induction s as [|c s IH]; intros pos; cbn [searchFrom matchAt Nat.eqb].
  - reflexivity.
  - apply IH.
Qed.

Lemma test_anchored_units (U : Unicode) (ic : bool) (q : Pattern) (s : JsText) :
  test U {| source := PSeq PStart q; ignoreCase := ic |} s
  = matchAt U ic q (fun _ _ => true) 0 s.
Proof.
  unfold test. cbn [source ignoreCase].
  destruct s as [|c s]; cbn [searchFrom matchAt Nat.eqb].
  - apply orb_false_r.
  - rewrite search_anchored_units. apply orb_false_r.
Qed.

Lemma match_alternatives_units (U : Unicode) (ic : bool) (p : Pattern)
    (ps : list Pattern) (k : nat -> JsText -> bool) (pos : nat) (s : JsText) :
  matchAt U ic (alternatives (p :: ps)) k pos s
  = existsb (fun q => matchAt U ic q k pos s) (p :: ps).
Proof.
  revert p. induction ps as [|q ps IH]; intros p.
  - cbn. symmetry. apply orb_false_r.
  - change (alternatives (p :: q :: ps)) with (PAlt p (alternatives (q :: ps))).
    cbn [matchAt]. rewrite IH. reflexivity.
Qed.

Lemma trimStart_units (P : N -> Prop) (s : JsText) :
  Forall P s -> Forall P (trimStart s).
Proof.
  induction 1 as [|c s Hc Hs IH]; cbn [trimStart]; [constructor|].
  destruct (isWhiteSpace c); [exact IH | constructor; assumption].
Qed.

Lemma trimEnd_units (P : N -> Prop) (s : JsText) :
  Forall P s -> Forall P (trimEnd s).
Proof.
  induction 1 as [|c s Hc Hs IH]; cbn [trimEnd]; [constructor|].
  destruct (trimEnd s) as [|d t].
  - destruct (isWhiteSpace c); repeat constructor; assumption.
  - constructor; assumption.
Qed.

Lemma trim_units (P : N -> Prop) (s : JsText) :
  Forall P s -> Forall P (trim s).
Proof. intros Hs. apply trimEnd_units, trimStart_units, Hs. Qed.

(** The classifier is the test of the specification, with the Kelvin
    sign taken for k. *)
Lemma isWriteQuery_spec (U : Unicode) (sql : JsText) :
  lowerFromNotAscii U -> Forall isCodeUnit sql ->
  BaseDbDriver_isWriteQuery U sql
  = SpecUtf16.isWriteQuery SpecUtf16.sameLetterOrKelvin sql.
Proof.
  intros HU Hsql.
  unfold BaseDbDriver_isWriteQuery, BaseDbDriver.writePattern,
    SpecUtf16.isWriteQuery, Spec.writePrefixes, toLowerCase.
  rewrite test_anchored_units. cbn [map].
  rewrite match_alternatives_units. cbn [existsb].
  pose proof (trim_units isCodeUnit sql Hsql) as Ht.
  rewrite !(match_literal_units U _ HU) by (try reflexivity; try discriminate;
                                      try constructor; exact Ht).
  reflexivity.
Qed.

(** On the units below U+0100 the definitions are those of [JsString]. *)
Lemma isWhiteSpace_code (c : ascii) :
  isWhiteSpace (code c) = JsString.isWhiteSpace c.
Proof.
  assert (Hall : forallb (fun c =>
                   Bool.eqb (isWhiteSpace (code c)) (JsString.isWhiteSpace c))
                   allChars = true) by (vm_compute; reflexivity).
  pose proof (JsStringFacts.forall_chars _ Hall c) as Hc. cbv beta in Hc.
  apply Bool.eqb_prop in Hc. exact Hc.
Qed.

Lemma units_cons (c : ascii) (s : string) :
  units (String c s) = code c :: units s.
Proof. reflexivity. Qed.

Lemma trimStart_of_string (s : string) :
  trimStart (units s) = units (JsString.trimStart s).
Proof.
  induction s as [|c s IH]; [reflexivity|].
  rewrite units_cons. cbn [trimStart JsString.trimStart].
  rewrite isWhiteSpace_code. destruct (JsString.isWhiteSpace c); [exact IH|].
  reflexivity.
Qed.

Lemma trimEnd_of_string (s : string) :
  trimEnd (units s) = units (JsString.trimEnd s).
Proof.
  induction s as [|c s IH]; [reflexivity|].
  rewrite units_cons. cbn [trimEnd JsString.trimEnd].
  rewrite IH, isWhiteSpace_code.
  destruct (JsString.trimEnd s) as [|d t]; cbn [units list_ascii_of_string map].
  - destruct (JsString.isWhiteSpace c); reflexivity.
  - reflexivity.
Qed.

Lemma trim_of_string (s : string) : trim (units s) = units (JsString.trim s).
Proof.
  unfold trim, JsString.trim. rewrite trimStart_of_string. apply trimEnd_of_string.
Qed.

Lemma units_are_code_units (s : string) : Forall isCodeUnit (units s).
Proof.
  induction s as [|c s IH]; [constructor|].
  rewrite units_cons. constructor; [|exact IH].
  pose proof (code_lt c). unfold isCodeUnit. lia.
Qed.

Lemma beginsWith_of_string (p t : string) :
  SpecUtf16.beginsWith SpecUtf16.sameLetterOrKelvin p (units t)
  = Spec.beginsWith p t.
Proof.
  revert t. induction p as [|a p IH]; intros t; [destruct t; reflexivity|].
  destruct t as [|c t]; [reflexivity|].
  rewrite units_cons. cbn [SpecUtf16.beginsWith Spec.beginsWith].
  rewrite <- (same_letter_below a (code c) (code_lt c)), ascii_of_code, IH.
  reflexivity.
Qed.

Lemma isWriteQuery_of_string (U : Unicode) (s : string) :
  lowerFromNotAscii U ->
  BaseDbDriver_isWriteQuery U (units s) = BaseDbDriver.isWriteQuery s.
Proof.
  intros HU.
  rewrite (isWriteQuery_spec U _ HU (units_are_code_units s)).
  rewrite base_isWriteQuery_spec.
  unfold SpecUtf16.isWriteQuery, Spec.isWriteQuery.
  rewrite trim_of_string.
  induction Spec.writePrefixes as [|p ps IH]; [reflexivity|].
  cbn [existsb]. rewrite beginsWith_of_string, IH. reflexivity.
Qed.

(** Without a Kelvin sign in the text, the letters are a-z and A-Z. *)
Lemma beginsWith_no_kelvin (p : string) (t : JsText) :
  Forall (fun c => c <> SpecUtf16.kelvinSign) t ->
  SpecUtf16.beginsWith SpecUtf16.sameLetterOrKelvin p t
  = SpecUtf16.beginsWith SpecUtf16.sameLetter p t.
Proof.
  revert t. induction p as [|a p IH]; intros t Ht; [destruct t; reflexivity|].
  destruct t as [|c t]; [reflexivity|].
  apply Forall_cons in Ht as [Hc Ht].
  cbn [SpecUtf16.beginsWith]. rewrite (IH t Ht).
  unfold SpecUtf16.sameLetterOrKelvin.
  replace (c =? SpecUtf16.kelvinSign)%N with false
    by (symmetry; apply N.eqb_neq; exact Hc).
  rewrite andb_false_r, orb_false_r. reflexivity.
Qed.

Lemma isWriteQuery_no_kelvin (sql : JsText) :
  Forall (fun c => c <> SpecUtf16.kelvinSign) sql ->
  SpecUtf16.isWriteQuery SpecUtf16.sameLetterOrKelvin sql
  = SpecUtf16.isWriteQuery SpecUtf16.sameLetter sql.
Proof.
  intros Hsql. unfold SpecUtf16.isWriteQuery.
  pose proof (trim_units _ sql Hsql) as Ht.
  induction Spec.writePrefixes as [|p ps IH]; [reflexivity|].
  cbn [existsb]. rewrite (beginsWith_no_kelvin p _ Ht), IH. reflexivity.
Qed.

End Utf16Facts.

(** C4: for every query string, the classifier of the base driver is
    true exactly when the text, after [trim] has removed the white space
    and line terminators at both ends, begins with one of insert, update,
    delete, drop, alter, create, truncate, grant, revoke, each letter
    small or capital, where KELVIN SIGN (U+212A) also counts as k; on a
    text without that sign the letters are a-z and A-Z only.  A text
    with leading white space and mixed case is classified as a write;
    the replica router classifies as the base driver does. *)
Theorem write_query_classifier (U : Utf16.Unicode) (sql : Utf16.JsText) :
  Utf16.lowerFromNotAscii U ->
  Forall Utf16.isCodeUnit sql ->
  Utf16.BaseDbDriver_isWriteQuery U sql
  = SpecUtf16.isWriteQuery SpecUtf16.sameLetterOrKelvin sql
  /\ (Utf16.BaseDbDriver_isWriteQuery U sql = true <->
      exists prefix,
        In prefix Spec.writePrefixes
        /\ SpecUtf16.beginsWith SpecUtf16.sameLetterOrKelvin prefix
             (Utf16.trim sql) = true)
  /\ (Forall (fun c => c <> SpecUtf16.kelvinSign) sql ->
      Utf16.BaseDbDriver_isWriteQuery U sql
      = SpecUtf16.isWriteQuery SpecUtf16.sameLetter sql)
  /\ Utf16.ReplicaRouter_isWriteQuery U sql = Utf16.BaseDbDriver_isWriteQuery U sql
  /\ (forall s : string,
        Utf16.BaseDbDriver_isWriteQuery U (Utf16.units s)
        = BaseDbDriver.isWriteQuery s
        /\ BaseDbDriver.isWriteQuery s = Spec.isWriteQuery s
        /\ ReplicaRouter.isWriteQuery s = BaseDbDriver.isWriteQuery s)
  /\ BaseDbDriver.isWriteQuery "   insert into t ..." = true
  /\ BaseDbDriver.isWriteQuery "   InSeRt INTO t ..." = true
  /\ Utf16.BaseDbDriver_isWriteQuery U Examples.paddedInsert = true
  /\ Utf16.BaseDbDriver_isWriteQuery U Examples.dottedInsert = false.
Proof.
  intros HU Hsql.
  split; [apply Utf16Facts.isWriteQuery_spec; assumption|].
  split.
  { rewrite Utf16Facts.isWriteQuery_spec by assumption.
    unfold SpecUtf16.isWriteQuery. rewrite existsb_exists. reflexivity. }
  split.
  { intros Hk. rewrite Utf16Facts.isWriteQuery_spec by assumption.
    apply Utf16Facts.isWriteQuery_no_kelvin, Hk. }
  split; [reflexivity|].
  split.
  { intros s. split; [apply Utf16Facts.isWriteQuery_of_string, HU|].
    split; [apply base_isWriteQuery_spec | apply router_isWriteQuery_base]. }
  split; [vm_compute; reflexivity|].
  split; [vm_compute; reflexivity|].
  split; (rewrite Utf16Facts.isWriteQuery_spec;
          [vm_compute; reflexivity | exact HU |
           repeat (constructor; [reflexivity|]); constructor]).
Qed.

Lemma write_query_classifier_witness :
  Utf16.BaseDbDriver_isWriteQuery Examples.caselessAbove Examples.kelvinRevoke
  = SpecUtf16.isWriteQuery SpecUtf16.sameLetterOrKelvin Examples.kelvinRevoke.
Proof.
  refine (proj1 (write_query_classifier Examples.caselessAbove
                   Examples.kelvinRevoke _ _)).
  - intros before c rest _ _ Hc. exists c, rest. split; [reflexivity|].
    destruct (Utf16Facts.lowerUnit_none c Hc) as [Hge _]. lia.
  - repeat (constructor; [reflexivity|]). constructor.
Defined.

(** C4 as stated fails when "case-insensitively" is read on the letters
    a-z and A-Z: REVOKE spelled with KELVIN SIGN, which [toLowerCase]
    maps to k, is classified as a write although it begins with none of
    the prefixes.  The Unicode tables left to [Utf16.Unicode] play no
    part in it. *)
Lemma kelvin_sign_is_classified_as_k :
  (forall U, Utf16.BaseDbDriver_isWriteQuery U Examples.kelvinRevoke = true)
  /\ SpecUtf16.isWriteQuery SpecUtf16.sameLetter Examples.kelvinRevoke = false
  /\ Forall Utf16.isCodeUnit Examples.kelvinRevoke.
Proof.
  split; [intros U; vm_compute; reflexivity|].
  split; [vm_compute; reflexivity|].
  repeat (constructor; [reflexivity|]). constructor.
Qed.

(** ** Read-only enforcement on the ad hoc query path *)

(** What [executeQuery] of the postgres, mysql, mssql and sqlite drivers
    does with a write query on a read-only connection. *)
Lemma sql_executeQuery_read_only (d : Driver) (text : string)
    (params : option (list JsValue)) :
  truthy (ConnectionConfig.readOnly (config d)) = true ->
  BaseDbDriver.isWriteQuery text = true ->
  let refused :=
    (Throw (if handle d then BaseDbDriver.readOnlyQueryError
            else Error "Not connected to database"), d) in
  PostgresDriver.executeQuery text params d = refused
  /\ MySqlDriver.executeQuery text params d = refused
  /\ SqliteDriver.executeQuery text params d = refused
  /\ MssqlDriver.executeQuery text params d = refused.
Proof.
  intros Hro Hw refused. subst refused.
  cbv [PostgresDriver.executeQuery MySqlDriver.executeQuery
       SqliteDriver.executeQuery MssqlDriver.executeQuery
       BaseDbDriver.validateQuery bind gets throw].
  destruct (handle d); cbv beta iota delta [negb];
    rewrite ?Hro, ?Hw; cbn [andb]; repeat split.
Qed.

Lemma mongo_executeQuery_read_only (d : Driver) (text : string)
    (params : option (list JsValue)) :
  truthy (ConnectionConfig.readOnly (config d)) = true ->
  BaseDbDriver.isWriteQuery text = true ->
  MongoDriver.executeQuery text params d
  = (Throw (if queryHandle d then BaseDbDriver.readOnlyQueryError
            else Error "Not connected to database"), d).
Proof.
  intros Hro Hw.
  cbv [MongoDriver.executeQuery BaseDbDriver.validateQuery bind gets throw].
  destruct (queryHandle d); cbv beta iota delta [negb];
    rewrite ?Hro, ?Hw; reflexivity.
Qed.

(** The influxdb driver hands every text to the query API once it is
    connected; the read-only flag is not consulted. *)
Lemma influx_executeQuery_dispatches (d : Driver) (text : string)
    (params : option (list JsValue)) :
  queryHandle d = true ->
  InfluxDbDriver.executeQuery text params d
  = Drivers.backendQuery "queryApi.queryRows" text None d.
Proof.
  intros Hq. cbv [InfluxDbDriver.executeQuery bind gets]. rewrite Hq.
  reflexivity.
Qed.

(** C1 (as amended): on a read-only connection, [executeQuery] of the
    postgres, mysql, sqlite, mssql and mongodb drivers on a text
    classified as a write query changes nothing and calls no backend; it
    fails with the read-only violation of [validateQuery] when the
    driver holds a live handle and with "Not connected to database"
    otherwise.  The influxdb driver does not validate: once connected it
    passes the text to [queryApi.queryRows]. *)
Theorem read_only_write_query (d : Driver) (text : string)
    (params : option (list JsValue)) :
  truthy (ConnectionConfig.readOnly (config d)) = true ->
  BaseDbDriver.isWriteQuery text = true ->
  ReadOnlyViolation BaseDbDriver.readOnlyQueryError
  /\ match kind d with
     | Postgres | MySql | Sqlite | Mssql =>
         Driver.executeQuery text params d
         = (Throw (if handle d then BaseDbDriver.readOnlyQueryError
                   else Error "Not connected to database"), d)
     | Mongo =>
         Driver.executeQuery text params d
         = (Throw (if queryHandle d then BaseDbDriver.readOnlyQueryError
                   else Error "Not connected to database"), d)
     | InfluxDb =>
         queryHandle d = true ->
         Driver.executeQuery text params d
         = Drivers.backendQuery "queryApi.queryRows" text None d
     | Prometheus => True
     end.
Proof.
  intros Hro Hw. split; [constructor|].
  pose proof (sql_executeQuery_read_only d text params Hro Hw) as (Hp & Hm & Hs & Hq).
  unfold Driver.executeQuery.
  destruct (kind d); try assumption.
  - apply mongo_executeQuery_read_only; assumption.
  - apply influx_executeQuery_dispatches.
  - exact I.
Qed.

Lemma read_only_write_query_witness :
  truthy (ConnectionConfig.readOnly (config (Examples.connectedReadOnly Postgres)))
  = true
  /\ BaseDbDriver.isWriteQuery "DELETE FROM t" = true
  /\ Driver.executeQuery "DELETE FROM t" None (Examples.connectedReadOnly Postgres)
     = (Throw BaseDbDriver.readOnlyQueryError, Examples.connectedReadOnly Postgres)
  /\ Driver.executeQuery "DELETE FROM t" None (Examples.connectedReadOnly InfluxDb)
     = Drivers.backendQuery "queryApi.queryRows" "DELETE FROM t" None
         (Examples.connectedReadOnly InfluxDb).
Proof.
  split; [reflexivity|]. split; [reflexivity|]. split.
  - exact (proj2 (read_only_write_query (Examples.connectedReadOnly Postgres)
                    "DELETE FROM t" None eq_refl eq_refl)).
  - exact (proj2 (read_only_write_query (Examples.connectedReadOnly InfluxDb)
                    "DELETE FROM t" None eq_refl eq_refl) eq_refl).
Defined.

(** The prometheus driver does not validate either: once connected, the
    text goes into the query URL. *)
Lemma prometheus_executeQuery_dispatches (d : Driver) (text : string)
    (params : option (list JsValue)) :
  connected d = true ->
  PrometheusDriver.executeQuery text params d
  = PrometheusDriver.fetchPrometheus
      ("/api/v1/query?query=" +:+ encodeURIComponent (env d) text) d.
Proof.
  intros Hc. cbv [PrometheusDriver.executeQuery bind gets]. rewrite Hc.
  reflexivity.
Qed.

(** C1 as stated fails on the influxdb driver: on a connected, read-only
    connection the text "DELETE FROM t", a write query for the
    classifier, is sent to the backend and its reply is returned. *)
Lemma influx_read_only_write_reaches_backend :
  truthy (ConnectionConfig.readOnly (config (Examples.connectedReadOnly InfluxDb)))
  = true
  /\ BaseDbDriver.isWriteQuery "DELETE FROM t" = true
  /\ fst (Driver.executeQuery "DELETE FROM t" None
            (Examples.connectedReadOnly InfluxDb))
     = Ok Examples.emptyResult
  /\ calls (snd (Driver.executeQuery "DELETE FROM t" None
                   (Examples.connectedReadOnly InfluxDb)))
     = calls (Examples.connectedReadOnly InfluxDb)
       ++ [CQuery "queryApi.queryRows" "DELETE FROM t" None].
Proof. repeat split. Qed.

(** ** The ordered map *)

Module JsMapFacts.
Section WithValue.
Context {V : Type}.
Implicit Types (m : JsMap.t V) (k : string) (v : V).

Lemma get_delete_eq m k : JsMap.get (JsMap.delete m k) k = None.
Proof.
  induction m as [|[k' v'] m IH]; cbn; [reflexivity|].
  destruct (String.eqb k' k) eqn:E; cbn; [exact IH|].
  rewrite E. exact IH.
Qed.

Lemma get_delete_ne m k k' :
  k <> k' -> JsMap.get (JsMap.delete m k) k' = JsMap.get m k'.
Proof.
  intros Hne. unfold JsMap.delete.
  induction m as [|[k0 v0] m IH]; cbn; [reflexivity|].
  destruct (String.eqb k0 k) eqn:E; cbn.
  - apply String.eqb_eq in E. subst k0.
    destruct (String.eqb k k') eqn:E'; [|exact IH].
    apply String.eqb_eq in E'. contradiction.
  - rewrite IH. reflexivity.
Qed.

Lemma get_set_eq m k v : JsMap.get (JsMap.set m k v) k = Some v.
Proof.
  induction m as [|[k' v'] m IH]; cbn.
  - rewrite String.eqb_refl. reflexivity.
  - destruct (String.eqb k' k) eqn:E; cbn; rewrite E; [reflexivity|exact IH].
Qed.

Lemma get_set_ne m k k' v :
  k <> k' -> JsMap.get (JsMap.set m k v) k' = JsMap.get m k'.
Proof.
  intros Hne. induction m as [|[k0 v0] m IH]; cbn.
  - destruct (String.eqb k k') eqn:E; [|reflexivity].
    apply String.eqb_eq in E. contradiction.
  - destruct (String.eqb k0 k) eqn:E; cbn.
    + apply String.eqb_eq in E. subst k0.
      destruct (String.eqb k k') eqn:E'; [|reflexivity].
      apply String.eqb_eq in E'. contradiction.
    + rewrite IH. reflexivity.
Qed.

Lemma get_clear m k : JsMap.get (JsMap.clear m) k = None.
Proof. reflexivity. Qed.

End WithValue.
End JsMapFacts.

(** ** Connection lifecycle registry *)

Section RegistryFacts.
Context {D : Type} `{DbDriver D}.
Implicit Types (s : DriverRegistry.t D) (id : string) (r : nat) (d : D).

Lemma call_eval {A} (w : World D) r (m : Method) (f : Eff D A) d :
  heap w !! r = Some d ->
  call r m f w = (Ok (fst (f d)), called w r m (snd (f d))).
Proof.
  intros Hd. unfold call. rewrite Hd. destruct (f d); reflexivity.
Qed.

(** [disconnect(id)], step by step. *)
Lemma registry_disconnect_eval s id :
  DriverRegistry.disconnect id s =
  match DriverRegistry.getDriver id s with
  | None => (Ok tt, s)
  | Some r =>
      match heap (DriverRegistry.world s) !! r with
      | None => (Throw notAnObject, s)
      | Some d =>
          let w' := called (DriverRegistry.world s) r MDisconnect
                      (snd (drv_disconnect d)) in
          match fst (drv_disconnect d) with
          | Ok _ =>
              (Ok tt,
               {| DriverRegistry.drivers :=
                    JsMap.delete (DriverRegistry.drivers s) id;
                  DriverRegistry.connectionStore := DriverRegistry.connectionStore s;
                  DriverRegistry.world := w' |})
          | Throw e =>
              (Throw e,
               {| DriverRegistry.drivers := DriverRegistry.drivers s;
                  DriverRegistry.connectionStore := DriverRegistry.connectionStore s;
                  DriverRegistry.world := w' |})
          end
      end
  end.
Proof.
  destruct s as [drv store w].
  cbv [DriverRegistry.disconnect DriverRegistry.getDriver bind gets
       DriverRegistry.drivers DriverRegistry.world DriverRegistry.connectionStore].
  destruct (JsMap.get drv id) as [r|]; [|reflexivity].
  cbv [DriverRegistry.inWorld DriverRegistry.world DriverRegistry.drivers
       DriverRegistry.connectionStore].
  destruct (heap w !! r) as [d|] eqn:Hd.
  - rewrite (call_eval w r MDisconnect drv_disconnect d Hd).
    destruct (drv_disconnect d) as [[[]|e] d']; reflexivity.
  - unfold call. rewrite Hd. reflexivity.
Qed.

End RegistryFacts.

Section RegistryDisconnect.
Context {D : Type} `{DbDriver D}.
Implicit Types (s : DriverRegistry.t D) (id : string) (r : nat) (d : D).

(** C2 (as amended): [disconnect(id)] does nothing when no driver is
    cached for [id]; otherwise it calls [disconnect] once on the
    cached instance, and removes the instance from the cache when that
    call succeeds, after which [getDriver(id)] is undefined.  When the
    call throws, the error reaches the caller and the instance stays
    cached. *)
Theorem registry_disconnect_outcome s id :
  match DriverRegistry.getDriver id s with
  | None => DriverRegistry.disconnect id s = (Ok tt, s)
  | Some r =>
      forall d, heap (DriverRegistry.world s) !! r = Some d ->
        let out := DriverRegistry.disconnect id s in
        trace (DriverRegistry.world (snd out))
        = trace (DriverRegistry.world s) ++ [(r, MDisconnect)]
        /\ heap (DriverRegistry.world (snd out)) !! r
           = Some (snd (drv_disconnect d))
        /\ (fst (drv_disconnect d) = Ok tt ->
            fst out = Ok tt
            /\ DriverRegistry.getDriver id (snd out) = None)
        /\ (forall e, fst (drv_disconnect d) = Throw e ->
            fst out = Throw e
            /\ DriverRegistry.getDriver id (snd out) = Some r)
  end.
Proof.
  rewrite registry_disconnect_eval.
  destruct (DriverRegistry.getDriver id s) as [r|] eqn:Hget; [|reflexivity].
  intros d Hd. rewrite Hd. cbv zeta.
  assert (Hlt : r < length (heap (DriverRegistry.world s)))
    by (eapply lookup_lt_Some; exact Hd).
  destruct (drv_disconnect d) as [[[]|e] d'] eqn:Hdis; cbn [fst snd].
  - cbn. rewrite list_lookup_insert_eq by exact Hlt.
    repeat split; try discriminate.
    apply JsMapFacts.get_delete_eq.
  - cbn. rewrite list_lookup_insert_eq by exact Hlt.
    split; [reflexivity|]. split; [reflexivity|]. split; [discriminate|].
    intros e' He'. split; [exact He' | exact Hget].
Qed.

End RegistryDisconnect.

Lemma registry_disconnect_outcome_witness :
  DriverRegistry.getDriver "c1" Examples.twoConnections = Some 0
  /\ fst (DriverRegistry.disconnect "c1" Examples.twoConnections) = Ok tt
  /\ DriverRegistry.getDriver "c1"
       (snd (DriverRegistry.disconnect "c1" Examples.twoConnections)) = None.
Proof.
  split; [reflexivity|].
  pose proof (registry_disconnect_outcome Examples.twoConnections "c1") as W.
  change (DriverRegistry.getDriver "c1" Examples.twoConnections) with (Some 0) in W.
  cbv iota beta in W.
  destruct (heap (DriverRegistry.world Examples.twoConnections) !! 0) as [d|] eqn:Hd;
    [|discriminate].
  specialize (W d eq_refl). cbv zeta in W.
  destruct W as (_ & _ & Hok & _).
  apply Hok.
  vm_compute in Hd. injection Hd as <-. reflexivity.
Defined.

(** C2 as stated fails when the driver's [disconnect] throws: the
    connection "c2" is still cached after [disconnect("c2")]. *)
Lemma registry_disconnect_failure_keeps_entry :
  DriverRegistry.getDriver "c2" Examples.twoConnections = Some 1
  /\ fst (DriverRegistry.disconnect "c2" Examples.twoConnections)
     = Throw (Error "socket hang up")
  /\ DriverRegistry.getDriver "c2"
       (snd (DriverRegistry.disconnect "c2" Examples.twoConnections)) = Some 1.
Proof. repeat split. Qed.

Section RegistryDisconnectAll.
Context {D : Type} `{DbDriver D}.
Implicit Types (s : DriverRegistry.t D) (w : World D) (r : nat) (d : D).

(** The console entry a failed [disconnect] leaves, if any. *)
Local Abbreviation failureLog d :=
  (match fst (drv_disconnect d) with
   | Ok _ => []
   | Throw e => [ConsoleError "Error disconnecting:" e]
   end).

Lemma disconnectLogged_eval w r d :
  heap w !! r = Some d ->
  exists w1,
    DriverRegistry.disconnectLogged r w = (Ok (Ok tt), w1)
    /\ heap w1 = <[r := snd (drv_disconnect d)]> (heap w)
    /\ trace w1 = trace w ++ [(r, MDisconnect)]
    /\ registry w1 = registry w
    /\ console w1 = console w ++ failureLog d.
Proof.
  intros Hd. unfold DriverRegistry.disconnectLogged, bind.
  rewrite (call_eval w r MDisconnect drv_disconnect d Hd).
  destruct (drv_disconnect d) as [[[]|e] d']; cbn.
  - eexists. split; [reflexivity|]. cbn. rewrite app_nil_r. repeat split.
  - eexists. split; [reflexivity|]. cbn. repeat split.
Qed.

Lemma mapM_cons_eval {S A B} (f : A -> Eff S B) a l (st st1 st2 : S) b bs :
  f a st = (Ok b, st1) ->
  mapM f l st1 = (Ok bs, st2) ->
  mapM f (a :: l) st = (Ok (b :: bs), st2).
Proof.
  intros Ha Hl. cbn [mapM]. unfold bind. rewrite Ha, Hl. reflexivity.
Qed.

Lemma Promise_all_fulfilled (n : nat) :
  Promise_all (repeat (Ok tt) n) = Ok (repeat tt n).
Proof.
  induction n as [|n IH]; cbn; [reflexivity|]. rewrite IH. reflexivity.
Qed.

(** The fan-out over the cached drivers: every promise is fulfilled,
    every driver has had its [disconnect] called, in the order of the
    cache, and nothing but failure reports reaches the console. *)
Lemma disconnect_each (l : list nat) :
  forall w,
    (forall r, In r l -> r < length (heap w)) ->
    exists w' log,
      mapM DriverRegistry.disconnectLogged l w
      = (Ok (repeat (Ok tt) (length l)), w')
      /\ length (heap w') = length (heap w)
      /\ trace w' = trace w ++ map (fun r => (r, MDisconnect)) l
      /\ registry w' = registry w
      /\ console w' = console w ++ log
      /\ Forall (fun c => exists e, c = ConsoleError "Error disconnecting:" e) log
      /\ (forall r, ~ In r l -> heap w' !! r = heap w !! r)
      /\ (NoDup l -> forall r d, In r l -> heap w !! r = Some d ->
            heap w' !! r = Some (snd (drv_disconnect d))
            /\ forall e, fst (drv_disconnect d) = Throw e ->
                 In (ConsoleError "Error disconnecting:" e) log).
Proof.
  induction l as [|r l IH]; intros w Hwf.
  - exists w, []. cbn. rewrite !app_nil_r.
    repeat split; try constructor; try tauto.
    all: intros; contradiction.
  - assert (Hr : r < length (heap w)) by (apply Hwf; left; reflexivity).
    destruct (lookup_lt_is_Some_2 _ _ Hr) as [d Hd].
    destruct (disconnectLogged_eval w r d Hd) as (w1 & E1 & Hh1 & Ht1 & Hg1 & Hc1).
    assert (Hlen1 : length (heap w1) = length (heap w))
      by (rewrite Hh1; apply length_insert).
    destruct (IH w1) as (w' & log & E & Hlen & Ht & Hg & Hc & Hlog & Hout & Hin).
    { intros r' Hr'. rewrite Hlen1. apply Hwf. right. exact Hr'. }
    exists w', (failureLog d ++ log).
    split; [exact (mapM_cons_eval _ _ _ _ _ _ _ _ E1 E)|].
    split; [congruence|].
    split; [rewrite Ht, Ht1, <- app_assoc; reflexivity|].
    split; [congruence|].
    split; [rewrite Hc, Hc1, <- app_assoc; reflexivity|].
    split.
    { apply Forall_app. split; [|exact Hlog].
      destruct (fst (drv_disconnect d)); repeat constructor. eexists; reflexivity. }
    split.
    { intros r' Hr'. rewrite Hout by (intros Hi; apply Hr'; right; exact Hi).
      rewrite Hh1. apply list_lookup_insert_ne.
      intros ->. apply Hr'. left. reflexivity. }
    intros Hnd r' d' Hr' Hd'.
    apply NoDup_cons in Hnd as [Hnotin Hnd].
    destruct Hr' as [<-|Hr'].
    + assert (d' = d) by congruence. subst d'.
      split.
      * rewrite Hout by (rewrite <- list_elem_of_In; exact Hnotin).
        rewrite Hh1. apply list_lookup_insert_eq. exact Hr.
      * intros e He. apply in_or_app. left. rewrite He. left. reflexivity.
    + assert (Hne : r <> r').
      { intros ->. apply Hnotin. rewrite list_elem_of_In. exact Hr'. }
      assert (Hd1 : heap w1 !! r' = Some d').
      { rewrite Hh1, list_lookup_insert_ne by exact Hne. exact Hd'. }
      destruct (Hin Hnd r' d' Hr' Hd1) as [Hpost Hfail].
      split; [exact Hpost|].
      intros e He. apply in_or_app. right. apply Hfail, He.
Qed.

End RegistryDisconnectAll.

Section RegistryDisconnectAllOutcome.
Context {D : Type} `{DbDriver D}.
Implicit Types (s : DriverRegistry.t D) (r : nat) (d : D).

(** C7: [disconnectAll()] does not raise; [disconnect] is called on
    every cached driver, whatever the other calls did; a failure is
    caught and written to the console, one entry per failing driver; the
    cache is empty afterwards. *)
Theorem registry_disconnectAll_outcome s :
  (forall r, In r (JsMap.values (DriverRegistry.drivers s)) ->
             r < length (heap (DriverRegistry.world s))) ->
  let out := DriverRegistry.disconnectAll s in
  let cached := JsMap.values (DriverRegistry.drivers s) in
  fst out = Ok tt
  /\ DriverRegistry.drivers (snd out) = JsMap.empty
  /\ (forall id, DriverRegistry.getDriver id (snd out) = None)
  /\ trace (DriverRegistry.world (snd out))
     = trace (DriverRegistry.world s) ++ map (fun r => (r, MDisconnect)) cached
  /\ (exists log,
        console (DriverRegistry.world (snd out))
        = console (DriverRegistry.world s) ++ log
        /\ Forall (fun c => exists e, c = ConsoleError "Error disconnecting:" e) log)
  /\ (NoDup cached ->
      forall r d, In r cached -> heap (DriverRegistry.world s) !! r = Some d ->
        heap (DriverRegistry.world (snd out)) !! r = Some (snd (drv_disconnect d))
        /\ forall e, fst (drv_disconnect d) = Throw e ->
             In (ConsoleError "Error disconnecting:" e)
                (console (DriverRegistry.world (snd out)))).
Proof.
  intros Hwf. destruct s as [drv store w]. cbn [DriverRegistry.drivers DriverRegistry.world] in *.
  destruct (disconnect_each (JsMap.values drv) w Hwf)
    as (w' & log & E & Hlen & Ht & Hg & Hc & Hlog & Hout & Hin).
  assert (Eall : DriverRegistry.disconnectAll (DriverRegistry.mk drv store w)
                 = (Ok tt, DriverRegistry.mk JsMap.empty store w')).
  { cbv [DriverRegistry.disconnectAll bind gets DriverRegistry.inWorld
         DriverRegistry.drivers DriverRegistry.world DriverRegistry.connectionStore].
    rewrite E. rewrite Promise_all_fulfilled. reflexivity. }
  cbv zeta. rewrite Eall. cbn [fst snd DriverRegistry.drivers DriverRegistry.world].
  split; [reflexivity|]. split; [reflexivity|]. split; [reflexivity|].
  split; [exact Ht|]. split; [exists log; split; assumption|].
  intros Hnd r d Hr Hd. destruct (Hin Hnd r d Hr Hd) as [Hpost Hfail].
  split; [exact Hpost|].
  intros e He. rewrite Hc. apply in_or_app. right. apply Hfail, He.
Qed.

End RegistryDisconnectAllOutcome.

Lemma registry_disconnectAll_outcome_witness :
  fst (DriverRegistry.disconnectAll Examples.twoConnections) = Ok tt
  /\ DriverRegistry.drivers (snd (DriverRegistry.disconnectAll Examples.twoConnections))
     = JsMap.empty.
Proof.
  assert (Hwf : forall r,
             In r (JsMap.values (DriverRegistry.drivers Examples.twoConnections)) ->
             r < length (heap (DriverRegistry.world Examples.twoConnections))).
  { intros r Hr. vm_compute in Hr. destruct Hr as [<-|[<-|[]]]; vm_compute; lia. }
  destruct (registry_disconnectAll_outcome Examples.twoConnections Hwf)
    as (Hok & Hempty & _).
  split; assumption.
Defined.

Section RegistryConnect.
Context {D : Type} `{DbDriver D}.
Implicit Types (s : DriverRegistry.t D) (id : string) (r : nat) (d : D).

(** [connect(id)] when the cached driver reports that it is not
    connected, step by step. *)
Lemma registry_connect_stale_eval s id r d :
  DriverRegistry.getDriver id s = Some r ->
  heap (DriverRegistry.world s) !! r = Some d ->
  drv_isConnected d = false ->
  DriverRegistry.connect id s =
  let store := DriverRegistry.connectionStore s in
  let w := DriverRegistry.world s in
  match ConnectionStore.getConnection store id with
  | Throw e => (Throw e, s)
  | Ok None => (Throw (Error ("Connection " +:+ id +:+ " not found")), s)
  | Ok (Some config) =>
      match ConnectionStore.getPassword store id with
      | Throw e => (Throw e, s)
      | Ok password =>
          match JsMap.get (registry w) (ConnectionConfig.type config) with
          | None =>
              (Throw (DriverFactory.unknownDriverType
                        (ConnectionConfig.type config) (JsMap.keys (registry w))), s)
          | Some reg =>
              let fresh := length (heap w) in
              let d0 := DriverRegistration.constructor reg config
                          (strOr password EmptyString) in
              let w' := called (allocated w d0) fresh MConnect (snd (drv_connect d0)) in
              match fst (drv_connect d0) with
              | Ok _ =>
                  (Ok fresh,
                   {| DriverRegistry.drivers :=
                        JsMap.set (DriverRegistry.drivers s) id fresh;
                      DriverRegistry.connectionStore := store;
                      DriverRegistry.world := w' |})
              | Throw e =>
                  (Throw e,
                   {| DriverRegistry.drivers := DriverRegistry.drivers s;
                      DriverRegistry.connectionStore := store;
                      DriverRegistry.world := w' |})
              end
          end
      end
  end.
Proof.
  destruct s as [drv store w].
  cbv [DriverRegistry.getDriver DriverRegistry.drivers DriverRegistry.world
       DriverRegistry.connectionStore].
  intros Hget Hd Hc.
  cbv [DriverRegistry.connect bind gets DriverRegistry.drivers
       DriverRegistry.inWorld DriverRegistry.world DriverRegistry.connectionStore].
  rewrite Hget. cbv [isConnected]. rewrite Hd, Hc. cbv [ret await throw].
  destruct (ConnectionStore.getConnection store id) as [[config|]|e]; try reflexivity.
  destruct (ConnectionStore.getPassword store id) as [password|e]; try reflexivity.
  cbv [DriverFactory.create bind gets throw].
  destruct (JsMap.get (registry w) (ConnectionConfig.type config)) as [reg|];
    [|reflexivity].
  cbv [alloc].
  set (d0 := DriverRegistration.constructor reg config (strOr password EmptyString)).
  assert (Hfresh : heap (allocated w d0) !! length (heap w) = Some d0).
  { cbn [allocated heap]. rewrite lookup_app_r by lia.
    rewrite Nat.sub_diag. reflexivity. }
  rewrite (call_eval (allocated w d0) (length (heap w)) MConnect drv_connect d0 Hfresh).
  destruct (drv_connect d0) as [[[]|e] d1]; reflexivity.
Qed.

End RegistryConnect.

Section RegistryConnectStale.
Context {D : Type} `{DbDriver D}.
Implicit Types (s : DriverRegistry.t D) (id : string) (r : nat) (d : D).

(** C9: when [connect(id)] finds a cached driver that reports it is not
    connected, every object that existed before the call, the stale
    driver among them, keeps its state; the only method called is
    [connect] on the fresh driver, so [disconnect] is never called on
    the stale one; the cache entries of the other connections are
    unchanged.  When the call returns, it returns the fresh driver, built
    by the factory from the stored configuration and connected, and the
    cache entry of [id] holds it; it returns whenever the configuration
    is found, its driver type is registered and the fresh driver's
    [connect] succeeds.  When the call throws, the stale driver stays
    cached. *)
Theorem registry_connect_replaces_stale s id r d :
  DriverRegistry.getDriver id s = Some r ->
  heap (DriverRegistry.world s) !! r = Some d ->
  drv_isConnected d = false ->
  let out := DriverRegistry.connect id s in
  let w := DriverRegistry.world s in
  let w' := DriverRegistry.world (snd out) in
  let store := DriverRegistry.connectionStore s in
  let fresh := length (heap w) in
  let built config password reg :=
    ConnectionStore.getConnection store id = Ok (Some config)
    /\ ConnectionStore.getPassword store id = Ok password
    /\ JsMap.get (registry w) (ConnectionConfig.type config) = Some reg in
  let object config password reg :=
    DriverRegistration.constructor reg config (strOr password EmptyString) in
  r <> fresh
  /\ (forall r', r' < fresh -> heap w' !! r' = heap w !! r')
  /\ (exists t, trace w' = trace w ++ t
                /\ forall r' m, In (r', m) t -> r' = fresh /\ m = MConnect)
  /\ (forall id', id' <> id ->
        DriverRegistry.getDriver id' (snd out) = DriverRegistry.getDriver id' s)
  /\ (forall r1, fst out = Ok r1 ->
        r1 = fresh
        /\ DriverRegistry.getDriver id (snd out) = Some fresh
        /\ exists config password reg,
             built config password reg
             /\ fst (drv_connect (object config password reg)) = Ok tt
             /\ heap w' !! fresh
                = Some (snd (drv_connect (object config password reg))))
  /\ (forall e, fst out = Throw e ->
        DriverRegistry.getDriver id (snd out) = Some r)
  /\ (forall config password reg,
        built config password reg ->
        fst (drv_connect (object config password reg)) = Ok tt ->
        fst out = Ok fresh).
Proof.
  intros Hget Hd Hc. cbv zeta.
  rewrite (registry_connect_stale_eval s id r d Hget Hd Hc). cbv zeta.
  assert (Hlt : r < length (heap (DriverRegistry.world s)))
    by (eapply lookup_lt_Some; exact Hd).
  split; [lia|].
  assert (Hsame : forall res : Result nat,
    (forall r', r' < length (heap (DriverRegistry.world s)) ->
       heap (DriverRegistry.world (snd (res, s))) !! r'
       = heap (DriverRegistry.world s) !! r')
    /\ (exists t, trace (DriverRegistry.world (snd (res, s)))
                  = trace (DriverRegistry.world s) ++ t
          /\ forall r' m, In (r', m) t ->
               r' = length (heap (DriverRegistry.world s)) /\ m = MConnect)
    /\ (forall id', id' <> id ->
          DriverRegistry.getDriver id' (snd (res, s)) = DriverRegistry.getDriver id' s)).
  { intros res. cbn [snd]. split; [reflexivity|]. split; [|reflexivity].
    exists []. rewrite app_nil_r. split; [reflexivity|]. intros ? ? []. }
  assert (Hfails : forall e0 : JsError,
    (forall c' p' g',
       ConnectionStore.getConnection (DriverRegistry.connectionStore s) id
         = Ok (Some c')
       /\ ConnectionStore.getPassword (DriverRegistry.connectionStore s) id = Ok p'
       /\ JsMap.get (registry (DriverRegistry.world s)) (ConnectionConfig.type c')
          = Some g' -> False) ->
    (forall r', r' < length (heap (DriverRegistry.world s)) ->
       heap (DriverRegistry.world (snd (Throw e0 : Result nat, s))) !! r'
       = heap (DriverRegistry.world s) !! r')
    /\ (exists t, trace (DriverRegistry.world (snd (Throw e0 : Result nat, s)))
                  = trace (DriverRegistry.world s) ++ t
          /\ forall r' m, In (r', m) t ->
               r' = length (heap (DriverRegistry.world s)) /\ m = MConnect)
    /\ (forall id', id' <> id ->
          DriverRegistry.getDriver id' (snd (Throw e0 : Result nat, s))
          = DriverRegistry.getDriver id' s)
    /\ (forall r1, fst (Throw e0 : Result nat, s) = Ok r1 ->
          r1 = length (heap (DriverRegistry.world s))
          /\ DriverRegistry.getDriver id (snd (Throw e0 : Result nat, s))
             = Some (length (heap (DriverRegistry.world s)))
          /\ exists config password reg,
               (ConnectionStore.getConnection (DriverRegistry.connectionStore s) id
                  = Ok (Some config)
                /\ ConnectionStore.getPassword (DriverRegistry.connectionStore s) id
                   = Ok password
                /\ JsMap.get (registry (DriverRegistry.world s))
                     (ConnectionConfig.type config) = Some reg)
               /\ fst (drv_connect
                         (DriverRegistration.constructor reg config
                            (strOr password EmptyString))) = Ok tt
               /\ heap (DriverRegistry.world (snd (Throw e0 : Result nat, s)))
                    !! length (heap (DriverRegistry.world s))
                  = Some (snd (drv_connect
                                 (DriverRegistration.constructor reg config
                                    (strOr password EmptyString)))))
    /\ (forall e, fst (Throw e0 : Result nat, s) = Throw e ->
          DriverRegistry.getDriver id (snd (Throw e0 : Result nat, s)) = Some r)
    /\ (forall config password reg,
          ConnectionStore.getConnection (DriverRegistry.connectionStore s) id
            = Ok (Some config)
          /\ ConnectionStore.getPassword (DriverRegistry.connectionStore s) id
             = Ok password
          /\ JsMap.get (registry (DriverRegistry.world s))
               (ConnectionConfig.type config) = Some reg ->
          fst (drv_connect
                 (DriverRegistration.constructor reg config
                    (strOr password EmptyString))) = Ok tt ->
          fst (Throw e0 : Result nat, s) = Ok (length (heap (DriverRegistry.world s))))).
  { intros e0 Hnot. destruct (Hsame (Throw e0)) as (Ha & Hb & Hc').
    split; [exact Ha|]. split; [exact Hb|]. split; [exact Hc'|].
    cbn [fst snd]. split; [discriminate|]. split; [intros; exact Hget|].
    intros c' p' g' Hb' _. exfalso. exact (Hnot c' p' g' Hb'). }
  destruct (ConnectionStore.getConnection (DriverRegistry.connectionStore s) id)
    as [[config|]|e0] eqn:Econf.
  2,3: (apply Hfails; intros c' p' g' (Hx & _); discriminate).
  destruct (ConnectionStore.getPassword (DriverRegistry.connectionStore s) id)
    as [password|e0] eqn:Epw.
  2: (apply Hfails; intros c' p' g' (_ & Hx & _); discriminate).
  destruct (JsMap.get (registry (DriverRegistry.world s)) (ConnectionConfig.type config))
    as [reg|] eqn:Ereg.
  2: (apply Hfails; intros c' p' g' (Hx & _ & Hy); congruence).
  set (d0 := DriverRegistration.constructor reg config (strOr password EmptyString)).
  set (fresh := length (heap (DriverRegistry.world s))).
  assert (Hold : forall r', r' < fresh ->
            heap (called (allocated (DriverRegistry.world s) d0) fresh MConnect
                    (snd (drv_connect d0))) !! r'
            = heap (DriverRegistry.world s) !! r').
  { intros r' Hr'. cbn [called allocated heap].
    rewrite list_lookup_insert_ne by lia. apply lookup_app_l. exact Hr'. }
  assert (Hnew : heap (called (allocated (DriverRegistry.world s) d0) fresh MConnect
                    (snd (drv_connect d0))) !! fresh
                 = Some (snd (drv_connect d0))).
  { cbn [called allocated heap]. apply list_lookup_insert_eq.
    rewrite length_app. cbn. subst fresh. lia. }
  assert (Htrace : exists t,
            trace (called (allocated (DriverRegistry.world s) d0) fresh MConnect
                     (snd (drv_connect d0)))
            = trace (DriverRegistry.world s) ++ t
            /\ forall r' m, In (r', m) t -> r' = fresh /\ m = MConnect).
  { exists [(fresh, MConnect)]. split; [reflexivity|].
    intros r' m [Heq|[]]. injection Heq as <- <-. split; reflexivity. }
  assert (Hsame_built : forall c' p' g',
            Ok (Some config) = Ok (Some c')
            /\ Ok password = Ok p'
            /\ JsMap.get (registry (DriverRegistry.world s)) (ConnectionConfig.type c')
               = Some g' ->
            DriverRegistration.constructor g' c' (strOr p' EmptyString) = d0).
  { intros c' p' g' (Hx & Hy & Hz).
    assert (c' = config) by congruence. subst c'.
    assert (p' = password) by congruence. subst p'.
    assert (g' = reg) by congruence. subst g'. reflexivity. }
  destruct (fst (drv_connect d0)) as [[]|e0] eqn:Econn; cbn [fst snd DriverRegistry.world].
  - split; [exact Hold|]. split; [exact Htrace|].
    split; [intros id' Hne; apply JsMapFacts.get_set_ne; congruence|].
    split.
    { intros r1 Hr1. injection Hr1 as <-.
      split; [reflexivity|]. split; [apply JsMapFacts.get_set_eq|].
      exists config, password, reg. repeat split; try reflexivity; assumption. }
    split; [discriminate|]. intros; reflexivity.
  - split; [exact Hold|]. split; [exact Htrace|].
    split; [reflexivity|]. split; [discriminate|].
    split; [intros; exact Hget|].
    intros c' p' g' Hb Hok. rewrite (Hsame_built c' p' g' Hb) in Hok. congruence.
Qed.

End RegistryConnectStale.

Lemma registry_connect_replaces_stale_witness :
  DriverRegistry.getDriver "c1" Examples.staleConnection = Some 0
  /\ fst (DriverRegistry.connect "c1" Examples.staleConnection) = Ok 2
  /\ heap (DriverRegistry.world
             (snd (DriverRegistry.connect "c1" Examples.staleConnection))) !! 0
     = heap (DriverRegistry.world Examples.staleConnection) !! 0.
Proof.
  split; [reflexivity|].
  destruct (heap (DriverRegistry.world Examples.staleConnection) !! 0)
    as [d|] eqn:Hd; [|vm_compute in Hd; discriminate Hd].
  assert (Hc : drv_isConnected d = false).
  { pose proof Hd as Hd'. vm_compute in Hd'. injection Hd' as <-. reflexivity. }
  destruct (registry_connect_replaces_stale Examples.staleConnection "c1" 0 d
              eq_refl Hd Hc) as (_ & Hframe & _ & _ & _ & _ & Hsucc).
  split.
  - eapply Hsucc; [repeat split; reflexivity | reflexivity].
  - rewrite <- Hd. apply Hframe. vm_compute. lia.
Defined.

(** ** Replica router: choosing a read driver *)

Section RouterReads.
Context {D : Type} `{DbDriver D}.
Implicit Types (s : ReplicaRouter.t D) (w : World D) (r : nat) (q : Q).

Lemma isConnected_eval w r b :
  reportsConnected w r = Some b -> isConnected r w = (Ok b, w).
Proof.
  unfold reportsConnected, isConnected.
  destruct (heap w !! r) as [d|]; cbn; [|discriminate].
  intros [= <-]. reflexivity.
Qed.

Lemma inWorld_isConnected_eval s r b :
  reportsConnected (ReplicaRouter.world s) r = Some b ->
  ReplicaRouter.inWorld (isConnected r) s = (Ok b, s).
Proof.
  intros Hb. unfold ReplicaRouter.inWorld. rewrite (isConnected_eval _ _ _ Hb).
  destruct s; reflexivity.
Qed.

(** The router with its cursor moved to [i]. *)
Local Abbreviation moved s i := (snd (ReplicaRouter.setCurrentReadIndex i s)).

(** One round-robin step on a connected driver: the driver under the
    cursor is returned and the cursor moves on, modulo the number of
    read drivers. *)
Lemma getReadDriver_round_robin_step s q r :
  ReplicaConfig.loadBalancing (ReplicaRouter.config s) = "round-robin" ->
  ReplicaRouter.readDrivers s !! ReplicaRouter.currentReadIndex s = Some r ->
  reportsConnected (ReplicaRouter.world s) r = Some true ->
  ReplicaRouter.getReadDriver q s
  = (Ok r, moved s ((ReplicaRouter.currentReadIndex s + 1)
                    mod length (ReplicaRouter.readDrivers s))).
Proof.
  intros Hrr Hr Hc.
  assert (Hlen : length (ReplicaRouter.readDrivers s) <> 0).
  { apply lookup_lt_Some in Hr. lia. }
  cbv [ReplicaRouter.getReadDriver ReplicaRouter.pickReadDriver bind gets].
  destruct (Nat.eqb_spec (length (ReplicaRouter.readDrivers s)) 0) as [E|_];
    [contradiction|].
  rewrite Hrr. cbn [String.eqb Ascii.eqb Bool.eqb].
  cbv [ReplicaRouter.setCurrentReadIndex modify ret].
  rewrite Hr. cbv [ReplicaRouter.ensureConnected bind].
  rewrite (inWorld_isConnected_eval _ r true) by exact Hc.
  reflexivity.
Qed.

Lemma mapM_cons_ok {S A B} (f : A -> Eff S B) a l (st st1 : S) b :
  f a st = (Ok b, st1) ->
  mapM f (a :: l) st
  = (match fst (mapM f l st1) with
     | Ok bs => Ok (b :: bs)
     | Throw e => Throw e
     end, snd (mapM f l st1)).
Proof.
  intros Ha. cbn [mapM]. unfold bind. rewrite Ha.
  destruct (mapM f l st1) as [[bs|e] st2]; reflexivity.
Qed.

(** Consecutive round-robin calls, all read drivers connected: call
    number [k] returns the driver [k] places after the cursor, cyclically. *)
Lemma getReadDriver_round_robin_run (qs : list Q) :
  forall s,
    ReplicaConfig.loadBalancing (ReplicaRouter.config s) = "round-robin" ->
    ReplicaRouter.currentReadIndex s < length (ReplicaRouter.readDrivers s) ->
    (forall r, In r (ReplicaRouter.readDrivers s) ->
               reportsConnected (ReplicaRouter.world s) r = Some true) ->
    mapM ReplicaRouter.getReadDriver qs s
    = (Ok (map (fun k => nth ((ReplicaRouter.currentReadIndex s + k)
                               mod length (ReplicaRouter.readDrivers s))
                            (ReplicaRouter.readDrivers s) 0)
              (seq 0 (length qs))),
       moved s ((ReplicaRouter.currentReadIndex s + length qs)
                mod length (ReplicaRouter.readDrivers s))).
Proof.
  induction qs as [|q qs IH]; intros s Hrr Hi Hall.
  - cbn. rewrite Nat.add_0_r, Nat.mod_small by exact Hi.
    destruct s; reflexivity.
  - set (l := ReplicaRouter.readDrivers s) in *.
    set (i := ReplicaRouter.currentReadIndex s) in *.
    assert (Hl : length l <> 0) by lia.
    assert (Hr : l !! i = Some (nth i l 0)).
    { rewrite nth_lookup.
      destruct (l !! i) eqn:E; [reflexivity | apply lookup_ge_None in E; lia]. }
    assert (Hc : reportsConnected (ReplicaRouter.world s) (nth i l 0) = Some true).
    { apply Hall. apply nth_In. exact Hi. }
    rewrite (mapM_cons_ok _ _ _ _ _ _
               (getReadDriver_round_robin_step s q (nth i l 0) Hrr Hr Hc)).
    fold l. fold i.
    rewrite (IH (moved s ((i + 1) mod length l))); cbn [fst snd].
    + cbn [ReplicaRouter.setCurrentReadIndex modify snd
           ReplicaRouter.currentReadIndex ReplicaRouter.readDrivers].
      fold l. f_equal.
      * f_equal.
        cbn [length seq map]. f_equal.
        { rewrite Nat.add_0_r, Nat.mod_small by exact Hi. reflexivity. }
        rewrite <- seq_shift, map_map. apply map_ext. intros k.
        rewrite Nat.Div0.add_mod_idemp_l.
        f_equal. f_equal. lia.
      * cbn [length]. rewrite Nat.Div0.add_mod_idemp_l.
        replace (i + 1 + length qs) with (i + S (length qs)) by lia.
        reflexivity.
    + exact Hrr.
    + cbn. apply Nat.mod_upper_bound. exact Hl.
    + exact Hall.
Qed.

End RouterReads.

Section RouterRoundRobin.
Context {D : Type} `{DbDriver D}.
Implicit Types (s : ReplicaRouter.t D) (r : nat).

(** C5: on a router with the round-robin strategy, three read drivers
    that all report connected and the cursor inside the list, six
    consecutive [getReadDriver()] calls return the three drivers in the
    cyclic order of the list starting from the driver under the cursor,
    twice over: each driver exactly twice, the cursor wrapping modulo
    three and ending where it started.  With the cursor at 0 the order
    starts from the first driver of the list. *)
Theorem round_robin_six_calls s (a b c : nat) (q1 q2 q3 q4 q5 q6 : Q) :
  ReplicaConfig.loadBalancing (ReplicaRouter.config s) = "round-robin" ->
  ReplicaRouter.readDrivers s = [a; b; c] ->
  ReplicaRouter.currentReadIndex s < 3 ->
  reportsConnected (ReplicaRouter.world s) a = Some true ->
  reportsConnected (ReplicaRouter.world s) b = Some true ->
  reportsConnected (ReplicaRouter.world s) c = Some true ->
  let order := rotate (ReplicaRouter.currentReadIndex s) [a; b; c] in
  let out := mapM ReplicaRouter.getReadDriver [q1; q2; q3; q4; q5; q6] s in
  fst out = Ok (order ++ order)
  /\ ReplicaRouter.currentReadIndex (snd out) = ReplicaRouter.currentReadIndex s
  /\ (NoDup [a; b; c] ->
      forall r, In r [a; b; c] -> count_occ Nat.eq_dec (order ++ order) r = 2)
  /\ (ReplicaRouter.currentReadIndex s = 0 ->
      order ++ order = [a; b; c; a; b; c]).
Proof.
  intros Hrr Hl Hi Ha Hb Hc. cbv zeta.
  rewrite (getReadDriver_round_robin_run [q1; q2; q3; q4; q5; q6] s Hrr).
  - rewrite Hl.
    assert (Hcount : NoDup [a; b; c] -> forall r, In r [a; b; c] ->
              (a <> b /\ a <> c /\ b <> c) /\ (r = a \/ r = b \/ r = c)).
    { intros Hnd r Hr.
      apply NoDup_cons in Hnd as [Hab Hnd]. apply NoDup_cons in Hnd as [Hbc _].
      rewrite !list_elem_of_In in *.
      repeat split.
      - intros ->. apply Hab. left. reflexivity.
      - intros ->. apply Hab. right. left. reflexivity.
      - intros ->. apply Hbc. left. reflexivity.
      - destruct Hr as [<-|[<-|[<-|[]]]]; auto. }
    destruct (ReplicaRouter.currentReadIndex s) as [|[|[|i]]]; [| | |lia];
      (split; [reflexivity|]); (split; [reflexivity|]); split;
      try (intros _; reflexivity); try (intros E; discriminate E);
      intros Hnd r Hr;
      destruct (Hcount Hnd r Hr) as [(Hab & Hac & Hbc) [-> | [-> | ->]]];
      cbn; repeat (destruct (Nat.eq_dec _ _); try congruence).
  - rewrite Hl. exact Hi.
  - rewrite Hl. intros r [<-|[<-|[<-|[]]]]; assumption.
Qed.

End RouterRoundRobin.

Lemma round_robin_six_calls_witness :
  fst (mapM ReplicaRouter.getReadDriver [0; 0; 0; 0; 0; 0]%Q
         (snd ((ReplicaRouter.getReadDriver 0 ;;; ReplicaRouter.getReadDriver 0)
                 (Examples.connectedRouter "round-robin"))))
  = Ok [3; 1; 2; 3; 1; 2].
Proof.
  unshelve epose proof
    (round_robin_six_calls
       (snd ((ReplicaRouter.getReadDriver 0 ;;; ReplicaRouter.getReadDriver 0)
               (Examples.connectedRouter "round-robin")))
       1 2 3 0 0 0 0 0 0 _ _ _ _ _ _) as W.
  1-6: vm_compute; try reflexivity; try lia.
  apply proj1 in W. vm_compute in W. exact W.
Defined.

(** C5 as stated fails on a router that meets every condition it
    names: its six calls do not start from the first driver of the
    list.  After [connect()], one [getReadDriver()], [disconnect()] and
    a second [connect()], all hosts up, the new read drivers are
    [5; 6; 7] and the cursor is still at 1, so the calls start from the
    second driver. *)
Lemma round_robin_starts_at_cursor :
  let s := Examples.readThenReconnected in
  ReplicaConfig.loadBalancing (ReplicaRouter.config s) = "round-robin"
  /\ ReplicaRouter.readDrivers s = [5; 6; 7]
  /\ Forall (fun r => reportsConnected (ReplicaRouter.world s) r = Some true)
       [5; 6; 7]
  /\ fst (mapM ReplicaRouter.getReadDriver [0; 0; 0; 0; 0; 0]%Q s)
     = Ok [6; 7; 5; 6; 7; 5]
  /\ fst (mapM ReplicaRouter.getReadDriver [0; 0; 0; 0; 0; 0]%Q s)
     <> Ok [5; 6; 7; 5; 6; 7].
Proof.
  cbv zeta. split; [vm_compute; reflexivity|]. split; [vm_compute; reflexivity|].
  split. { repeat (constructor; [vm_compute; reflexivity|]). constructor. }
  split; [vm_compute; reflexivity|].
  vm_compute. discriminate.
Qed.

Section RouterFallback.
Context {D : Type} `{DbDriver D}.
Implicit Types (s : ReplicaRouter.t D) (w : World D) (r : nat) (q : Q).

Lemma findConnected_none (l : list nat) w :
  (forall r, In r l -> reportsConnected w r = Some false) ->
  ReplicaRouter.findConnected l w = (Ok None, w).
Proof.
  induction l as [|r l IH]; intros Hall; cbn [ReplicaRouter.findConnected].
  - reflexivity.
  - unfold bind. rewrite (isConnected_eval w r false) by (apply Hall; left; reflexivity).
    apply IH. intros r' Hr'. apply Hall. right. exact Hr'.
Qed.

(** [Math.floor(Math.random() * n)] is an index of an array of length
    [n > 0]. *)
Lemma random_index_in_range q (n : nat) :
  (0 <= q)%Q -> (q < 1)%Q -> n <> 0 ->
  (0 <= Qfloor (q * inject_Z (Z.of_nat n)) < Z.of_nat n)%Z.
Proof.
  intros H0 H1 Hn.
  assert (Hpos : (0 < inject_Z (Z.of_nat n))%Q).
  { change 0%Q with (inject_Z 0). rewrite <- Zlt_Qlt. lia. }
  split.
  - change 0%Z with (Qfloor 0). apply Qfloor_resp_le.
    apply Qmult_le_0_compat; [exact H0 | apply Qlt_le_weak, Hpos].
  - rewrite Zlt_Qlt.
    eapply Qle_lt_trans; [apply Qfloor_le|].
    rewrite <- (Qmult_1_l (inject_Z (Z.of_nat n))) at 2.
    apply Qmult_lt_compat_r; assumption.
Qed.

Lemma at_random_index (l : list nat) q :
  (0 <= q)%Q -> (q < 1)%Q -> l <> [] ->
  exists r, ReplicaRouter.at_ l (Qfloor (q * inject_Z (Z.of_nat (length l)))) = Some r
            /\ In r l.
Proof.
  intros H0 H1 Hl.
  assert (Hn : length l <> 0) by (destruct l; [contradiction | cbn; lia]).
  pose proof (random_index_in_range q (length l) H0 H1 Hn) as [Hlo Hhi].
  unfold ReplicaRouter.at_.
  destruct (Z.ltb_spec (Qfloor (q * inject_Z (Z.of_nat (length l)))) 0) as [Hneg|_];
    [lia|].
  destruct (l !! Z.to_nat (Qfloor (q * inject_Z (Z.of_nat (length l))))) as [r|] eqn:E.
  - exists r. split; [reflexivity|]. rewrite <- list_elem_of_In.
    eapply list_elem_of_lookup_2. exact E.
  - apply lookup_ge_None in E. lia.
Qed.

Lemma lookup_in_range (l : list nat) (i : nat) :
  i < length l -> exists r, l !! i = Some r /\ In r l.
Proof.
  intros Hi. destruct (lookup_lt_is_Some_2 l i Hi) as [r Hr].
  exists r. split; [exact Hr|]. rewrite <- list_elem_of_In.
  eapply list_elem_of_lookup_2. exact Hr.
Qed.

Lemma getWriteDriver_eval s (w0 : nat) :
  ReplicaRouter.writeDriver s = Some w0 ->
  ReplicaRouter.getWriteDriver s = (Ok w0, s).
Proof.
  intros Hw. cbv [ReplicaRouter.getWriteDriver bind gets]. rewrite Hw. reflexivity.
Qed.

(** A driver that reports disconnected is replaced by the write driver. *)
Lemma ensureConnected_falls_back s r (w0 : nat) :
  reportsConnected (ReplicaRouter.world s) r = Some false ->
  ReplicaRouter.writeDriver s = Some w0 ->
  ReplicaRouter.ensureConnected (Some r) s = (Ok w0, s).
Proof.
  intros Hr Hw. cbv [ReplicaRouter.ensureConnected bind].
  rewrite (inWorld_isConnected_eval s r false Hr). cbn [negb].
  apply getWriteDriver_eval, Hw.
Qed.

(** Whatever the strategy, the driver picked is one of the read
    drivers, as long as the round-robin cursor is inside the list; only
    the cursor can have changed. *)
Lemma pickReadDriver_member s q :
  ReplicaRouter.readDrivers s <> [] ->
  (forall r, In r (ReplicaRouter.readDrivers s) ->
             reportsConnected (ReplicaRouter.world s) r = Some false) ->
  (0 <= q)%Q -> (q < 1)%Q ->
  (ReplicaConfig.loadBalancing (ReplicaRouter.config s) = "round-robin" ->
   ReplicaRouter.currentReadIndex s < length (ReplicaRouter.readDrivers s)) ->
  exists r s',
    ReplicaRouter.pickReadDriver q (ReplicaRouter.readDrivers s) s = (Ok (Some r), s')
    /\ In r (ReplicaRouter.readDrivers s)
    /\ ReplicaRouter.world s' = ReplicaRouter.world s
    /\ ReplicaRouter.writeDriver s' = ReplicaRouter.writeDriver s.
Proof.
  destruct s as [wd l idx cfg base pw w].
  cbn [ReplicaRouter.writeDriver ReplicaRouter.readDrivers ReplicaRouter.world
       ReplicaRouter.config ReplicaRouter.currentReadIndex].
  intros Hl Hall H0 H1 Hcur.
  assert (Hn : 0 < length l) by (destruct l; [contradiction | cbn; lia]).
  cbv [ReplicaRouter.pickReadDriver bind gets ReplicaRouter.config].
  destruct (String.eqb (ReplicaConfig.loadBalancing cfg) "round-robin") eqn:Err.
  - apply String.eqb_eq in Err.
    destruct (lookup_in_range l idx (Hcur Err)) as (r & Hr & Hin).
    cbv [ReplicaRouter.setCurrentReadIndex modify ret ReplicaRouter.currentReadIndex].
    rewrite Hr. eexists _, _. split; [reflexivity|]. repeat split. exact Hin.
  - destruct (String.eqb (ReplicaConfig.loadBalancing cfg) "random").
    + destruct (at_random_index l q H0 H1 Hl) as (r & Hr & Hin).
      cbv [ret]. rewrite Hr. eexists _, _. split; [reflexivity|]. repeat split. exact Hin.
    + destruct (lookup_in_range l 0 Hn) as (r & Hr & Hin).
      destruct (String.eqb (ReplicaConfig.loadBalancing cfg) "first-available").
      * cbv [ReplicaRouter.inWorld ReplicaRouter.world].
        rewrite (findConnected_none l w Hall). cbv [ret]. rewrite Hr.
        eexists _, _. split; [reflexivity|]. repeat split. exact Hin.
      * cbv [ret]. rewrite Hr.
        eexists _, _. split; [reflexivity|]. repeat split. exact Hin.
Qed.

(** The fallback of [getReadDriver()]: with the write driver present,
    no read driver or only read drivers that report disconnected, and
    the round-robin cursor inside the list, the write driver is
    returned, for every strategy. *)
Lemma getReadDriver_falls_back s q (w0 : nat) :
  ReplicaRouter.writeDriver s = Some w0 ->
  (forall r, In r (ReplicaRouter.readDrivers s) ->
             reportsConnected (ReplicaRouter.world s) r = Some false) ->
  (0 <= q)%Q -> (q < 1)%Q ->
  (ReplicaConfig.loadBalancing (ReplicaRouter.config s) = "round-robin" ->
   ReplicaRouter.readDrivers s = []
   \/ ReplicaRouter.currentReadIndex s < length (ReplicaRouter.readDrivers s)) ->
  fst (ReplicaRouter.getReadDriver q s) = Ok w0.
Proof.
  intros Hw Hall H0 H1 Hcur.
  cbv [ReplicaRouter.getReadDriver bind gets].
  destruct (Nat.eqb_spec (length (ReplicaRouter.readDrivers s)) 0) as [E|Hn].
  - rewrite (getWriteDriver_eval s w0 Hw). reflexivity.
  - assert (Hl : ReplicaRouter.readDrivers s <> []).
    { intros E. apply Hn. rewrite E. reflexivity. }
    destruct (pickReadDriver_member s q Hl Hall H0 H1) as (r & s' & E & Hin & Hws & Hwd).
    { intros Hrr. destruct (Hcur Hrr) as [E|Hi]; [contradiction | exact Hi]. }
    rewrite E.
    rewrite (ensureConnected_falls_back s' r w0).
    + reflexivity.
    + rewrite Hws. apply Hall, Hin.
    + rewrite Hwd. exact Hw.
Qed.

End RouterFallback.

(** C6 (defect in the source): [disconnect()] empties the read-driver
    list but leaves the round-robin cursor where it was.  On the router
    of [Examples.reconnectedRouter] the write driver is present and
    connected, the only read driver reports disconnected, the cursor
    points outside the list, and [getReadDriver()] throws a [TypeError]
    instead of returning the write driver. *)
Theorem getReadDriver_stale_cursor_throws :
  ReplicaConfig.loadBalancing (ReplicaRouter.config Examples.reconnectedRouter)
  = "round-robin"
  /\ ReplicaRouter.writeDriver Examples.reconnectedRouter = Some 4
  /\ reportsConnected (ReplicaRouter.world Examples.reconnectedRouter) 4 = Some true
  /\ ReplicaRouter.readDrivers Examples.reconnectedRouter = [5]
  /\ reportsConnected (ReplicaRouter.world Examples.reconnectedRouter) 5 = Some false
  /\ ReplicaRouter.currentReadIndex Examples.reconnectedRouter = 2
  /\ fst (ReplicaRouter.getReadDriver 0 Examples.reconnectedRouter)
     = Throw notAnObject.
Proof. repeat split. Qed.

(** ** Replica router: connecting *)

Section RouterConnect.
Context {D : Type} `{DbDriver D}.
Implicit Types (s : ReplicaRouter.t D) (r : nat).

(** The driver object the factory builds for an endpoint. *)
Local Abbreviation endpointDriver reg base pw h p :=
  (DriverRegistration.constructor reg (ConnectionConfig.withEndpoint base h p) pw).

Local Abbreviation replicaDriver reg base pw readHost :=
  (endpointDriver reg base pw (ReadReplicaHost.host readHost)
     (ReadReplicaHost.port readHost)).

Lemma insert_last (l : list D) (x y : D) :
  <[length l := y]> (l ++ [x]) = l ++ [y].
Proof.
  rewrite insert_app_r_alt by lia. rewrite Nat.sub_diag. reflexivity.
Qed.

(** Creating a driver and connecting it: the new object is left in the
    state its [connect] produced, whether that call succeeded or not. *)
Lemma create_and_connect (w : World D) type cfg pw reg :
  JsMap.get (registry w) type = Some reg ->
  let d0 := DriverRegistration.constructor reg cfg pw in
  (r <- DriverFactory.create type cfg pw ;;
   p <- call r MConnect drv_connect ;;
   ret (r, p)) w
  = (Ok (length (heap w), fst (drv_connect d0)),
     {| heap := heap w ++ [snd (drv_connect d0)];
        trace := trace w ++ [(length (heap w), MConnect)];
        console := console w; registry := registry w |}).
Proof.
  intros Hreg d0.
  cbv [DriverFactory.create bind gets alloc ret]. rewrite Hreg.
  assert (Hfresh : heap (allocated w d0) !! length (heap w) = Some d0).
  { cbn [allocated heap]. rewrite lookup_app_r by lia.
    rewrite Nat.sub_diag. reflexivity. }
  rewrite (call_eval (allocated w d0) (length (heap w)) MConnect drv_connect d0 Hfresh).
  cbv [called allocated heap trace console registry].
  rewrite insert_last. reflexivity.
Qed.

(** One turn of the loop over the read hosts. *)
Lemma connectReadReplicas_step wd rds idx cfg base pw hp tr con rg reg h rest :
  JsMap.get rg (ConnectionConfig.type base) = Some reg ->
  let d1 := snd (drv_connect (replicaDriver reg base pw h)) in
  let w1 := {| heap := hp ++ [d1]; trace := tr ++ [(length hp, MConnect)];
               console := con; registry := rg |} in
  ReplicaRouter.connectReadReplicas (h :: rest)
    (ReplicaRouter.mk wd rds idx cfg base pw (mkWorld hp tr con rg))
  = match fst (drv_connect (replicaDriver reg base pw h)) with
    | Ok _ =>
        ReplicaRouter.connectReadReplicas rest
          (ReplicaRouter.mk wd (rds ++ [length hp]) idx cfg base pw w1)
    | Throw e => (Throw e, ReplicaRouter.mk wd rds idx cfg base pw w1)
    end.
Proof.
  intros Hreg d1 w1.
  cbn [ReplicaRouter.connectReadReplicas].
  cbv [bind gets ReplicaRouter.baseConfig ReplicaRouter.password
       ReplicaRouter.inWorld ReplicaRouter.world ReplicaRouter.writeDriver
       ReplicaRouter.readDrivers ReplicaRouter.currentReadIndex ReplicaRouter.config].
  pose proof (create_and_connect (mkWorld hp tr con rg) (ConnectionConfig.type base)
                (ConnectionConfig.withEndpoint base (ReadReplicaHost.host h)
                   (ReadReplicaHost.port h)) pw reg Hreg) as E.
  cbv zeta in E. cbv [bind ret] in E.
  destruct (DriverFactory.create (ConnectionConfig.type base)
              (ConnectionConfig.withEndpoint base (ReadReplicaHost.host h)
                 (ReadReplicaHost.port h)) pw (mkWorld hp tr con rg))
    as [[r|e] wa] eqn:Ecreate.
  2: { discriminate E. }
  destruct (call r MConnect drv_connect wa) as [[p|e] wb] eqn:Ecall.
  2: { discriminate E. }
  injection E as -> -> ->.
  cbn [heap trace console registry].
  destruct (fst (drv_connect (replicaDriver reg base pw h))) as [[]|e];
    reflexivity.
Qed.

End RouterConnect.

Section RouterConnectFailure.
Context {D : Type} `{DbDriver D} `{!DbDriverLaws D}.
Implicit Types (s : ReplicaRouter.t D) (r : nat).

Local Abbreviation replicaDriver reg base pw readHost :=
  (DriverRegistration.constructor reg
     (ConnectionConfig.withEndpoint base (ReadReplicaHost.host readHost)
        (ReadReplicaHost.port readHost)) pw).

(** The loop over the read hosts when the replicas [pre] connect and the
    next one, [bad], does not: the loop stops with the error of [bad];
    the drivers of [pre] are in the list, in the state their [connect]
    left them in. *)
Lemma connectReadReplicas_fails_at cfg base pw con rg reg bad post e
    (pre : list ReadReplicaHost.t) :
  JsMap.get rg (ConnectionConfig.type base) = Some reg ->
  fst (drv_connect (replicaDriver reg base pw bad)) = Throw e ->
  Forall (fun h => fst (drv_connect (replicaDriver reg base pw h)) = Ok tt) pre ->
  forall wd rds idx hp tr,
    ReplicaRouter.connectReadReplicas (pre ++ bad :: post)
      (ReplicaRouter.mk wd rds idx cfg base pw (mkWorld hp tr con rg))
    = (Throw e,
       ReplicaRouter.mk wd (rds ++ seq (length hp) (length pre)) idx cfg base pw
         (mkWorld
            (hp ++ map (fun h => snd (drv_connect (replicaDriver reg base pw h)))
                       (pre ++ [bad]))
            (tr ++ map (fun i => (i, MConnect)) (seq (length hp) (S (length pre))))
            con rg)).
Proof.
  intros Hreg Hbad Hpre. induction Hpre as [|h pre Hh Hpre IH];
    intros wd rds idx hp tr.
  - cbn [app length seq map].
    rewrite (connectReadReplicas_step wd rds idx cfg base pw hp tr con rg reg bad post Hreg).
    cbv zeta. rewrite Hbad. rewrite app_nil_r. reflexivity.
  - cbn [app].
    rewrite (connectReadReplicas_step wd rds idx cfg base pw hp tr con rg reg h
               (pre ++ bad :: post) Hreg).
    cbv zeta. rewrite Hh. rewrite IH.
    rewrite length_app. cbn [length]. rewrite Nat.add_1_r.
    cbn [seq map app]. rewrite <- !app_assoc. reflexivity.
Qed.

(** C10: [connect()] is not atomic.  When the write replica and the
    read replicas before the k-th connect and the connect of the k-th
    read replica fails, the error reaches the caller; the write driver
    stays assigned and connected; the drivers of the replicas before the
    k-th stay in the read-driver list, connected; no [disconnect] is
    called on any of them. *)
Theorem router_connect_not_atomic s reg (pre post : list ReadReplicaHost.t)
    (bad : ReadReplicaHost.t) (e : JsError) :
  let base := ReplicaRouter.baseConfig s in
  let pw := ReplicaRouter.password s in
  let cfg := ReplicaRouter.config s in
  let writeObject :=
    DriverRegistration.constructor reg
      (ConnectionConfig.withEndpoint base (ReplicaConfig.writeHost cfg)
         (ReplicaConfig.writePort cfg)) pw in
  JsMap.get (registry (ReplicaRouter.world s)) (ConnectionConfig.type base) = Some reg ->
  ReplicaConfig.readHosts cfg = pre ++ bad :: post ->
  fst (drv_connect writeObject) = Ok tt ->
  Forall (fun h => fst (drv_connect (replicaDriver reg base pw h)) = Ok tt) pre ->
  fst (drv_connect (replicaDriver reg base pw bad)) = Throw e ->
  let out := ReplicaRouter.connect s in
  let n := length (heap (ReplicaRouter.world s)) in
  let k := length pre in
  fst out = Throw e
  /\ ReplicaRouter.writeDriver (snd out) = Some n
  /\ heap (ReplicaRouter.world (snd out)) !! n = Some (snd (drv_connect writeObject))
  /\ reportsConnected (ReplicaRouter.world (snd out)) n = Some true
  /\ ReplicaRouter.readDrivers (snd out) = ReplicaRouter.readDrivers s ++ seq (S n) k
  /\ (forall i h, pre !! i = Some h ->
        heap (ReplicaRouter.world (snd out)) !! (S n + i)
        = Some (snd (drv_connect (replicaDriver reg base pw h)))
        /\ reportsConnected (ReplicaRouter.world (snd out)) (S n + i) = Some true)
  /\ trace (ReplicaRouter.world (snd out))
     = trace (ReplicaRouter.world s) ++ map (fun i => (i, MConnect)) (seq n (S (S k))).
Proof.
  destruct s as [wd rds idx cfg base pw [hp tr con rg]].
  cbn [ReplicaRouter.baseConfig ReplicaRouter.password ReplicaRouter.config
       ReplicaRouter.world ReplicaRouter.readDrivers registry heap trace].
  cbv zeta. intros Hreg Hhosts Hw Hpre Hbad.
  set (writeObject :=
         DriverRegistration.constructor reg
           (ConnectionConfig.withEndpoint base (ReplicaConfig.writeHost cfg)
              (ReplicaConfig.writePort cfg)) pw) in *.
  assert (E : ReplicaRouter.connect
                (ReplicaRouter.mk wd rds idx cfg base pw (mkWorld hp tr con rg))
              = ReplicaRouter.connectReadReplicas (pre ++ bad :: post)
                  (ReplicaRouter.mk (Some (length hp)) rds idx cfg base pw
                     (mkWorld (hp ++ [snd (drv_connect writeObject)])
                        (tr ++ [(length hp, MConnect)]) con rg))).
  { cbv [ReplicaRouter.connect bind gets ReplicaRouter.config
         ReplicaRouter.baseConfig ReplicaRouter.password ReplicaRouter.inWorld
         ReplicaRouter.world ReplicaRouter.writeDriver ReplicaRouter.readDrivers
         ReplicaRouter.currentReadIndex ReplicaRouter.setWriteDriver modify].
    pose proof (create_and_connect (mkWorld hp tr con rg) (ConnectionConfig.type base)
                  (ConnectionConfig.withEndpoint base (ReplicaConfig.writeHost cfg)
                     (ReplicaConfig.writePort cfg)) pw reg Hreg) as Ec.
    cbv zeta in Ec. cbv [bind ret] in Ec.
    destruct (DriverFactory.create (ConnectionConfig.type base)
                (ConnectionConfig.withEndpoint base (ReplicaConfig.writeHost cfg)
                   (ReplicaConfig.writePort cfg)) pw (mkWorld hp tr con rg))
      as [[r|e0] wa] eqn:Ecreate; [|discriminate Ec].
    destruct (call r MConnect drv_connect wa) as [[p|e0] wb] eqn:Ecall;
      [|discriminate Ec].
    injection Ec as -> -> ->. fold writeObject. rewrite Hw.
    cbn [await ret heap trace console registry]. rewrite Hhosts. reflexivity. }
  rewrite E.
  rewrite (connectReadReplicas_fails_at cfg base pw con rg reg bad post e pre
             Hreg Hbad Hpre).
  cbn [fst snd ReplicaRouter.writeDriver ReplicaRouter.readDrivers
       ReplicaRouter.world heap trace].
  rewrite length_app. cbn [length]. rewrite Nat.add_1_r.
  assert (Hwrite : ((hp ++ [snd (drv_connect writeObject)])
                    ++ map (fun h => snd (drv_connect (replicaDriver reg base pw h)))
                           (pre ++ [bad])) !! length hp
                   = Some (snd (drv_connect writeObject))).
  { rewrite <- app_assoc. rewrite lookup_app_r by lia.
    rewrite Nat.sub_diag. reflexivity. }
  assert (Hread : forall i h, pre !! i = Some h ->
            ((hp ++ [snd (drv_connect writeObject)])
             ++ map (fun h => snd (drv_connect (replicaDriver reg base pw h)))
                    (pre ++ [bad])) !! (S (length hp) + i)
            = Some (snd (drv_connect (replicaDriver reg base pw h)))).
  { intros i h Hi. rewrite lookup_app_r by (rewrite length_app; cbn; lia).
    rewrite length_app. cbn [length].
    replace (S (length hp) + i - (length hp + 1)) with i by lia.
    rewrite list_lookup_fmap. rewrite lookup_app_l by (eapply lookup_lt_Some; exact Hi).
    rewrite Hi. reflexivity. }
  split; [reflexivity|]. split; [reflexivity|]. split; [exact Hwrite|].
  split.
  { unfold reportsConnected. cbn [heap]. rewrite Hwrite. cbn.
    f_equal. apply connect_ok_isConnected. exact Hw. }
  split; [reflexivity|].
  split.
  { intros i h Hi. split; [apply Hread, Hi|].
    unfold reportsConnected. cbn [heap]. rewrite (Hread i h Hi). cbn.
    f_equal. apply connect_ok_isConnected.
    rewrite Forall_forall in Hpre. apply Hpre.
    eapply list_elem_of_lookup_2. exact Hi. }
  rewrite <- app_assoc. reflexivity.
Qed.

End RouterConnectFailure.

(** ** The concrete drivers satisfy the law of the interface *)

Lemma driver_connect_ok_isConnected (d : Driver) :
  fst (Driver.connect d) = Ok tt ->
  Driver.isConnected (snd (Driver.connect d)) = true.
Proof.
  destruct d as [k cfg pw c h qh pc bu en cs].
  unfold Driver.connect, Driver.isConnected.
  destruct k; cbn [kind].
  - (* postgres *)
    cbv [PostgresDriver.connect PostgresDriver.isConnected bind modify
         Drivers.setHandle Drivers.setConnected Drivers.backendConnect
         Drivers.logCall Drivers.ofOutcome env calls connected handle fst snd].
    destruct (onConnect en cs); [discriminate | reflexivity].
  - (* mysql *)
    cbv [MySqlDriver.connect MySqlDriver.isConnected bind modify
         Drivers.setHandle Drivers.setConnected Drivers.backendConnect
         Drivers.logCall Drivers.ofOutcome env calls connected handle fst snd].
    destruct (onConnect en cs); [discriminate | reflexivity].
  - (* sqlite *)
    cbv [SqliteDriver.connect SqliteDriver.isConnected bind modify
         Drivers.setHandle Drivers.setConnected Drivers.backendConnect
         Drivers.logCall Drivers.ofOutcome env calls connected handle fst snd].
    destruct (onConnect en cs); [discriminate | reflexivity].
  - (* mssql *)
    cbv [MssqlDriver.connect MssqlDriver.isConnected bind modify
         Drivers.setHandle Drivers.setConnected Drivers.setPoolConnected
         Drivers.backendConnect Drivers.logCall Drivers.ofOutcome env calls
         connected handle poolConnected fst snd].
    destruct (onConnect en cs); [discriminate | reflexivity].
  - (* mongodb *)
    cbv [MongoDriver.connect MongoDriver.isConnected bind modify
         Drivers.setHandle Drivers.setConnected Drivers.setQueryHandle
         Drivers.backendConnect Drivers.logCall Drivers.ofOutcome env calls
         connected handle fst snd].
    destruct (onConnect en cs); [discriminate | reflexivity].
  - (* influxdb *)
    cbv [InfluxDbDriver.connect InfluxDbDriver.newClient InfluxDbDriver.isConnected
         bind modify tryCatch Drivers.ofOutcome
         Drivers.setHandle Drivers.setConnected Drivers.setQueryHandle
         Drivers.backendQuery Drivers.logCall env calls config connected handle
         throw fst snd].
    destruct (newInfluxDB en (InfluxDbDriver.url cfg)); [discriminate|].
    destruct (onQuery en cs "queryApi.queryRows" "buckets() |> limit(n: 1)" None);
      [reflexivity | discriminate].
  - (* prometheus *)
    cbv [PrometheusDriver.connect PrometheusDriver.isConnected bind modify gets
         tryCatch Drivers.setBaseUrl Drivers.setConnected config baseUrl
         PrometheusDriver.fetchPrometheus].
    set (b := PrometheusDriver.stripTrailingSlash
                (strOr (ConnectionConfig.host cfg) "http://localhost:9090")).
    destruct b as [|c0 b'] eqn:Eb.
    + cbn. discriminate.
    + destruct (JsString.startsWith
                  (String c0 b' +:+ "/api/v1/status/buildinfo") "/") eqn:Es.
      * cbn. discriminate.
      * cbv [Drivers.backendQuery Drivers.logCall env calls throw fst snd
             connected baseUrl].
        destruct (onQuery en cs "fetch" (String c0 b' +:+ "/api/v1/status/buildinfo") None);
          [reflexivity | discriminate].
Qed.

#[export] Instance Driver_DbDriverLaws : DbDriverLaws Driver.
Proof. constructor. exact driver_connect_ok_isConnected. Qed.

Lemma router_connect_not_atomic_witness :
  fst (ReplicaRouter.connect (Examples.freshRouter "round-robin" ["replica2"]))
  = Throw (Error "connect ECONNREFUSED")
  /\ ReplicaRouter.writeDriver
       (snd (ReplicaRouter.connect (Examples.freshRouter "round-robin" ["replica2"])))
     = Some 0
  /\ reportsConnected
       (ReplicaRouter.world
          (snd (ReplicaRouter.connect (Examples.freshRouter "round-robin" ["replica2"]))))
       0 = Some true
  /\ ReplicaRouter.readDrivers
       (snd (ReplicaRouter.connect (Examples.freshRouter "round-robin" ["replica2"])))
     = [1].
Proof.
  unshelve epose proof
    (router_connect_not_atomic
       (Examples.freshRouter "round-robin" ["replica2"])
       (DriverRegistration.mk
          (Examples.metadataOf "mssql" "Microsoft SQL Server")
          (Examples.mssqlWhereDown ["replica2"]))
       [ReadReplicaHost.mk "replica1" 1433%Z None]
       [ReadReplicaHost.mk "replica3" 1433%Z None]
       (ReadReplicaHost.mk "replica2" 1433%Z None)
       (Error "connect ECONNREFUSED") _ _ _ _ _) as W.
  - reflexivity.
  - reflexivity.
  - reflexivity.
  - repeat constructor.
  - reflexivity.
  - destruct W as (Hres & Hw & _ & Hc & Hreads & _).
    repeat split; assumption.
Defined.

(* ===================================================================== *)
(** * Part III.  Further properties of the code                           *)
(* ===================================================================== *)

(** ** Capability model *)

(** X1: write permission can be read off the effective capabilities: a
    capability set made effective for a read-only connection allows no
    write, whatever flag it is queried with afterwards; made effective
    for a writable connection it allows what the declared set allows. *)
Theorem write_allowed_of_effective (C : DriverCapabilities) (r r' : option bool) :
  Capabilities.isWriteAllowed (Capabilities.getEffectiveCapabilities C r) r'
  = Capabilities.isWriteAllowed C r && negb (truthy r').
Proof.
  unfold Capabilities.isWriteAllowed, Capabilities.getEffectiveCapabilities.
  destruct (truthy r), (truthy r'); cbn.
  - reflexivity.
  - reflexivity.
  - symmetry. apply andb_false_r.
  - symmetry. apply andb_true_r.
Qed.

(** ** The classifier *)

Module ClassifierFacts.
Import JsString.

Lemma trimStart_padding (pad s : string) :
  allWhiteSpace pad = true -> trimStart (pad +:+ s) = trimStart s.
Proof.
  induction pad as [|c pad IH]; simpl; [reflexivity|].
  intros Hc. apply andb_prop in Hc as [Hc Hpad]. rewrite Hc. apply IH, Hpad.
Qed.

Lemma trimStart_blank (pad : string) :
  allWhiteSpace pad = true -> trimStart pad = EmptyString.
Proof.
  induction pad as [|c pad IH]; simpl; [reflexivity|].
  intros Hc. apply andb_prop in Hc as [Hc Hpad]. rewrite Hc. apply IH, Hpad.
Qed.

Lemma trimEnd_blank (pad : string) :
  allWhiteSpace pad = true -> trimEnd pad = EmptyString.
Proof.
  induction pad as [|c pad IH]; simpl; [reflexivity|].
  intros Hc. apply andb_prop in Hc as [Hc Hpad]. rewrite (IH Hpad), Hc. reflexivity.
Qed.

Lemma trimEnd_padding (s pad : string) :
  allWhiteSpace pad = true -> trimEnd (s +:+ pad) = trimEnd s.
Proof.
  intros Hpad. induction s as [|c s IH]; simpl.
  - apply trimEnd_blank, Hpad.
  - rewrite IH. reflexivity.
Qed.

(** What [trimStart] returns begins with a code unit that is not white
    space. *)
Lemma trimStart_head (s : string) (c : ascii) (rest : string) :
  trimStart s = String c rest -> isWhiteSpace c = false.
Proof.
  induction s as [|a s IH]; simpl; [discriminate|].
  destruct (isWhiteSpace a) eqn:Ea; [exact IH|].
  intros [= <- <-]. exact Ea.
Qed.

Lemma trimStart_app (s t : string) (c : ascii) (rest : string) :
  trimStart s = String c rest -> trimStart (s +:+ t) = String c rest +:+ t.
Proof.
  induction s as [|a s IH]; simpl; [discriminate|].
  destruct (isWhiteSpace a); [exact IH|].
  intros [= <- <-]. reflexivity.
Qed.

Lemma trim_padding (pad1 s pad2 : string) :
  allWhiteSpace pad1 = true -> allWhiteSpace pad2 = true ->
  trim (pad1 +:+ s +:+ pad2) = trim s.
Proof.
  intros H1 H2. unfold trim. rewrite (trimStart_padding pad1 _ H1).
  destruct (trimStart s) as [|c rest] eqn:E.
  - assert (Hs : trimStart (s +:+ pad2) = EmptyString).
    { clear H1. induction s as [|a s IH]; simpl in *.
      - apply trimStart_blank, H2.
      - destruct (isWhiteSpace a); [apply IH, E | discriminate]. }
    rewrite Hs. reflexivity.
  - rewrite (trimStart_app s pad2 c rest E). apply trimEnd_padding, H2.
Qed.

(** The first code unit survives [trimEnd] when it is not white space. *)
Lemma trimEnd_head (c : ascii) (rest : string) :
  isWhiteSpace c = false -> exists t, trimEnd (String c rest) = String c t.
Proof.
  intros Hc. simpl. destruct (trimEnd rest) as [|a t].
  - rewrite Hc. eexists; reflexivity.
  - eexists; reflexivity.
Qed.

Lemma lower_keeps_whitespace (c : ascii) :
  isWhiteSpace (toLowerCaseChar c) = isWhiteSpace c.
Proof.
  revert c.
  assert (Hall : forallb (fun c => Bool.eqb (isWhiteSpace (toLowerCaseChar c))
                                    (isWhiteSpace c)) allChars = true)
    by (vm_compute; reflexivity).
  intros c. apply Bool.eqb_prop. exact (JsStringFacts.forall_chars _ Hall c).
Qed.

Lemma lower_trimStart (s : string) :
  trimStart (toLowerCase s) = toLowerCase (trimStart s).
Proof.
  induction s as [|c s IH]; simpl; [reflexivity|].
  rewrite lower_keeps_whitespace. destruct (isWhiteSpace c); [exact IH | reflexivity].
Qed.

Lemma lower_trimEnd (s : string) :
  trimEnd (toLowerCase s) = toLowerCase (trimEnd s).
Proof.
  induction s as [|c s IH]; simpl; [reflexivity|].
  rewrite IH, lower_keeps_whitespace.
  destruct (trimEnd s); simpl; [destruct (isWhiteSpace c)|]; reflexivity.
Qed.

Lemma lower_trim (s : string) : trim (toLowerCase s) = toLowerCase (trim s).
Proof. unfold trim. rewrite lower_trimStart. apply lower_trimEnd. Qed.

Lemma sameLetter_lower (p c : ascii) :
  Spec.isSmallLetter p = true ->
  Spec.sameLetter p (toLowerCaseChar c) = Spec.sameLetter p c.
Proof.
  revert c. revert p.
  assert (Hall : forallb (fun p =>
                     implb (Spec.isSmallLetter p)
                       (forallb (fun c =>
                          Bool.eqb (Spec.sameLetter p (toLowerCaseChar c))
                                   (Spec.sameLetter p c)) allChars)) allChars = true)
    by (vm_compute; reflexivity).
  intros p c Hp.
  pose proof (JsStringFacts.forall_chars _ Hall p) as Hp'. cbv beta in Hp'.
  rewrite Hp in Hp'. cbn [implb] in Hp'.
  apply Bool.eqb_prop. exact (JsStringFacts.forall_chars _ Hp' c).
Qed.

Lemma beginsWith_lower (p t : string) :
  Spec.allSmallLetters p = true ->
  Spec.beginsWith p (toLowerCase t) = Spec.beginsWith p t.
Proof.
  revert t. induction p as [|a p IH]; intros t Hp.
  - destruct t; reflexivity.
  - cbn [Spec.allSmallLetters] in Hp. apply andb_prop in Hp as [Ha Hp].
    destruct t as [|c t]; [reflexivity|].
    cbn [toLowerCase Spec.beginsWith].
    rewrite (sameLetter_lower a c Ha), (IH t Hp). reflexivity.
Qed.

End ClassifierFacts.

(** X2: the classifier ignores blank padding around the text and the
    case of its letters. *)
Theorem isWriteQuery_padding_case (pad1 sql pad2 : string) :
  allWhiteSpace pad1 = true -> allWhiteSpace pad2 = true ->
  BaseDbDriver.isWriteQuery (pad1 +:+ sql +:+ pad2) = BaseDbDriver.isWriteQuery sql
  /\ BaseDbDriver.isWriteQuery (JsString.toLowerCase sql)
     = BaseDbDriver.isWriteQuery sql.
Proof.
  intros H1 H2. rewrite !base_isWriteQuery_spec. unfold Spec.isWriteQuery.
  split.
  - rewrite (ClassifierFacts.trim_padding pad1 sql pad2 H1 H2). reflexivity.
  - rewrite ClassifierFacts.lower_trim. unfold Spec.writePrefixes. cbn [existsb].
    rewrite !ClassifierFacts.beginsWith_lower by reflexivity. reflexivity.
Qed.

Lemma isWriteQuery_padding_case_witness :
  BaseDbDriver.isWriteQuery ("  " +:+ "Drop Table t" +:+ " ")
  = BaseDbDriver.isWriteQuery "Drop Table t".
Proof.
  exact (proj1 (isWriteQuery_padding_case "  " "Drop Table t" " " eq_refl eq_refl)).
Defined.

Lemma initial_mismatch (c : ascii) :
  existsb (Ascii.eqb c) writeInitials = false ->
  forallb (fun p => negb (Spec.sameLetter p c))
          (list_ascii_of_string "iudactgr") = true.
Proof.
  revert c.
  assert (Hall : forallb (fun c =>
                    implb (negb (existsb (Ascii.eqb c) writeInitials))
                      (forallb (fun p => negb (Spec.sameLetter p c))
                               (list_ascii_of_string "iudactgr")))
                    JsString.allChars = true)
    by (vm_compute; reflexivity).
  intros c Hc. pose proof (JsStringFacts.forall_chars _ Hall c) as H.
  cbv beta in H. rewrite Hc in H. exact H.
Qed.

(** X3: a text whose first code unit after the leading white space is
    not the initial of a write prefix is never classified as a write
    query, so [validateQuery] lets it through on a read-only connection
    too: a statement behind a comment, a parenthesis or a [WITH] clause
    is not detected. *)
Theorem unrecognised_initial_passes (sql : string) (c : ascii) (rest : string) :
  JsString.trimStart sql = String c rest ->
  ~ In c writeInitials ->
  BaseDbDriver.isWriteQuery sql = false
  /\ forall (S : Type) (config : ConnectionConfig.t) (st : S),
       BaseDbDriver.validateQuery config sql st = (Ok tt, st).
Proof.
  intros Hstart Hc.
  assert (Hw : BaseDbDriver.isWriteQuery sql = false).
  { rewrite base_isWriteQuery_spec. unfold Spec.isWriteQuery, JsString.trim.
    rewrite Hstart.
    destruct (ClassifierFacts.trimEnd_head c rest
                (ClassifierFacts.trimStart_head sql c rest Hstart)) as [t ->].
    assert (Hno : existsb (Ascii.eqb c) writeInitials = false).
    { destruct (existsb (Ascii.eqb c) writeInitials) eqn:E; [|reflexivity].
      exfalso. apply Hc. apply existsb_exists in E as (x & Hx & Ex).
      apply Ascii.eqb_eq in Ex. subst x. exact Hx. }
    pose proof (initial_mismatch c Hno) as Hm. cbn [list_ascii_of_string forallb] in Hm.
    repeat (apply andb_prop in Hm as [?H Hm]).
    unfold Spec.writePrefixes. cbn [existsb Spec.beginsWith].
    repeat match goal with
           | Hn : negb (Spec.sameLetter ?p c) = true |- _ =>
               apply negb_true_iff in Hn; rewrite ?Hn; clear Hn
           end.
    reflexivity. }
  split; [exact Hw|].
  intros S config st. unfold BaseDbDriver.validateQuery. rewrite Hw, andb_false_r.
  reflexivity.
Qed.

Lemma unrecognised_initial_passes_witness :
  BaseDbDriver.isWriteQuery
    "WITH moved AS (DELETE FROM t RETURNING *) INSERT INTO u SELECT * FROM moved"
  = false.
Proof.
  refine (proj1 (unrecognised_initial_passes
                   "WITH moved AS (DELETE FROM t RETURNING *) INSERT INTO u SELECT * FROM moved"
                   "W"
                   "ITH moved AS (DELETE FROM t RETURNING *) INSERT INTO u SELECT * FROM moved"
                   eq_refl _)).
  intros H. cbv [writeInitials list_ascii_of_string In] in H.
  repeat (destruct H as [H|H]; [discriminate H|]). exact H.
Defined.

(** ** The life cycle of a driver object *)

Ltac driver_cases d :=
  destruct d as [k cfg pw c h qh pc bu en cs]; destruct k;
  cbv [Driver.connect Driver.disconnect Driver.isConnected Driver.executeQuery kind
       PostgresDriver.connect PostgresDriver.disconnect PostgresDriver.isConnected
       MySqlDriver.connect MySqlDriver.disconnect MySqlDriver.isConnected
       SqliteDriver.connect SqliteDriver.disconnect SqliteDriver.isConnected
       MssqlDriver.connect MssqlDriver.disconnect MssqlDriver.isConnected
       MongoDriver.connect MongoDriver.disconnect MongoDriver.isConnected
       InfluxDbDriver.connect InfluxDbDriver.newClient
       InfluxDbDriver.disconnect InfluxDbDriver.isConnected
       PrometheusDriver.connect PrometheusDriver.disconnect
       PrometheusDriver.isConnected PrometheusDriver.fetchPrometheus
       bind gets modify ret throw tryCatch
       Drivers.setHandle Drivers.setConnected Drivers.setQueryHandle
       Drivers.setPoolConnected Drivers.setBaseUrl
       Drivers.backendConnect Drivers.backendClose Drivers.backendSave
       Drivers.backendQuery Drivers.logCall Drivers.ofOutcome Drivers.new
       env calls connected handle queryHandle poolConnected baseUrl config
       fst snd] in *.

(** X4: [disconnect()] on a driver that was never connected does
    nothing: it returns, calls no backend and leaves the object as the
    constructor made it, for each of the seven driver classes. *)
Theorem disconnect_never_connected (k : DriverKind) (e : Env)
    (cfg : ConnectionConfig.t) (pw : string) :
  Driver.disconnect (Drivers.new k e cfg pw) = (Ok tt, Drivers.new k e cfg pw).
Proof.
  destruct k; reflexivity.
Qed.

(** X5: after a [disconnect()] that returned, the driver reports that
    it is not connected, and a further [disconnect()] returns without
    calling the backend or changing the object. *)
Theorem disconnect_twice (d : Driver) :
  fst (Driver.disconnect d) = Ok tt ->
  Driver.isConnected (snd (Driver.disconnect d)) = false
  /\ Driver.disconnect (snd (Driver.disconnect d)) = (Ok tt, snd (Driver.disconnect d)).
Proof.
  driver_cases d.
  - destruct h; [destruct (onClose en cs)|]; cbn; intros Hok;
      try discriminate; split; reflexivity.
  - destruct h; [destruct (onClose en cs)|]; cbn; intros Hok;
      try discriminate; split; reflexivity.
  - destruct h; cbn; [|intros _; split; reflexivity].
    destruct (truthy (ConnectionConfig.readOnly cfg)); cbn.
    + destruct (onClose en cs); cbn; intros Hok; try discriminate; split; reflexivity.
    + destruct (onSave en cs); cbn; [intros Hok; discriminate|].
      destruct (onClose en (cs ++ [CSave])); cbn; intros Hok;
        try discriminate; split; reflexivity.
  - destruct h; [destruct (onClose en cs)|]; cbn; intros Hok;
      try discriminate; split; reflexivity.
  - destruct h; [destruct (onClose en cs)|]; cbn; intros Hok;
      try discriminate; split; reflexivity.
  - intros _. split; reflexivity.
  - intros _. split; reflexivity.
Qed.

Lemma disconnect_twice_witness :
  Driver.isConnected (snd (Driver.disconnect (Examples.connectedReadOnly Sqlite)))
  = false.
Proof.
  exact (proj1 (disconnect_twice (Examples.connectedReadOnly Sqlite) eq_refl)).
Defined.

(** X6: a [connect()] that fails never sets the connected flag: a
    driver that was not connected before still reports that it is not
    connected. *)
Theorem connect_failure_not_connected (d : Driver) (e : JsError) :
  fst (Driver.connect d) = Throw e ->
  connected (snd (Driver.connect d)) = connected d
  /\ (connected d = false -> Driver.isConnected (snd (Driver.connect d)) = false).
Proof.
  driver_cases d.
  - destruct (onConnect en cs); cbn; intros Hf; [|discriminate].
    split; [reflexivity|]. intros ->. reflexivity.
  - destruct (onConnect en cs); cbn; intros Hf; [|discriminate].
    split; [reflexivity|]. intros ->. reflexivity.
  - destruct (onConnect en cs); cbn; intros Hf; [|discriminate].
    split; [reflexivity|]. intros ->. reflexivity.
  - destruct (onConnect en cs); cbn; intros Hf; [|discriminate].
    split; [reflexivity|]. intros ->. reflexivity.
  - destruct (onConnect en cs); cbn; intros Hf; [|discriminate].
    split; [reflexivity|]. intros ->. reflexivity.
  - destruct (newInfluxDB en (InfluxDbDriver.url cfg)); cbn.
    + intros Hf. split; [reflexivity|]. intros ->. reflexivity.
    + destruct (onQuery en cs "queryApi.queryRows" "buckets() |> limit(n: 1)" None);
        cbn; intros Hf; [discriminate|].
      split; [reflexivity|]. intros ->. reflexivity.
  - destruct (JsString.startsWith _ "/"); cbn.
    + intros Hf. split; [reflexivity|]. intros ->. reflexivity.
    + destruct (onQuery en cs "fetch" _ None); cbn; intros Hf; [discriminate|].
      split; [reflexivity|]. intros ->. reflexivity.
Qed.

Lemma connect_failure_not_connected_witness :
  Driver.isConnected
    (snd (Driver.connect
            (Drivers.new Postgres Examples.refusingEnv
               (Examples.exampleConfig "postgres" None) "secret")))
  = false.
Proof.
  exact (proj2 (connect_failure_not_connected
                  (Drivers.new Postgres Examples.refusingEnv
                     (Examples.exampleConfig "postgres" None) "secret")
                  (Error "connect ECONNREFUSED") eq_refl) eq_refl).
Defined.



(** ** Ad hoc queries on the mssql, mongodb and sqlite drivers *)

Module MssqlFacts.
Import MssqlDriver.

Lemma namedParamsFrom_no_at (s : string) :
  hasChar "@" s = false -> namedParamsFrom None s = [].
Proof.
  induction s as [|c s IH]; cbn [hasChar namedParamsFrom]; [reflexivity|].
  intros Hc. apply orb_false_elim in Hc as [Hc Hs]. rewrite Hc. apply IH, Hs.
Qed.

Lemma rewriteParams_no_params (names : list string) (index : nat) (sql : string) :
  rewriteParams names index 0 sql = sql.
Proof.
  revert index sql. induction names as [|n names IH]; intros index sql; cbn.
  - reflexivity.
  - apply IH.
Qed.

End MssqlFacts.

(** X8: the mssql driver rewrites [@name] markers into [@paramN] only
    when parameters are given: a query without parameters, with an
    empty parameter array, or without any [@] in its text reaches
    [request.query] with its text unchanged. *)
Theorem mssql_text_unchanged (d : Driver) (text : string)
    (params : option (list JsValue)) :
  handle d = true ->
  truthy (ConnectionConfig.readOnly (config d)) && BaseDbDriver.isWriteQuery text
  = false ->
  params = None \/ params = Some [] \/ hasChar "@" text = false ->
  MssqlDriver.executeQuery text params d
  = Drivers.backendQuery "request.query" text params d.
Proof.
  intros Hh Hv Hp.
  cbv [MssqlDriver.executeQuery BaseDbDriver.validateQuery bind gets].
  rewrite Hh. cbv beta iota delta [negb]. rewrite Hv. cbv beta iota.
  destruct Hp as [-> | [-> | Hat]].
  - reflexivity.
  - cbn [length]. rewrite MssqlFacts.rewriteParams_no_params. reflexivity.
  - destruct params as [ps|]; [|reflexivity].
    unfold MssqlDriver.namedParamsOf.
    rewrite (MssqlFacts.namedParamsFrom_no_at text Hat). reflexivity.
Qed.

Lemma mssql_text_unchanged_witness :
  calls (snd (MssqlDriver.executeQuery "SELECT name FROM sys.tables WHERE id = 1"
                (Some [VNumber 1]) (Examples.connectedReadOnly Mssql)))
  = calls (Examples.connectedReadOnly Mssql)
    ++ [CQuery "request.query" "SELECT name FROM sys.tables WHERE id = 1"
          (Some [VNumber 1])].
Proof.
  rewrite (mssql_text_unchanged (Examples.connectedReadOnly Mssql)
             "SELECT name FROM sys.tables WHERE id = 1" (Some [VNumber 1])
             eq_refl eq_refl (or_intror (or_intror eq_refl))).
  reflexivity.
Defined.

(** X9: the mongodb driver wraps parsing and execution in one
    [try]/[catch]: once past the connection guard and the read-only
    check, a text that does not parse and a failure of the backend are
    both reported as the same format error; the error of the backend is
    lost. *)
Theorem mongo_masks_failures (d : Driver) (text : string)
    (params : option (list JsValue)) :
  queryHandle d = true ->
  truthy (ConnectionConfig.readOnly (config d)) && BaseDbDriver.isWriteQuery text
  = false ->
  (forall e, fst (MongoDriver.executeQuery text params d) = Throw e ->
             e = MongoDriver.formatError)
  /\ (JSON_parse (env d) text = None ->
      MongoDriver.executeQuery text params d = (Throw MongoDriver.formatError, d))
  /\ (forall req e,
        JSON_parse (env d) text = Some req ->
        onQuery (env d) (calls d)
          (if decide (MongoRequest.operation req = Some "aggregate")
           then "collection.aggregate" else "collection.find")
          (MongoRequest.collection req)
          (option_map (fun q => [VString q]) (MongoRequest.query req)) = Throw e ->
        fst (MongoDriver.executeQuery text params d) = Throw MongoDriver.formatError).
Proof.
  intros Hq Hv.
  assert (E : MongoDriver.executeQuery text params d
              = match JSON_parse (env d) text with
                | None => (Throw MongoDriver.formatError, d)
                | Some req =>
                    let api := if decide (MongoRequest.operation req = Some "aggregate")
                               then "collection.aggregate" else "collection.find" in
                    let args := option_map (fun q => [VString q]) (MongoRequest.query req) in
                    (match onQuery (env d) (calls d) api (MongoRequest.collection req) args with
                     | Ok r => Ok r
                     | Throw _ => Throw MongoDriver.formatError
                     end,
                     Drivers.logCall (CQuery api (MongoRequest.collection req) args) d)
                end).
  { cbv [MongoDriver.executeQuery BaseDbDriver.validateQuery bind gets tryCatch
         throw ret].
    rewrite Hq. cbv beta iota delta [negb]. rewrite Hv. cbv beta iota.
    destruct (JSON_parse (env d) text) as [req|]; [|reflexivity].
    cbv zeta.
    destruct (decide (MongoRequest.operation req = Some "aggregate"));
      cbv [Drivers.backendQuery Drivers.ofOutcome bind gets modify ret throw];
      match goal with |- context [onQuery ?a ?b ?c ?x ?y] =>
        destruct (onQuery a b c x y) end; reflexivity. }
  rewrite E. split; [|split].
  - intros e. destruct (JSON_parse (env d) text) as [req|]; cbn.
    + destruct (onQuery _ _ _ _ _); cbn; [discriminate|]. intros [= <-]. reflexivity.
    + intros [= <-]. reflexivity.
  - intros ->. reflexivity.
  - intros req e -> Hfail. cbv zeta. cbn [fst]. rewrite Hfail. reflexivity.
Qed.

Lemma mongo_masks_failures_witness :
  MongoDriver.executeQuery "db.users.find()" None (Examples.connectedReadOnly Mongo)
  = (Throw MongoDriver.formatError, Examples.connectedReadOnly Mongo).
Proof.
  exact (proj1 (proj2 (mongo_masks_failures (Examples.connectedReadOnly Mongo)
                         "db.users.find()" None eq_refl eq_refl)) eq_refl).
Defined.

(** X10: on a read-only connection the sqlite driver never writes the
    database file: whatever [connect], [disconnect] and [executeQuery]
    do, they call no save that was not in the log before, and they
    leave the configuration as it is, so this holds along every
    sequence of calls.  Statements that [db.run] executed stay in
    memory and are dropped when the database is closed. *)
Theorem sqlite_read_only_never_saves (d : Driver) :
  truthy (ConnectionConfig.readOnly (config d)) = true ->
  ~ In CSave (calls d) ->
  forall d',
    (d' = snd (SqliteDriver.connect d)
     \/ d' = snd (SqliteDriver.disconnect d)
     \/ exists text params, d' = snd (SqliteDriver.executeQuery text params d)) ->
    config d' = config d /\ ~ In CSave (calls d').
Proof.
  intros Hro Hlog d' Hop.
  assert (Hsnoc : forall c, c <> CSave -> ~ In CSave (calls d ++ [c])).
  { intros c Hc Hin. apply in_app_or in Hin as [Hin | [Hin | []]]; auto. }
  destruct Hop as [-> | [-> | (text & params & ->)]].
  - cbv [SqliteDriver.connect Drivers.backendConnect Drivers.setHandle
         Drivers.setConnected Drivers.ofOutcome Drivers.logCall bind modify ret].
    destruct (onConnect (env d) (calls d)); cbn [snd config calls];
      (split; [reflexivity | apply Hsnoc; discriminate]).
  - cbv [SqliteDriver.disconnect Drivers.backendClose Drivers.backendSave
         Drivers.setHandle Drivers.setConnected Drivers.ofOutcome
         Drivers.logCall bind gets modify ret].
    destruct (handle d); cbv beta iota.
    + rewrite Hro. cbv beta iota delta [negb].
      destruct (onClose (env d) (calls d)); cbn [snd config calls];
        (split; [reflexivity | apply Hsnoc; discriminate]).
    + cbn [snd config calls]. split; [reflexivity | exact Hlog].
  - cbv [SqliteDriver.executeQuery BaseDbDriver.validateQuery
         Drivers.backendQuery bind gets throw ret].
    destruct (handle d); cbv beta iota delta [negb];
      [|split; [reflexivity | exact Hlog]].
    rewrite Hro. cbv beta iota delta [andb].
    destruct (BaseDbDriver.isWriteQuery text); cbv beta iota;
      [split; [reflexivity | exact Hlog]|].
    cbv zeta.
    destruct (_ || _); cbn [snd Drivers.logCall config calls];
      (split; [reflexivity | apply Hsnoc; discriminate]).
Qed.

Lemma sqlite_read_only_never_saves_witness :
  ~ In CSave
      (calls (snd (SqliteDriver.executeQuery "REPLACE INTO t VALUES (1)" None
                     (Examples.connectedReadOnly Sqlite)))).
Proof.
  unshelve epose proof
    (sqlite_read_only_never_saves (Examples.connectedReadOnly Sqlite) _ _
       (snd (SqliteDriver.executeQuery "REPLACE INTO t VALUES (1)" None
               (Examples.connectedReadOnly Sqlite)))
       (or_intror (or_intror (ex_intro _ "REPLACE INTO t VALUES (1)"
                                (ex_intro _ None eq_refl))))) as W.
  - reflexivity.
  - vm_compute. intros [H | []]. discriminate H.
  - exact (proj2 W).
Defined.

(** X11: on a writable connection the sqlite driver's [disconnect]
    writes the database file before it closes the database.  When the
    write fails the error is thrown at once: the database is not
    closed, the driver still reports connected, and a second
    [disconnect] tries to write again. *)
Theorem sqlite_disconnect_saves_first (d : Driver) :
  handle d = true ->
  truthy (ConnectionConfig.readOnly (config d)) = false ->
  match onSave (env d) (calls d) with
  | Some e =>
      SqliteDriver.disconnect d = (Throw e, Drivers.logCall CSave d)
      /\ SqliteDriver.isConnected (Drivers.logCall CSave d)
         = SqliteDriver.isConnected d
  | None =>
      calls (snd (SqliteDriver.disconnect d)) = calls d ++ [CSave; CClose]
      /\ (onClose (env d) (calls d ++ [CSave]) = None ->
          fst (SqliteDriver.disconnect d) = Ok tt
          /\ SqliteDriver.isConnected (snd (SqliteDriver.disconnect d)) = false)
  end.
Proof.
  intros Hh Hro.
  cbv [SqliteDriver.disconnect Drivers.backendClose Drivers.backendSave
       Drivers.setHandle Drivers.setConnected Drivers.ofOutcome
       bind gets modify ret].
  rewrite Hh. cbv beta iota. rewrite Hro. cbv beta iota delta [negb].
  destruct (onSave (env d) (calls d)) as [e|]; cbv beta iota.
  - split; reflexivity.
  - cbn [Drivers.logCall env calls].
    destruct (onClose (env d) (calls d ++ [CSave])) as [e|];
      cbn [snd fst calls Drivers.logCall]; rewrite <- app_assoc;
      (split; [reflexivity|]); intros H; [discriminate H|].
    split; reflexivity.
Qed.

Lemma sqlite_disconnect_saves_first_witness :
  SqliteDriver.isConnected
    (snd (SqliteDriver.disconnect
            (Scenarios.connectedWritable Sqlite Scenarios.readOnlyDiskEnv)))
  = true.
Proof.
  unshelve epose proof
    (sqlite_disconnect_saves_first
       (Scenarios.connectedWritable Sqlite Scenarios.readOnlyDiskEnv) _ _) as W.
  - reflexivity.
  - reflexivity.
  - cbn in W. destruct W as [W1 W2].
    exact (eq_trans (f_equal (fun r => SqliteDriver.isConnected (snd r)) W1) W2).
Defined.

(** ** Row operations *)

(** X12: on a read-only connection no row operation reaches the
    backend: [insertRow], [updateRow] and [deleteRow] of the postgres,
    mysql, sqlite and mssql drivers, and the inherited ones of the
    influxdb and prometheus drivers, all throw the read-only error
    before anything else, whether the driver is connected or not. *)
Theorem row_operations_read_only (d : Driver) (table : string)
    (primaryKeyValues data : JsObject) (schema : option string) :
  truthy (ConnectionConfig.readOnly (config d)) = true ->
  Forall (fun m : Eff Driver QueryResult.t =>
            m d = (Throw BaseDbDriver.readOnlyWriteError, d))
    [PostgresDriverRows.insertRow table data schema;
     PostgresDriverRows.updateRow table primaryKeyValues data schema;
     PostgresDriverRows.deleteRow table primaryKeyValues schema;
     MySqlDriverRows.insertRow table data schema;
     MySqlDriverRows.updateRow table primaryKeyValues data schema;
     MySqlDriverRows.deleteRow table primaryKeyValues schema;
     SqliteDriverRows.insertRow table data schema;
     SqliteDriverRows.updateRow table primaryKeyValues data schema;
     SqliteDriverRows.deleteRow table primaryKeyValues schema;
     MssqlDriverRows.insertRow table data schema;
     MssqlDriverRows.updateRow table primaryKeyValues data schema;
     MssqlDriverRows.deleteRow table primaryKeyValues schema;
     InfluxDbDriverRows.insertRow table data schema;
     InfluxDbDriverRows.updateRow table primaryKeyValues data schema;
     InfluxDbDriverRows.deleteRow table primaryKeyValues schema;
     PrometheusDriverRows.insertRow table data schema;
     PrometheusDriverRows.updateRow table primaryKeyValues data schema;
     PrometheusDriverRows.deleteRow table primaryKeyValues schema].
Proof.
  intros Hro.
  repeat apply Forall_cons_2; try apply Forall_nil_2;
    cbv [PostgresDriverRows.insertRow PostgresDriverRows.updateRow
         PostgresDriverRows.deleteRow MySqlDriverRows.insertRow
         MySqlDriverRows.updateRow MySqlDriverRows.deleteRow
         SqliteDriverRows.insertRow SqliteDriverRows.updateRow
         SqliteDriverRows.deleteRow MssqlDriverRows.insertRow
         MssqlDriverRows.updateRow MssqlDriverRows.deleteRow
         InfluxDbDriverRows.insertRow InfluxDbDriverRows.updateRow
         InfluxDbDriverRows.deleteRow PrometheusDriverRows.insertRow
         PrometheusDriverRows.updateRow PrometheusDriverRows.deleteRow
         BaseDbDriverRows.insertRow BaseDbDriverRows.updateRow
         BaseDbDriverRows.deleteRow
         BaseDbDriver.assertWriteAllowed bind gets throw];
    rewrite Hro; reflexivity.
Qed.

Lemma row_operations_read_only_witness :
  MssqlDriverRows.deleteRow "users" [("id", VNumber 7)] None
    (Examples.connectedReadOnly Mssql)
  = (Throw BaseDbDriver.readOnlyWriteError, Examples.connectedReadOnly Mssql).
Proof.
  pose proof (row_operations_read_only (Examples.connectedReadOnly Mssql)
                "users" [("id", VNumber 7)] [] None eq_refl) as W.
  rewrite Forall_lookup in W. exact (W 11 _ eq_refl).
Defined.

(** X13: the capabilities declared for influxdb say that rows can be
    inserted and deleted, and [isWriteAllowed] answers yes for a
    writable connection; the driver inherits the default row
    operations all the same, so on exactly those connections
    [insertRow] and [deleteRow] throw that the operation is not
    supported, and never reach the backend. *)
Theorem influx_declared_writes_unsupported (d : Driver) (table : string)
    (primaryKeyValues data : JsObject) (schema : option string) :
  Capabilities.isWriteAllowed Capabilities.INFLUXDB_CAPABILITIES
    (ConnectionConfig.readOnly (config d)) = true ->
  supportsInsert Capabilities.INFLUXDB_CAPABILITIES = true
  /\ supportsDelete Capabilities.INFLUXDB_CAPABILITIES = true
  /\ InfluxDbDriverRows.insertRow table data schema d
     = (Throw (Error "Row insertion is not supported by this driver."), d)
  /\ InfluxDbDriverRows.deleteRow table primaryKeyValues schema d
     = (Throw (Error "Row deletion is not supported by this driver."), d).
Proof.
  unfold Capabilities.isWriteAllowed. intros Hw.
  destruct (truthy (ConnectionConfig.readOnly (config d))) eqn:Hro;
    [discriminate Hw|].
  repeat split;
    cbv [InfluxDbDriverRows.insertRow InfluxDbDriverRows.deleteRow
         BaseDbDriverRows.insertRow BaseDbDriverRows.deleteRow
         BaseDbDriver.assertWriteAllowed bind gets throw ret];
    rewrite Hro; reflexivity.
Qed.

Lemma influx_declared_writes_unsupported_witness :
  InfluxDbDriverRows.insertRow "cpu" [("value", VNumber 1)] None
    (Scenarios.connectedWritable InfluxDb Examples.quietEnv)
  = (Throw (Error "Row insertion is not supported by this driver."),
     Scenarios.connectedWritable InfluxDb Examples.quietEnv).
Proof.
  exact (proj1 (proj2 (proj2
           (influx_declared_writes_unsupported
              (Scenarios.connectedWritable InfluxDb Examples.quietEnv)
              "cpu" [] [("value", VNumber 1)] None eq_refl)))).
Defined.

Module RowFacts.

Lemma forEntries_closed (render : string -> nat -> string) (o : JsObject)
    (clauses : list string) (values : list JsValue) (paramIndex : nat) :
  forEntries render o clauses values paramIndex
  = (clauses ++ imap (fun k e => render (fst e) (paramIndex + k)) o,
     values ++ Object_values o,
     paramIndex + length o).
Proof.
  revert clauses values paramIndex.
  induction o as [|[col val] o IH]; intros clauses values paramIndex.
  - cbn. rewrite !app_nil_r, Nat.add_0_r. reflexivity.
  - cbn [forEntries]. rewrite IH. cbn [imap Object_values map fst snd length].
    rewrite <- !app_assoc. cbn [app].
    rewrite Nat.add_0_r, Nat.add_succ_r.
    rewrite (imap_ext (fun k e => render (fst e) (S paramIndex + k))
               ((fun k e => render (fst e) (paramIndex + k)) ∘ S) o)
      by (intros k e _; cbn; rewrite Nat.add_succ_r; reflexivity).
    reflexivity.
Qed.

Lemma trimEnd_cons (c : ascii) (s : string) :
  JsString.isWhiteSpace c = false ->
  JsString.trimEnd (String c s) = String c (JsString.trimEnd s).
Proof.
  intros Hc. cbn [JsString.trimEnd]. destruct (JsString.trimEnd s).
  - rewrite Hc. reflexivity.
  - reflexivity.
Qed.

Lemma trimEnd_append_cons (c : ascii) (p s : string) :
  JsString.isWhiteSpace c = false ->
  JsString.trimEnd (String c p +:+ s) = String c (JsString.trimEnd (p +:+ s)).
Proof. exact (trimEnd_cons c (p +:+ s)). Qed.

Lemma startsWith_cons (b : ascii) (s : string) (a : ascii) (p : string) :
  JsString.startsWith (String b s) (String a p)
  = Ascii.eqb a b && JsString.startsWith s p.
Proof. reflexivity. Qed.

Lemma startsWith_nil (s : string) : JsString.startsWith s EmptyString = true.
Proof. destruct s; reflexivity. Qed.

End RowFacts.

(** X14: the sqlite driver's [insertRow] on a connected, writable
    driver makes two calls: the INSERT statement through [db.run] with
    the values of [data] in the order of its keys, then, only when
    that succeeded, the SELECT of the inserted row through
    [db.prepare].  The result has the rows and columns of the SELECT
    and the counters of the INSERT.  When the SELECT fails the call
    throws although the INSERT has been executed. *)
Theorem sqlite_insertRow_two_calls (d : Driver) (table : string)
    (data : JsObject) (schema : option string) :
  handle d = true ->
  truthy (ConnectionConfig.readOnly (config d)) = false ->
  let sql := SqliteDriverRows.insertSql table (Object_keys data) in
  let values := Some (Object_values data) in
  let d1 := Drivers.logCall (CQuery "db.run" sql values) d in
  let d2 := Drivers.logCall
              (CQuery "db.prepare" (SqliteDriverRows.insertedSql table) None) d1 in
  SqliteDriverRows.insertRow table data schema d
  = match onQuery (env d) (calls d) "db.run" sql values with
    | Throw e => (Throw e, d1)
    | Ok insertResult =>
        match onQuery (env d) (calls d1) "db.prepare"
                (SqliteDriverRows.insertedSql table) None with
        | Throw e => (Throw e, d2)
        | Ok selectResult => (Ok (withRowsOf insertResult selectResult), d2)
        end
    end.
Proof.
  intros Hh Hro sql values d1 d2.
  assert (Hrun : forall (d0 : Driver), handle d0 = true ->
            truthy (ConnectionConfig.readOnly (config d0)) = false ->
            SqliteDriver.executeQuery sql values d0
            = Drivers.backendQuery "db.run" sql values d0).
  { intros d0 H0 Hr0.
    cbv [SqliteDriver.executeQuery BaseDbDriver.validateQuery bind gets throw ret].
    rewrite H0. cbv beta iota delta [negb]. rewrite Hr0.
    cbv beta iota delta [andb]. cbv zeta.
    assert (Hsel : JsString.startsWith (JsString.toLowerCase (JsString.trim sql)) "select"
                   || JsString.startsWith (JsString.toLowerCase (JsString.trim sql)) "pragma"
                   = false).
    { unfold sql, SqliteDriverRows.insertSql, JsString.trim.
      match goal with
      | |- context [ "      INSERT INTO " +:+ ?r ] => generalize r
      end.
      intros r.
      change (JsString.trimStart (LF +:+ "      INSERT INTO " +:+ r))
        with ("INSERT INTO " +:+ r).
      rewrite RowFacts.trimEnd_append_cons by reflexivity. reflexivity. }
    rewrite Hsel. reflexivity. }
  assert (Hprep : forall (d0 : Driver), handle d0 = true ->
            truthy (ConnectionConfig.readOnly (config d0)) = false ->
            SqliteDriver.executeQuery (SqliteDriverRows.insertedSql table) None d0
            = Drivers.backendQuery "db.prepare"
                (SqliteDriverRows.insertedSql table) None d0).
  { intros d0 H0 Hr0.
    cbv [SqliteDriver.executeQuery BaseDbDriver.validateQuery bind gets throw ret].
    rewrite H0. cbv beta iota delta [negb]. rewrite Hr0.
    cbv beta iota delta [andb]. cbv zeta.
    assert (Hsel : JsString.startsWith
                     (JsString.toLowerCase
                        (JsString.trim (SqliteDriverRows.insertedSql table)))
                     "select" = true).
    { unfold SqliteDriverRows.insertedSql, JsString.trim.
      match goal with
      | |- context [ "SELECT * FROM " +:+ ?r ] => generalize r
      end.
      intros r.
      change (JsString.trimStart ("SELECT * FROM " +:+ r))
        with ("SELECT * FROM " +:+ r).
      do 6 (rewrite RowFacts.trimEnd_append_cons by reflexivity).
      cbn [JsString.toLowerCase]. rewrite !RowFacts.startsWith_cons.
      rewrite RowFacts.startsWith_nil. reflexivity. }
    rewrite Hsel. reflexivity. }
  cbv [SqliteDriverRows.insertRow BaseDbDriver.assertWriteAllowed bind gets ret].
  rewrite Hro. cbv beta iota. fold sql values.
  rewrite (Hrun d Hh Hro). cbv [Drivers.backendQuery]. fold d1.
  destruct (onQuery (env d) (calls d) "db.run" sql values) as [insertResult|e];
    [|reflexivity].
  rewrite (Hprep d1 Hh Hro). cbv [Drivers.backendQuery]. fold d2.
  change (env d1) with (env d).
  destruct (onQuery (env d) (calls d1) "db.prepare"
              (SqliteDriverRows.insertedSql table) None); reflexivity.
Qed.

Lemma sqlite_insertRow_two_calls_witness :
  calls (snd (SqliteDriverRows.insertRow "users" [("name", VString "ada")] None
                (Scenarios.connectedWritable Sqlite Examples.quietEnv)))
  = [CConnect;
     CQuery "db.run" (SqliteDriverRows.insertSql "users" ["name"])
       (Some [VString "ada"]);
     CQuery "db.prepare" (SqliteDriverRows.insertedSql "users") None].
Proof.
  rewrite (sqlite_insertRow_two_calls
             (Scenarios.connectedWritable Sqlite Examples.quietEnv)
             "users" [("name", VString "ada")] None eq_refl eq_refl).
  reflexivity.
Defined.

(** X15: the postgres driver's [updateRow] on a connected, writable
    driver sends one statement to [pool.query].  Its placeholders are
    numbered from 1 through the SET clauses and on through the WHERE
    clauses, and the parameters are the values of [data] followed by
    the values of [primaryKeyValues], so the k-th placeholder is bound
    to the k-th value. *)
Theorem postgres_updateRow_statement (d : Driver) (table : string)
    (primaryKeyValues data : JsObject) (schema : option string) :
  handle d = true ->
  truthy (ConnectionConfig.readOnly (config d)) = false ->
  PostgresDriverRows.updateRow table primaryKeyValues data schema d
  = Drivers.backendQuery "pool.query"
      (PostgresDriverRows.updateSql (strOr schema "public") table
         (imap (fun k e => PostgresDriverRows.clause (fst e) (1 + k)) data)
         (imap (fun k e => PostgresDriverRows.clause (fst e) (1 + length data + k))
            primaryKeyValues))
      (Some (Object_values data ++ Object_values primaryKeyValues)) d.
Proof.
  intros Hh Hro.
  cbv [PostgresDriverRows.updateRow BaseDbDriver.assertWriteAllowed bind gets ret].
  rewrite Hro. cbv beta iota.
  rewrite RowFacts.forEntries_closed. cbv beta iota zeta.
  rewrite RowFacts.forEntries_closed. cbv beta iota zeta.
  cbn [app].
  cbv [PostgresDriver.executeQuery BaseDbDriver.validateQuery bind gets ret throw].
  rewrite Hh. cbv beta iota delta [negb]. rewrite Hro. reflexivity.
Qed.

Lemma postgres_updateRow_statement_witness :
  calls (snd (PostgresDriverRows.updateRow "users" [("id", VNumber 7)]
                [("name", VString "ada"); ("age", VNumber 36)] None
                (Scenarios.connectedWritable Postgres Examples.quietEnv)))
  = [CConnect;
     CQuery "pool.query"
       (PostgresDriverRows.updateSql "public" "users"
          [PostgresDriverRows.clause "name" 1; PostgresDriverRows.clause "age" 2]
          [PostgresDriverRows.clause "id" 3])
       (Some [VString "ada"; VNumber 36; VNumber 7])].
Proof.
  rewrite (postgres_updateRow_statement
             (Scenarios.connectedWritable Postgres Examples.quietEnv)
             "users" [("id", VNumber 7)]
             [("name", VString "ada"); ("age", VNumber 36)] None eq_refl eq_refl).
  reflexivity.
Defined.

Module MssqlRowFacts.
Import MssqlDriver.

Lemma append_assoc (a b c : string) : (a +:+ b) +:+ c = a +:+ b +:+ c.
Proof.
  induction a as [|x a IH]; [reflexivity | exact (f_equal (String x) IH)].
Qed.

Lemma startsWith_split (p s : string) :
  JsString.startsWith s p = true -> s = p +:+ sliceFrom (String.length p) s.
Proof.
  revert s. induction p as [|a p IH]; intros s; [reflexivity|].
  destruct s as [|b s]; cbn; [discriminate|].
  intros H. apply andb_prop in H as [Hab Hs].
  apply Ascii.eqb_eq in Hab. subst b. exact (f_equal (String a) (IH s Hs)).
Qed.

Lemma sliceFrom_0 (s : string) : sliceFrom 0 s = s.
Proof. destruct s; reflexivity. Qed.

Lemma replaceAllFrom_self (a : ascii) (p s : string) (skip : nat) :
  replaceAllFrom (String a p) (String a p) skip s = sliceFrom skip s.
Proof.
  revert skip. induction s as [|c s IH]; intros skip.
  - destruct skip; reflexivity.
  - destruct skip as [|n].
    + cbn [replaceAllFrom sliceFrom].
      destruct (JsString.startsWith (String c s) (String a p)) eqn:E.
      * rewrite IH.
        replace (String.length (String a p) - 1) with (String.length p)
          by (cbn [String.length]; lia).
        symmetry. exact (startsWith_split _ _ E).
      * rewrite IH, sliceFrom_0. reflexivity.
    + cbn [replaceAllFrom sliceFrom]. apply IH.
Qed.

Lemma rewriteParams_self (names : list string) (index nparams : nat) (sql : string) :
  (forall i name, names !! i = Some name ->
                  name = "@param" +:+ decimal (index + i)) ->
  rewriteParams names index nparams sql = sql.
Proof.
  revert index sql. induction names as [|name names IH]; intros index sql Hn.
  - reflexivity.
  - cbn [rewriteParams].
    pose proof (Hn 0 name eq_refl) as H0. rewrite Nat.add_0_r in H0.
    assert (Hsame : (if Nat.ltb index nparams
                     then replaceAllFrom name ("@param" +:+ decimal index) 0 sql
                     else sql) = sql).
    { destruct (Nat.ltb index nparams); [|reflexivity].
      rewrite H0.
      change ("@param" +:+ decimal index)
        with (String "@" ("param" +:+ decimal index)).
      rewrite replaceAllFrom_self. apply sliceFrom_0. }
    rewrite Hsame. apply IH. intros i n Hi.
    rewrite (Hn (S i) n Hi). rewrite Nat.add_succ_r. reflexivity.
Qed.


Lemma hasChar_app (c : ascii) (a b : string) :
  hasChar c (a +:+ b) = hasChar c a || hasChar c b.
Proof.
  induction a as [|x a IH]; [reflexivity|].
  change (hasChar c (String x (a +:+ b)) = hasChar c (String x a) || hasChar c b).
  cbn [hasChar]. rewrite IH. apply orb_assoc.
Qed.

Lemma skip_plain (p s : string) :
  hasChar "@" p = false ->
  namedParamsFrom None (p +:+ s) = namedParamsFrom None s.
Proof.
  induction p as [|c p IH]; [reflexivity|].
  cbn [hasChar]. intros H. apply orb_false_elim in H as [Hc Hp].
  change (namedParamsFrom None (String c (p +:+ s)) = namedParamsFrom None s).
  cbn [namedParamsFrom]. rewrite Hc. apply IH, Hp.
Qed.

Lemma read_word (u w : string) (c : ascii) (s : string) :
  forallb isWordChar (list_ascii_of_string u) = true ->
  isWordChar c = false ->
  namedParamsFrom (Some w) (u +:+ String c s)
  = match w +:+ u with String _ (String _ _) => [w +:+ u] | _ => [] end
    ++ namedParamsFrom (if Ascii.eqb c "@" then Some "@" else None) s.
Proof.
  revert w. induction u as [|a u IH]; intros w Hu Hc.
  - change (EmptyString +:+ String c s) with (String c s).
    cbn [namedParamsFrom]. rewrite Hc.
    replace (w +:+ EmptyString) with w; [reflexivity|].
    clear. induction w as [|x w IH]; [reflexivity | exact (f_equal (String x) IH)].
  - cbn [list_ascii_of_string forallb] in Hu. apply andb_prop in Hu as [Ha Hu].
    change (String a u +:+ String c s) with (String a (u +:+ String c s)).
    cbn [namedParamsFrom]. rewrite Ha. rewrite (IH _ Hu Hc).
    rewrite append_assoc. reflexivity.
Qed.

Lemma digits_word (n : nat) :
  forallb isWordChar (list_ascii_of_string (decimal n)) = true.
Proof.
  unfold decimal.
  assert (H : forall d, forallb isWordChar
                          (list_ascii_of_string (NilEmpty.string_of_uint d)) = true).
  { induction d; cbn [NilEmpty.string_of_uint list_ascii_of_string forallb];
      try reflexivity; rewrite IHd; reflexivity. }
  destruct (Nat.to_uint n); try apply H. reflexivity.
Qed.

Lemma read_param (k : nat) (c : ascii) (s : string) :
  isWordChar c = false -> Ascii.eqb c "@" = false ->
  namedParamsFrom None (("@param" +:+ decimal k) +:+ String c s)
  = ("@param" +:+ decimal k) :: namedParamsFrom None s.
Proof.
  intros Hc Hat.
  change (("@param" +:+ decimal k) +:+ String c s)
    with (String "@" (("param" +:+ decimal k) +:+ String c s)).
  cbn [namedParamsFrom]. change (Ascii.eqb "@" "@") with true. cbv iota.
  rewrite read_word; [|exact (digits_word k : forallb isWordChar
                                (list_ascii_of_string ("param" +:+ decimal k)) = true)
                      |exact Hc].
  rewrite Hat. reflexivity.
Qed.

Lemma join_cons (sep x : string) (l : list string) :
  l <> [] -> join sep (x :: l) = x +:+ sep +:+ join sep l.
Proof. destruct l; [congruence | reflexivity]. Qed.

Lemma names_of_items {A} (pre : A -> string) (mid : string) (sepc : ascii)
    (sep : string) (items : list A) (k : nat) (tc : ascii) (tail : string) :
  isWordChar sepc = false -> Ascii.eqb sepc "@" = false ->
  hasChar "@" sep = false -> hasChar "@" mid = false ->
  isWordChar tc = false -> Ascii.eqb tc "@" = false ->
  Forall (fun x => hasChar "@" (pre x) = false) items ->
  namedParamsFrom None
    (join (String sepc sep)
       (imap (fun i x => pre x +:+ mid +:+ "@param" +:+ decimal (k + i)) items)
     +:+ String tc tail)
  = map (fun i => "@param" +:+ decimal i) (seq k (length items))
    ++ namedParamsFrom None tail.
Proof.
  intros Hsc Hsa Hsep Hmid Htc Hta Hpre. revert k.
  induction Hpre as [|x items Hx Hitems IH]; intros k.
  - cbn [imap join length seq map app].
    change (EmptyString +:+ String tc tail) with (String tc tail).
    cbn [namedParamsFrom]. rewrite Hta. reflexivity.
  - rewrite imap_cons. cbn [length seq map app]. rewrite Nat.add_0_r.
    rewrite (imap_ext _ (fun i x => pre x +:+ mid +:+ "@param" +:+ decimal (S k + i)))
      by (intros i y _; cbn; rewrite Nat.add_succ_r; reflexivity).
    destruct items as [|y items].
    + cbn [imap join].
      rewrite !append_assoc, (skip_plain _ _ Hx), (skip_plain _ _ Hmid).
      rewrite <- append_assoc, read_param by assumption. reflexivity.
    + rewrite join_cons by (rewrite imap_cons; discriminate).
      rewrite !append_assoc, (skip_plain _ _ Hx), (skip_plain _ _ Hmid).
      rewrite <- (append_assoc "@param").
      match goal with
      | |- context [ String sepc sep +:+ ?r ] =>
          change (String sepc sep +:+ r) with (String sepc (sep +:+ r))
      end.
      rewrite read_param by assumption.
      rewrite (skip_plain _ _ Hsep). rewrite (IH (S k)). reflexivity.
Qed.


Lemma decimal_inj (a b : nat) : decimal a = decimal b -> a = b.
Proof.
  unfold decimal. intros H. apply DecimalNat.Unsigned.to_uint_inj.
  assert (Hn : forall n, Nat.to_uint n <> Decimal.Nil).
  { intros n Hn. pose proof (DecimalNat.Unsigned.to_of (Nat.to_uint n)) as E.
    rewrite DecimalNat.Unsigned.of_to, Hn in E.
    exact (DecimalFacts.unorm_nonnil _ (eq_sym E)). }
  apply (f_equal NilZero.uint_of_string) in H.
  rewrite !NilZero.usu in H by apply Hn. congruence.
Qed.

Lemma unique_fresh (l seen : list string) :
  NoDup l -> (forall x, x ∈ l -> x ∉ seen) -> unique seen l = l.
Proof.
  intros Hl. revert seen. induction Hl as [|x l Hx Hl IH]; intros seen Hs.
  - reflexivity.
  - cbn [unique].
    assert (E : existsb (String.eqb x) seen = false).
    { destruct (existsb (String.eqb x) seen) eqn:E; [|reflexivity].
      apply existsb_exists in E as (y & Hy & Exy).
      apply String.eqb_eq in Exy. subst y.
      exfalso. apply (Hs x); [left | apply list_elem_of_In, Hy]. }
    rewrite E. f_equal. apply IH. intros y Hy Hin.
    apply elem_of_cons in Hin as [-> | Hin]; [exact (Hx Hy)|].
    apply (Hs y); [right; exact Hy | exact Hin].
Qed.

Lemma unique_paramNames (k n : nat) :
  unique [] (map (fun i => "@param" +:+ decimal i) (seq k n))
  = map (fun i => "@param" +:+ decimal i) (seq k n).
Proof.
  apply unique_fresh.
  - apply (NoDup_fmap_2_strong (fun i => "@param" +:+ decimal i)); [|apply NoDup_seq].
    intros a b _ _ H. apply decimal_inj. exact (String.app_inj "@param" _ _ H).
  - intros x _ Hin. inversion Hin.
Qed.

Lemma rewrite_generated (sql : string) (n nparams : nat) :
  namedParamsOf sql = map (fun i => "@param" +:+ decimal i) (seq 0 n) ->
  rewriteParams (unique [] (namedParamsOf sql)) 0 nparams sql = sql.
Proof.
  intros ->. rewrite unique_paramNames. apply rewriteParams_self.
  intros i name Hi. rewrite list_lookup_fmap in Hi.
  destruct (seq 0 n !! i) as [j|] eqn:Ej; [|discriminate].
  apply lookup_seq in Ej as [-> _]. injection Hi as <-. reflexivity.
Qed.

Lemma hasChar_join (sep : string) (l : list string) :
  hasChar "@" sep = false -> Forall (fun x => hasChar "@" x = false) l ->
  hasChar "@" (join sep l) = false.
Proof.
  intros Hsep Hl. induction Hl as [|x l Hx Hl IH]; [reflexivity|].
  destruct l as [|y l]; [exact Hx|].
  rewrite join_cons by discriminate. rewrite !hasChar_app, Hx, Hsep, IH. reflexivity.
Qed.

Lemma hasChar_quoted (c : string) :
  hasChar "@" c = false -> hasChar "@" (MssqlDriverRows.quoted c) = false.
Proof.
  intros H. unfold MssqlDriverRows.quoted. rewrite !hasChar_app, H. reflexivity.
Qed.


Local Abbreviation paramNames k n :=
  (map (fun i => "@param" +:+ decimal i) (seq k n)).

Ltac skip_pieces :=
  repeat (rewrite skip_plain
            by first [ reflexivity
                     | apply hasChar_quoted; assumption
                     | apply hasChar_join;
                       [reflexivity | apply Forall_fmap; assumption] ]).

Lemma names_insert (schemaFilter table : string) (columns : list string) :
  hasChar "@" schemaFilter = false -> hasChar "@" table = false ->
  Forall (fun c => hasChar "@" c = false) columns ->
  namedParamsOf (MssqlDriverRows.insertSql schemaFilter table columns)
  = paramNames 0 (length columns).
Proof.
  intros Hs Ht Hc.
  assert (Hq : Forall (fun c => hasChar "@" (MssqlDriverRows.quoted c) = false) columns).
  { eapply Forall_impl; [exact Hc|]. intros c. apply hasChar_quoted. }
  unfold MssqlDriverRows.insertSql, namedParamsOf. skip_pieces.
  refine (eq_trans (names_of_items (fun _ => EmptyString) EmptyString "," " " columns 0
                      ")" (LF +:+ "    ") eq_refl eq_refl eq_refl eq_refl
                      eq_refl eq_refl _) _).
  - apply Forall_forall. reflexivity.
  - apply List.app_nil_r.
Qed.


Lemma names_where (entries : JsObject) (k : nat) :
  Forall (fun e => hasChar "@" (fst e) = false) entries ->
  namedParamsFrom None
    (join " AND " (imap (fun i e => MssqlDriverRows.clause (fst e) (k + i)) entries)
     +:+ LF +:+ "    ")
  = paramNames k (length entries).
Proof.
  intros He.
  refine (eq_trans (names_of_items (fun e => MssqlDriverRows.quoted (fst e)) " = "
                      " " "AND " entries k (ascii_of_nat 10) "    "
                      eq_refl eq_refl eq_refl eq_refl eq_refl eq_refl _) _).
  - eapply Forall_impl; [exact He|]. intros e. apply hasChar_quoted.
  - apply List.app_nil_r.
Qed.

Lemma names_update (schemaFilter table : string) (data primaryKeyValues : JsObject) :
  hasChar "@" schemaFilter = false -> hasChar "@" table = false ->
  Forall (fun e => hasChar "@" (fst e) = false) data ->
  Forall (fun e => hasChar "@" (fst e) = false) primaryKeyValues ->
  namedParamsOf
    (MssqlDriverRows.updateSql schemaFilter table
       (imap (fun i e => MssqlDriverRows.clause (fst e) (0 + i)) data)
       (imap (fun i e => MssqlDriverRows.clause (fst e) (length data + i))
          primaryKeyValues))
  = paramNames 0 (length data + length primaryKeyValues).
Proof.
  intros Hs Ht Hd Hp.
  unfold MssqlDriverRows.updateSql, namedParamsOf. skip_pieces.
  refine (eq_trans (names_of_items (fun e => MssqlDriverRows.quoted (fst e)) " = "
                      "," " " data 0 (ascii_of_nat 10) _
                      eq_refl eq_refl eq_refl eq_refl eq_refl eq_refl _) _).
  - eapply Forall_impl; [exact Hd|]. intros e. apply hasChar_quoted.
  - skip_pieces. rewrite (names_where primaryKeyValues (length data) Hp).
    rewrite seq_app, map_app. reflexivity.
Qed.

Lemma names_delete (schemaFilter table : string) (primaryKeyValues : JsObject) :
  hasChar "@" schemaFilter = false -> hasChar "@" table = false ->
  Forall (fun e => hasChar "@" (fst e) = false) primaryKeyValues ->
  namedParamsOf
    (MssqlDriverRows.deleteSql schemaFilter table
       (imap (fun i e => MssqlDriverRows.clause (fst e) (0 + i)) primaryKeyValues))
  = paramNames 0 (length primaryKeyValues).
Proof.
  intros Hs Ht Hp.
  unfold MssqlDriverRows.deleteSql, namedParamsOf. skip_pieces.
  apply (names_where primaryKeyValues 0 Hp).
Qed.

Lemma executeQuery_generated (d : Driver) (sql : string) (n : nat)
    (values : list JsValue) :
  handle d = true ->
  truthy (ConnectionConfig.readOnly (config d)) = false ->
  namedParamsOf sql = paramNames 0 n ->
  MssqlDriver.executeQuery sql (Some values) d
  = Drivers.backendQuery "request.query" sql (Some values) d.
Proof.
  intros Hh Hro Hn.
  cbv [MssqlDriver.executeQuery BaseDbDriver.validateQuery bind gets throw ret].
  rewrite Hh. cbv beta iota delta [negb]. rewrite Hro.
  cbv beta iota delta [andb]. cbv zeta.
  rewrite (rewrite_generated sql n (length values) Hn). reflexivity.
Qed.

End MssqlRowFacts.

(** X16: the mssql driver's row operations write their parameters as
    [@param0], [@param1], ... and hand the statement to [executeQuery],
    which rewrites every [@name] it finds.  When neither the schema,
    the table nor a column name contains an [@], the rewriting leaves
    the generated INSERT, UPDATE and DELETE statements exactly as they
    were built, and [request.query] receives them with the values of
    [data] followed by those of [primaryKeyValues]. *)
Theorem mssql_row_statements_unchanged (d : Driver) (table : string)
    (primaryKeyValues data : JsObject) (schema : option string) :
  handle d = true ->
  truthy (ConnectionConfig.readOnly (config d)) = false ->
  hasChar "@" (strOr schema "dbo") = false ->
  hasChar "@" table = false ->
  Forall (fun e => hasChar "@" (fst e) = false) data ->
  Forall (fun e => hasChar "@" (fst e) = false) primaryKeyValues ->
  MssqlDriverRows.insertRow table data schema d
  = Drivers.backendQuery "request.query"
      (MssqlDriverRows.insertSql (strOr schema "dbo") table (Object_keys data))
      (Some (Object_values data)) d
  /\ MssqlDriverRows.updateRow table primaryKeyValues data schema d
     = Drivers.backendQuery "request.query"
         (MssqlDriverRows.updateSql (strOr schema "dbo") table
            (imap (fun i e => MssqlDriverRows.clause (fst e) i) data)
            (imap (fun i e => MssqlDriverRows.clause (fst e) (length data + i))
               primaryKeyValues))
         (Some (Object_values data ++ Object_values primaryKeyValues)) d
  /\ MssqlDriverRows.deleteRow table primaryKeyValues schema d
     = Drivers.backendQuery "request.query"
         (MssqlDriverRows.deleteSql (strOr schema "dbo") table
            (imap (fun i e => MssqlDriverRows.clause (fst e) i) primaryKeyValues))
         (Some (Object_values primaryKeyValues)) d.
Proof.
  intros Hh Hro Hs Ht Hd Hp. split; [|split].
  - cbv [MssqlDriverRows.insertRow BaseDbDriver.assertWriteAllowed bind gets ret].
    rewrite Hro. cbv beta iota zeta.
    apply (MssqlRowFacts.executeQuery_generated d _ (length (Object_keys data)) _ Hh Hro).
    apply MssqlRowFacts.names_insert; [exact Hs | exact Ht |].
    unfold Object_keys. apply Forall_fmap. exact Hd.
  - cbv [MssqlDriverRows.updateRow BaseDbDriver.assertWriteAllowed bind gets ret].
    rewrite Hro. cbv beta iota.
    rewrite RowFacts.forEntries_closed. cbv beta iota zeta.
    rewrite RowFacts.forEntries_closed. cbv beta iota zeta.
    cbn [app Nat.add].
    apply (MssqlRowFacts.executeQuery_generated d _
             (length data + length primaryKeyValues) _ Hh Hro).
    apply (MssqlRowFacts.names_update _ _ data primaryKeyValues Hs Ht Hd Hp).
  - cbv [MssqlDriverRows.deleteRow BaseDbDriver.assertWriteAllowed bind gets ret].
    rewrite Hro. cbv beta iota.
    rewrite RowFacts.forEntries_closed. cbv beta iota zeta. cbn [app Nat.add].
    apply (MssqlRowFacts.executeQuery_generated d _ (length primaryKeyValues) _ Hh Hro).
    apply (MssqlRowFacts.names_delete _ _ primaryKeyValues Hs Ht Hp).
Qed.

Lemma mssql_row_statements_unchanged_witness :
  calls (snd (MssqlDriverRows.updateRow "users" [("id", VNumber 7)]
                [("name", VString "ada"); ("age", VNumber 36)] None
                (Scenarios.connectedWritable Mssql Examples.quietEnv)))
  = [CConnect;
     CQuery "request.query"
       (MssqlDriverRows.updateSql "dbo" "users"
          [MssqlDriverRows.clause "name" 0; MssqlDriverRows.clause "age" 1]
          [MssqlDriverRows.clause "id" 2])
       (Some [VString "ada"; VNumber 36; VNumber 7])].
Proof.
  unshelve epose proof
    (mssql_row_statements_unchanged
       (Scenarios.connectedWritable Mssql Examples.quietEnv)
       "users" [("id", VNumber 7)]
       [("name", VString "ada"); ("age", VNumber 36)] None _ _ _ _ _ _) as W.
  - reflexivity.
  - reflexivity.
  - reflexivity.
  - reflexivity.
  - repeat constructor.
  - repeat constructor.
  - rewrite (proj1 (proj2 W)). reflexivity.
Defined.

(** ** The factory of drivers *)

Section FactoryFacts.
Context {D : Type} `{DbDriver D}.

Lemma has_set_ne {V} (m : JsMap.t V) k k' v :
  k <> k' -> JsMap.has (JsMap.set m k v) k' = JsMap.has m k'.
Proof. intros Hne. unfold JsMap.has. rewrite JsMapFacts.get_set_ne by exact Hne. reflexivity. Qed.

Lemma length_set {V} (m : JsMap.t V) k v :
  length (JsMap.set m k v) = if JsMap.has m k then length m else S (length m).
Proof.
  unfold JsMap.has. induction m as [|[k' v'] m IH]; cbn; [reflexivity|].
  destruct (String.eqb k' k); cbn; [reflexivity|].
  rewrite IH. destruct (JsMap.get m k); reflexivity.
Qed.

(** X17: a registration takes effect at once and the last one wins:
    after [register(metadata, constructor)] the factory reports the type
    as registered, answers with this metadata and its capabilities, and
    [create] builds the object with this constructor at the next free
    address.  The other types keep their registration.  A warning is
    logged exactly when the type was registered before, and only then
    the count stays the same. *)
Theorem factory_register_then_create (w : World D) (metadata : DriverMetadata.t)
    (constructor : ConnectionConfig.t -> string -> D)
    (config : ConnectionConfig.t) (password : string) :
  let id := DriverMetadata.id metadata in
  let known := JsMap.has (registry w) id in
  let w1 := snd (DriverFactory.register metadata constructor w) in
  fst (DriverFactory.register metadata constructor w) = Ok tt
  /\ DriverFactory.create id config password w1
     = (Ok (length (heap w)), allocated w1 (constructor config password))
  /\ DriverFactory.isRegistered id w1 = (Ok true, w1)
  /\ DriverFactoryQueries.getMetadata id w1 = (Ok (Some metadata), w1)
  /\ DriverFactoryQueries.getCapabilities id w1
     = (Ok (Some (DriverMetadata.capabilities metadata)), w1)
  /\ (forall type, type <> id ->
        JsMap.get (registry w1) type = JsMap.get (registry w) type)
  /\ console w1
     = console w
       ++ (if known
           then [ConsoleWarn ("Driver '" +:+ id
                              +:+ "' is already registered. Overwriting.")]
           else [])
  /\ fst (DriverFactoryQueries.getRegisteredCount w1)
     = Ok (if known then length (registry w) else S (length (registry w)))
  /\ heap w1 = heap w /\ trace w1 = trace w.
Proof.
  intros id known w1.
  assert (Hreg : registry w1
                 = JsMap.set (registry w) id (DriverRegistration.mk metadata constructor)).
  { unfold w1, DriverFactory.register, consoleLog, bind, gets, modify, ret.
    fold id. destruct (JsMap.has (registry w) id); reflexivity. }
  assert (Hheap : heap w1 = heap w).
  { unfold w1, DriverFactory.register, consoleLog, bind, gets, modify, ret.
    destruct (JsMap.has (registry w) _); reflexivity. }
  repeat split.
  - unfold DriverFactory.register, consoleLog, bind, gets, modify, ret.
    destruct (JsMap.has (registry w) _); reflexivity.
  - unfold DriverFactory.create, bind, gets, alloc.
    rewrite Hreg, JsMapFacts.get_set_eq. cbn. rewrite Hheap. reflexivity.
  - unfold DriverFactory.isRegistered, gets, JsMap.has.
    rewrite Hreg, JsMapFacts.get_set_eq. reflexivity.
  - unfold DriverFactoryQueries.getMetadata, gets.
    rewrite Hreg, JsMapFacts.get_set_eq. reflexivity.
  - unfold DriverFactoryQueries.getCapabilities, gets.
    rewrite Hreg, JsMapFacts.get_set_eq. reflexivity.
  - intros type Hne. rewrite Hreg. apply JsMapFacts.get_set_ne. congruence.
  - unfold w1, known, DriverFactory.register, consoleLog, bind, gets, modify, ret.
    fold id. destruct (JsMap.has (registry w) id); cbn; [reflexivity|].
    symmetry. apply List.app_nil_r.
  - unfold DriverFactoryQueries.getRegisteredCount, gets. cbn [fst].
    rewrite Hreg, length_set. reflexivity.
  - exact Hheap.
  - unfold w1, DriverFactory.register, consoleLog, bind, gets, modify, ret.
    destruct (JsMap.has (registry w) _); reflexivity.
Qed.

(** X18: [create] succeeds exactly for the registered types.  For any
    other type it throws, allocates nothing and leaves the world as it
    was; the message lists the registered types in the order of their
    first registration, and after [clearRegistry()] it says that none
    is registered. *)
Theorem factory_create_iff_registered (w : World D) (type : string)
    (config : ConnectionConfig.t) (password : string) :
  ((exists r, fst (DriverFactory.create type config password w) = Ok r)
   <-> fst (DriverFactory.isRegistered type w) = Ok true)
  /\ (fst (DriverFactory.isRegistered type w) = Ok false ->
      DriverFactory.create type config password w
      = (Throw (Error ("Unknown driver type: '" +:+ type
                       +:+ "'. Available drivers: "
                       +:+ match join ", " (JsMap.keys (registry w)) with
                           | EmptyString => "none registered"
                           | available => available
                           end)), w))
  /\ (let cleared := snd (DriverFactoryQueries.clearRegistry w) in
      DriverFactory.create type config password cleared
      = (Throw (Error ("Unknown driver type: '" +:+ type
                       +:+ "'. Available drivers: none registered")), cleared)).
Proof.
  unfold DriverFactory.create, DriverFactory.isRegistered,
    DriverFactory.unknownDriverType, JsMap.has, bind, gets, throw, alloc.
  split; [|split].
  - destruct (JsMap.get (registry w) type); cbn; split.
    + reflexivity.
    + intros _. eexists. reflexivity.
    + intros [r Hr]. discriminate Hr.
    + intros Hr. discriminate Hr.
  - destruct (JsMap.get (registry w) type); cbn; [discriminate|].
    intros _. unfold strOr.
    destruct (join ", " (JsMap.keys (registry w))); reflexivity.
  - reflexivity.
Qed.

End FactoryFacts.

(** ** The registry of connections *)

Section RegistryConnectFacts.
Context {D : Type} `{DbDriver D}.
Implicit Types (s : DriverRegistry.t D) (id : string) (r : nat) (d : D).

Lemma registry_connect_cached_eval s id r d :
  DriverRegistry.getDriver id s = Some r ->
  heap (DriverRegistry.world s) !! r = Some d ->
  drv_isConnected d = true ->
  DriverRegistry.connect id s = (Ok r, s).
Proof.
  destruct s as [drv store w].
  cbv [DriverRegistry.getDriver DriverRegistry.drivers DriverRegistry.world].
  intros Hget Hd Hc.
  cbv [DriverRegistry.connect bind gets DriverRegistry.drivers
       DriverRegistry.inWorld DriverRegistry.world DriverRegistry.connectionStore].
  rewrite Hget. cbv [isConnected]. rewrite Hd, Hc. reflexivity.
Qed.

Lemma registry_connect_dangling_eval s id r :
  DriverRegistry.getDriver id s = Some r ->
  heap (DriverRegistry.world s) !! r = None ->
  DriverRegistry.connect id s = (Throw notAnObject, s).
Proof.
  destruct s as [drv store w].
  cbv [DriverRegistry.getDriver DriverRegistry.drivers DriverRegistry.world].
  intros Hget Hd.
  cbv [DriverRegistry.connect bind gets DriverRegistry.drivers
       DriverRegistry.inWorld DriverRegistry.world DriverRegistry.connectionStore].
  rewrite Hget. cbv [isConnected]. rewrite Hd. reflexivity.
Qed.

(** [connect(id)] when nothing is cached for [id], step by step. *)
Lemma registry_connect_new_eval s id :
  DriverRegistry.getDriver id s = None ->
  DriverRegistry.connect id s =
  let store := DriverRegistry.connectionStore s in
  let w := DriverRegistry.world s in
  match ConnectionStore.getConnection store id with
  | Throw e => (Throw e, s)
  | Ok None => (Throw (Error ("Connection " +:+ id +:+ " not found")), s)
  | Ok (Some config) =>
      match ConnectionStore.getPassword store id with
      | Throw e => (Throw e, s)
      | Ok password =>
          match JsMap.get (registry w) (ConnectionConfig.type config) with
          | None =>
              (Throw (DriverFactory.unknownDriverType
                        (ConnectionConfig.type config) (JsMap.keys (registry w))), s)
          | Some reg =>
              let fresh := length (heap w) in
              let d0 := DriverRegistration.constructor reg config
                          (strOr password EmptyString) in
              let w' := called (allocated w d0) fresh MConnect (snd (drv_connect d0)) in
              match fst (drv_connect d0) with
              | Ok _ =>
                  (Ok fresh,
                   {| DriverRegistry.drivers :=
                        JsMap.set (DriverRegistry.drivers s) id fresh;
                      DriverRegistry.connectionStore := store;
                      DriverRegistry.world := w' |})
              | Throw e =>
                  (Throw e,
                   {| DriverRegistry.drivers := DriverRegistry.drivers s;
                      DriverRegistry.connectionStore := store;
                      DriverRegistry.world := w' |})
              end
          end
      end
  end.
Proof.
  destruct s as [drv store w].
  cbv [DriverRegistry.getDriver DriverRegistry.drivers DriverRegistry.world
       DriverRegistry.connectionStore].
  intros Hget.
  cbv [DriverRegistry.connect bind gets DriverRegistry.drivers
       DriverRegistry.inWorld DriverRegistry.world DriverRegistry.connectionStore].
  rewrite Hget. cbv [ret await throw].
  destruct (ConnectionStore.getConnection store id) as [[config|]|e]; try reflexivity.
  destruct (ConnectionStore.getPassword store id) as [password|e]; try reflexivity.
  cbv [DriverFactory.create bind gets throw].
  destruct (JsMap.get (registry w) (ConnectionConfig.type config)) as [reg|];
    [|reflexivity].
  cbv [alloc].
  set (d0 := DriverRegistration.constructor reg config (strOr password EmptyString)).
  assert (Hfresh : heap (allocated w d0) !! length (heap w) = Some d0).
  { cbn [allocated heap]. rewrite lookup_app_r by lia.
    rewrite Nat.sub_diag. reflexivity. }
  rewrite (call_eval (allocated w d0) (length (heap w)) MConnect drv_connect d0 Hfresh).
  destruct (drv_connect d0) as [[[]|e] d1]; reflexivity.
Qed.

(** What [connect(id)] does once it has to build a driver: the outcome
    [out] is one of the failures before the driver object exists, which
    leave the registry as it was, or the connection attempt on the new
    object at the next free address. *)
Lemma registry_connect_build s id :
  match DriverRegistry.getDriver id s with
  | Some r => exists d, heap (DriverRegistry.world s) !! r = Some d
                        /\ drv_isConnected d = false
  | None => True
  end ->
  let out := DriverRegistry.connect id s in
  (exists e, out = (Throw e, s))
  \/ (exists d0,
        let fresh := length (heap (DriverRegistry.world s)) in
        let w' := called (allocated (DriverRegistry.world s) d0) fresh MConnect
                    (snd (drv_connect d0)) in
        match fst (drv_connect d0) with
        | Ok _ =>
            out = (Ok fresh,
                   {| DriverRegistry.drivers :=
                        JsMap.set (DriverRegistry.drivers s) id fresh;
                      DriverRegistry.connectionStore := DriverRegistry.connectionStore s;
                      DriverRegistry.world := w' |})
        | Throw e =>
            out = (Throw e,
                   {| DriverRegistry.drivers := DriverRegistry.drivers s;
                      DriverRegistry.connectionStore := DriverRegistry.connectionStore s;
                      DriverRegistry.world := w' |})
        end).
Proof.
  intros Hc out.
  assert (E : out = _) by
    (unfold out; destruct (DriverRegistry.getDriver id s) as [r|] eqn:Hget;
       [destruct Hc as (d & Hd & Hdc);
        exact (registry_connect_stale_eval s id r d Hget Hd Hdc)
       |exact (registry_connect_new_eval s id Hget)]).
  cbv zeta in E. rewrite E. clear E.
  destruct (ConnectionStore.getConnection _ id) as [[config|]|e];
    [|left; eexists; reflexivity..].
  destruct (ConnectionStore.getPassword _ id) as [password|e];
    [|left; eexists; reflexivity].
  destruct (JsMap.get _ (ConnectionConfig.type config)) as [reg|];
    [|left; eexists; reflexivity].
  right. exists (DriverRegistration.constructor reg config (strOr password EmptyString)).
  cbv zeta. destruct (fst (drv_connect _)); reflexivity.
Qed.

(** X19: a [connect(id)] that fails never changes the cache: an id
    without an entry gets none, and an id whose cached driver had gone
    stale keeps that stale driver, although a new driver object may
    have been created and tried. *)
Theorem registry_connect_failure_keeps_cache s id e :
  fst (DriverRegistry.connect id s) = Throw e ->
  DriverRegistry.drivers (snd (DriverRegistry.connect id s))
  = DriverRegistry.drivers s
  /\ forall r, r < length (heap (DriverRegistry.world s)) ->
       heap (DriverRegistry.world (snd (DriverRegistry.connect id s))) !! r
       = heap (DriverRegistry.world s) !! r.
Proof.
  intros Hfail.
  destruct (DriverRegistry.getDriver id s) as [r|] eqn:Hget.
  - destruct (heap (DriverRegistry.world s) !! r) as [d|] eqn:Hd.
    + destruct (drv_isConnected d) eqn:Hdc.
      * rewrite (registry_connect_cached_eval s id r d Hget Hd Hdc) in Hfail.
        discriminate Hfail.
      * pose proof (registry_connect_build s id) as Hb. rewrite Hget in Hb.
        specialize (Hb (ex_intro _ d (conj Hd Hdc))). cbv zeta in Hb.
        destruct Hb as [[e' ->] | [d0 Hb]]; [split; reflexivity|].
        destruct (fst (drv_connect d0)); rewrite Hb in Hfail |- *;
          [discriminate Hfail|].
        split; [reflexivity|]. intros r' Hr'. cbn [snd DriverRegistry.world].
        unfold called, allocated. cbn [heap].
        rewrite list_lookup_insert_ne by lia. apply lookup_app_l. exact Hr'.
    + rewrite (registry_connect_dangling_eval s id r Hget Hd). split; reflexivity.
  - pose proof (registry_connect_build s id) as Hb. rewrite Hget in Hb.
    specialize (Hb I). cbv zeta in Hb.
    destruct Hb as [[e' ->] | [d0 Hb]]; [split; reflexivity|].
    destruct (fst (drv_connect d0)); rewrite Hb in Hfail |- *;
      [discriminate Hfail|].
    split; [reflexivity|]. intros r' Hr'. cbn [snd DriverRegistry.world].
    unfold called, allocated. cbn [heap].
    rewrite list_lookup_insert_ne by lia. apply lookup_app_l. exact Hr'.
Qed.

End RegistryConnectFacts.

Section RegistryConnectTwice.
Context {D : Type} `{DbDriver D} `{!DbDriverLaws D}.
Implicit Types (s : DriverRegistry.t D) (id : string) (r : nat) (d : D).

(** X20: [connect] is idempotent once it has succeeded: a second
    [connect(id)] returns the same driver and changes nothing - no
    lookup in the store, no new object, no call on the driver -
    provided a driver whose [connect()] returned reports that it is
    connected. *)
Theorem registry_connect_twice s id r :
  fst (DriverRegistry.connect id s) = Ok r ->
  DriverRegistry.connect id (snd (DriverRegistry.connect id s))
  = (Ok r, snd (DriverRegistry.connect id s)).
Proof.
  intros Hok.
  assert (Hbuilt :
    match DriverRegistry.getDriver id s with
    | Some r => exists d, heap (DriverRegistry.world s) !! r = Some d
                          /\ drv_isConnected d = false
    | None => True
    end ->
    DriverRegistry.connect id (snd (DriverRegistry.connect id s))
    = (Ok r, snd (DriverRegistry.connect id s))).
  { intros Hc. pose proof (registry_connect_build s id Hc) as Hb. cbv zeta in Hb.
    destruct Hb as [[e Hb] | [d0 Hb]]; [rewrite Hb in Hok; discriminate Hok|].
    destruct (fst (drv_connect d0)) as [[]|e] eqn:Hd0;
      rewrite Hb in Hok |- *; [|discriminate Hok].
    cbn [fst] in Hok. injection Hok as <-. cbn [snd].
    apply (registry_connect_cached_eval _ id _ (snd (drv_connect d0))).
    - cbv [DriverRegistry.getDriver DriverRegistry.drivers].
      apply JsMapFacts.get_set_eq.
    - cbn [DriverRegistry.world called allocated heap].
      rewrite insert_last. rewrite lookup_app_r by lia.
      rewrite Nat.sub_diag. reflexivity.
    - apply connect_ok_isConnected, Hd0. }
  destruct (DriverRegistry.getDriver id s) as [r0|] eqn:Hget; [|exact (Hbuilt I)].
  destruct (heap (DriverRegistry.world s) !! r0) as [d|] eqn:Hd.
  - destruct (drv_isConnected d) eqn:Hdc.
    + rewrite (registry_connect_cached_eval s id r0 d Hget Hd Hdc) in Hok |- *.
      cbn [fst] in Hok. injection Hok as <-. cbn [snd].
      exact (registry_connect_cached_eval s id r0 d Hget Hd Hdc).
    + apply Hbuilt. exists d. split; [reflexivity | exact Hdc].
  - rewrite (registry_connect_dangling_eval s id r0 Hget Hd) in Hok.
    discriminate Hok.
Qed.

End RegistryConnectTwice.

Lemma registry_connect_failure_keeps_cache_witness :
  DriverRegistry.drivers
    (snd (DriverRegistry.connect "c9"
            (DriverRegistry.new Examples.exampleStore Examples.exampleWorld)))
  = [].
Proof.
  exact (proj1 (registry_connect_failure_keeps_cache
                  (DriverRegistry.new Examples.exampleStore Examples.exampleWorld)
                  "c9" (Error "Connection c9 not found") eq_refl)).
Defined.

Lemma registry_connect_twice_witness :
  DriverRegistry.connect "c1"
    (snd (DriverRegistry.connect "c1"
            (DriverRegistry.new Examples.exampleStore Examples.exampleWorld)))
  = (Ok 0,
     snd (DriverRegistry.connect "c1"
            (DriverRegistry.new Examples.exampleStore Examples.exampleWorld))).
Proof.
  exact (registry_connect_twice
           (DriverRegistry.new Examples.exampleStore Examples.exampleWorld)
           "c1" 0 eq_refl).
Defined.

Section RegistryConnected.
Context {D : Type} `{DbDriver D} `{!DbDriverLaws D}.
Implicit Types (s : DriverRegistry.t D) (id : string) (r : nat) (d : D).

Lemma registry_isConnected_eval s id r d :
  DriverRegistry.getDriver id s = Some r ->
  heap (DriverRegistry.world s) !! r = Some d ->
  DriverRegistry.isConnected id s = (Ok (drv_isConnected d), s).
Proof.
  destruct s as [drv store w].
  cbv [DriverRegistry.getDriver DriverRegistry.drivers DriverRegistry.world].
  intros Hget Hd.
  cbv [DriverRegistry.isConnected bind gets DriverRegistry.drivers
       DriverRegistry.inWorld DriverRegistry.world DriverRegistry.connectionStore].
  rewrite Hget. cbv [isConnected]. rewrite Hd. reflexivity.
Qed.

(** X21: what a [connect(id)] that returned establishes: the driver it
    returned is the one cached under [id], it is an object of the
    world, and the registry answers [isConnected(id)] with true without
    changing anything - provided a driver whose [connect()] returned
    reports that it is connected. *)
Theorem registry_connect_establishes s id r :
  fst (DriverRegistry.connect id s) = Ok r ->
  let s' := snd (DriverRegistry.connect id s) in
  DriverRegistry.getDriver id s' = Some r
  /\ reportsConnected (DriverRegistry.world s') r = Some true
  /\ DriverRegistry.isConnected id s' = (Ok true, s').
Proof.
  intros Hok s'.
  assert (Hcase : exists d,
            DriverRegistry.getDriver id s' = Some r
            /\ heap (DriverRegistry.world s') !! r = Some d
            /\ drv_isConnected d = true).
  { unfold s'.
    assert (Hbuilt :
      match DriverRegistry.getDriver id s with
      | Some r => exists d, heap (DriverRegistry.world s) !! r = Some d
                            /\ drv_isConnected d = false
      | None => True
      end ->
      exists d,
        DriverRegistry.getDriver id (snd (DriverRegistry.connect id s)) = Some r
        /\ heap (DriverRegistry.world (snd (DriverRegistry.connect id s))) !! r = Some d
        /\ drv_isConnected d = true).
    { intros Hc. pose proof (registry_connect_build s id Hc) as Hb. cbv zeta in Hb.
      destruct Hb as [[e Hb] | [d0 Hb]]; [rewrite Hb in Hok; discriminate Hok|].
      destruct (fst (drv_connect d0)) as [[]|e] eqn:Hd0;
        rewrite Hb in Hok |- *; [|discriminate Hok].
      cbn [fst] in Hok. injection Hok as <-. cbn [snd].
      exists (snd (drv_connect d0)). split; [|split].
      - cbv [DriverRegistry.getDriver DriverRegistry.drivers].
        apply JsMapFacts.get_set_eq.
      - cbn [DriverRegistry.world called allocated heap].
        rewrite insert_last. rewrite lookup_app_r by lia.
        rewrite Nat.sub_diag. reflexivity.
      - apply connect_ok_isConnected, Hd0. }
    destruct (DriverRegistry.getDriver id s) as [r0|] eqn:Hget; [|exact (Hbuilt I)].
    destruct (heap (DriverRegistry.world s) !! r0) as [d|] eqn:Hd.
    - destruct (drv_isConnected d) eqn:Hdc.
      + rewrite (registry_connect_cached_eval s id r0 d Hget Hd Hdc) in Hok |- *.
        cbn [fst] in Hok. injection Hok as <-. cbn [snd].
        exists d. repeat split; assumption.
      + apply Hbuilt. exists d. split; [reflexivity | exact Hdc].
    - rewrite (registry_connect_dangling_eval s id r0 Hget Hd) in Hok.
      discriminate Hok. }
  destruct Hcase as (d & Hget & Hd & Hdc).
  split; [exact Hget|]. split.
  - unfold reportsConnected. rewrite Hd. cbn. rewrite Hdc. reflexivity.
  - rewrite (registry_isConnected_eval s' id r d Hget Hd), Hdc. reflexivity.
Qed.

End RegistryConnected.

Lemma registry_connect_establishes_witness :
  DriverRegistry.isConnected "c1"
    (snd (DriverRegistry.connect "c1" Examples.staleConnection))
  = (Ok true, snd (DriverRegistry.connect "c1" Examples.staleConnection)).
Proof.
  unshelve epose proof
    (registry_connect_establishes Examples.staleConnection "c1" 2 _) as W.
  - vm_compute. reflexivity.
  - exact (proj2 (proj2 W)).
Defined.

(** ** The replica router *)

Section RouterPickFacts.
Context {D : Type} `{DbDriver D}.
Implicit Types (s : ReplicaRouter.t D) (w : World D) (r : nat) (q : Q).

Lemma isConnected_state w r : snd (isConnected r w) = w.
Proof. unfold isConnected. destruct (heap w !! r); reflexivity. Qed.

Lemma isConnected_ok w r b :
  fst (isConnected r w) = Ok b -> reportsConnected w r = Some b.
Proof.
  unfold isConnected, reportsConnected.
  destruct (heap w !! r); cbn; [|discriminate]. intros [= <-]. reflexivity.
Qed.

Lemma inWorld_isConnected_state s r :
  snd (ReplicaRouter.inWorld (isConnected r) s) = s.
Proof.
  unfold ReplicaRouter.inWorld. pose proof (isConnected_state (ReplicaRouter.world s) r) as E.
  destruct (isConnected r (ReplicaRouter.world s)) as [res w']. cbn in E. subst w'.
  destruct s; reflexivity.
Qed.

Lemma inWorld_isConnected_ok s r b :
  fst (ReplicaRouter.inWorld (isConnected r) s) = Ok b ->
  reportsConnected (ReplicaRouter.world s) r = Some b.
Proof.
  unfold ReplicaRouter.inWorld. intros Hb. apply isConnected_ok.
  destruct (isConnected r (ReplicaRouter.world s)); exact Hb.
Qed.

Lemma findConnected_found (l : list nat) w :
  snd (ReplicaRouter.findConnected l w) = w
  /\ forall r, fst (ReplicaRouter.findConnected l w) = Ok (Some r) ->
               In r l /\ reportsConnected w r = Some true.
Proof.
  induction l as [|r0 l IH]; cbn [ReplicaRouter.findConnected].
  - split; [reflexivity|]. intros r Hr. discriminate Hr.
  - unfold bind.
    pose proof (isConnected_state w r0) as Es.
    pose proof (isConnected_ok w r0) as Eo.
    destruct (isConnected r0 w) as [[c|e] w']; cbn [fst snd] in Es, Eo; subst w'.
    + destruct c.
      * split; [reflexivity|]. intros r [= <-].
        split; [left; reflexivity | apply Eo; reflexivity].
      * destruct IH as [IHs IHr]. split; [exact IHs|].
        intros r Hr. destruct (IHr r Hr) as [Hin Hc]. split; [right; exact Hin | exact Hc].
    + split; [reflexivity|]. intros r Hr. discriminate Hr.
Qed.

Lemma at_member (l : list nat) (i : Z) r : ReplicaRouter.at_ l i = Some r -> In r l.
Proof.
  unfold ReplicaRouter.at_. destruct (i <? 0)%Z; [discriminate|].
  intros Hr. rewrite <- list_elem_of_In. eapply list_elem_of_lookup_2. exact Hr.
Qed.

Lemma lookup_member (l : list nat) (i : nat) r : l !! i = Some r -> In r l.
Proof.
  intros Hr. rewrite <- list_elem_of_In. eapply list_elem_of_lookup_2. exact Hr.
Qed.

(** The [switch]: only the cursor can change, and only under
    round-robin; a driver that is picked is one of the list. *)
Lemma pickReadDriver_outcome s q (l : list nat) :
  let out := ReplicaRouter.pickReadDriver q l s in
  ReplicaRouter.world (snd out) = ReplicaRouter.world s
  /\ ReplicaRouter.writeDriver (snd out) = ReplicaRouter.writeDriver s
  /\ ReplicaRouter.readDrivers (snd out) = ReplicaRouter.readDrivers s
  /\ ReplicaRouter.currentReadIndex (snd out)
     = (if String.eqb (ReplicaConfig.loadBalancing (ReplicaRouter.config s))
             "round-robin"
        then (ReplicaRouter.currentReadIndex s + 1) mod length l
        else ReplicaRouter.currentReadIndex s)
  /\ forall r, fst out = Ok (Some r) -> In r l.
Proof.
  destruct s as [wd rds idx cfg base pw w].
  cbv [ReplicaRouter.pickReadDriver bind gets ReplicaRouter.config
       ReplicaRouter.currentReadIndex].
  cbn [ReplicaRouter.writeDriver ReplicaRouter.readDrivers ReplicaRouter.world
       ReplicaRouter.config ReplicaRouter.currentReadIndex].
  destruct (String.eqb (ReplicaConfig.loadBalancing cfg) "round-robin").
  - cbv [ReplicaRouter.setCurrentReadIndex modify ret]. cbn.
    repeat split. intros r [= Hr]. exact (lookup_member l idx r Hr).
  - destruct (String.eqb (ReplicaConfig.loadBalancing cfg) "random").
    + cbv [ret]. cbn. repeat split. intros r [= Hr]. exact (at_member l _ r Hr).
    + destruct (String.eqb (ReplicaConfig.loadBalancing cfg) "first-available").
      * cbv [ReplicaRouter.inWorld ReplicaRouter.world].
        destruct (findConnected_found l w) as [Es Er].
        destruct (ReplicaRouter.findConnected l w) as [[found|e] w'];
          cbn [fst snd] in Es, Er; subst w'; cbn.
        -- repeat split. intros r [= Hr]. destruct found as [r0|].
           ++ injection Hr as <-. exact (proj1 (Er r0 eq_refl)).
           ++ exact (lookup_member l 0 r Hr).
        -- repeat split. intros r Hr. discriminate Hr.
      * cbv [ret]. cbn. repeat split. intros r [= Hr]. exact (lookup_member l 0 r Hr).
Qed.

Lemma getWriteDriver_outcome s :
  snd (ReplicaRouter.getWriteDriver s) = s
  /\ forall r, fst (ReplicaRouter.getWriteDriver s) = Ok r ->
               ReplicaRouter.writeDriver s = Some r.
Proof.
  cbv [ReplicaRouter.getWriteDriver bind gets].
  destruct (ReplicaRouter.writeDriver s); cbn; split; try reflexivity.
  - intros r [= <-]. reflexivity.
  - intros r Hr. discriminate Hr.
Qed.

Lemma ensureConnected_outcome s (o : option nat) :
  snd (ReplicaRouter.ensureConnected o s) = s
  /\ forall r, fst (ReplicaRouter.ensureConnected o s) = Ok r ->
       ReplicaRouter.writeDriver s = Some r
       \/ (o = Some r /\ reportsConnected (ReplicaRouter.world s) r = Some true).
Proof.
  destruct o as [r0|]; cbv [ReplicaRouter.ensureConnected bind].
  - pose proof (inWorld_isConnected_state s r0) as Es.
    pose proof (inWorld_isConnected_ok s r0) as Eo.
    destruct (ReplicaRouter.inWorld (isConnected r0) s) as [[c|e] s'];
      cbn [fst snd] in Es, Eo; subst s'.
    + destruct c; cbn [negb].
      * split; [reflexivity|]. intros r [= <-]. right. split; [reflexivity|].
        apply Eo. reflexivity.
      * destruct (getWriteDriver_outcome s) as [Ws Wr].
        split; [exact Ws|]. intros r Hr. left. apply Wr, Hr.
    + split; [reflexivity|]. intros r Hr. discriminate Hr.
  - split; [reflexivity|]. intros r Hr. discriminate Hr.
Qed.

(** X22: what [getReadDriver()] returns is the write driver or a read
    driver of the list that reports connected; a read replica that is
    down is never handed out, with any strategy and any random draw.
    The call leaves the drivers and the two driver fields alone. *)
Theorem getReadDriver_returns_usable s q r :
  fst (ReplicaRouter.getReadDriver q s) = Ok r ->
  (ReplicaRouter.writeDriver s = Some r
   \/ (In r (ReplicaRouter.readDrivers s)
       /\ reportsConnected (ReplicaRouter.world s) r = Some true))
  /\ ReplicaRouter.world (snd (ReplicaRouter.getReadDriver q s))
     = ReplicaRouter.world s
  /\ ReplicaRouter.writeDriver (snd (ReplicaRouter.getReadDriver q s))
     = ReplicaRouter.writeDriver s
  /\ ReplicaRouter.readDrivers (snd (ReplicaRouter.getReadDriver q s))
     = ReplicaRouter.readDrivers s.
Proof.
  cbv [ReplicaRouter.getReadDriver bind gets].
  destruct (Nat.eqb (length (ReplicaRouter.readDrivers s)) 0).
  - destruct (getWriteDriver_outcome s) as [Ws Wr]. intros Hr.
    rewrite Ws. split; [left; apply Wr, Hr|]. repeat split.
  - destruct (pickReadDriver_outcome s q (ReplicaRouter.readDrivers s))
      as (Pw & Pwd & Prd & _ & Pin). cbv zeta in *.
    destruct (ReplicaRouter.pickReadDriver q (ReplicaRouter.readDrivers s) s)
      as [[o|e] s1]; cbn [fst snd] in *; [|intros Hr; discriminate Hr].
    destruct (ensureConnected_outcome s1 o) as [Es Er]. rewrite Es.
    intros Hr. destruct (Er r Hr) as [Hw | [-> Hc]].
    + split; [left; rewrite <- Pwd; exact Hw|]. repeat split; assumption.
    + split; [right; split; [apply Pin; reflexivity | rewrite <- Pw; exact Hc]|].
      repeat split; assumption.
Qed.

(** X23: the round-robin cursor after [getReadDriver()].  With read
    drivers in the list and the round-robin strategy the cursor moves
    to the next index modulo the length of the list, whether the call
    returns or throws, so it lies inside the list afterwards even when
    it lay outside before.  In every other case the cursor stays where
    it was. *)
Theorem getReadDriver_cursor s q :
  let n := length (ReplicaRouter.readDrivers s) in
  let after := ReplicaRouter.currentReadIndex (snd (ReplicaRouter.getReadDriver q s)) in
  (n <> 0 ->
   ReplicaConfig.loadBalancing (ReplicaRouter.config s) = "round-robin" ->
   after = (ReplicaRouter.currentReadIndex s + 1) mod n /\ after < n)
  /\ (n = 0 \/ ReplicaConfig.loadBalancing (ReplicaRouter.config s) <> "round-robin" ->
      after = ReplicaRouter.currentReadIndex s).
Proof.
  intros n after.
  assert (E : after
              = if Nat.eqb n 0 then ReplicaRouter.currentReadIndex s
                else if String.eqb (ReplicaConfig.loadBalancing (ReplicaRouter.config s))
                          "round-robin"
                     then (ReplicaRouter.currentReadIndex s + 1) mod n
                     else ReplicaRouter.currentReadIndex s).
  { unfold after, n. cbv [ReplicaRouter.getReadDriver bind gets].
    destruct (Nat.eqb (length (ReplicaRouter.readDrivers s)) 0).
    - rewrite (proj1 (getWriteDriver_outcome s)). reflexivity.
    - destruct (pickReadDriver_outcome s q (ReplicaRouter.readDrivers s))
        as (_ & _ & _ & Pc & _). cbv zeta in Pc.
      destruct (ReplicaRouter.pickReadDriver q (ReplicaRouter.readDrivers s) s)
        as [[o|e] s1]; cbn [fst snd] in *; [|exact Pc].
      rewrite (proj1 (ensureConnected_outcome s1 o)). exact Pc. }
  rewrite E. split.
  - intros Hn Hrr. destruct (Nat.eqb_spec n 0) as [E0|_]; [contradiction|].
    rewrite Hrr. cbn [String.eqb Ascii.eqb Bool.eqb].
    split; [reflexivity | apply Nat.mod_upper_bound, Hn].
  - intros [Hn | Hs].
    + rewrite Hn. reflexivity.
    + destruct (Nat.eqb n 0); [reflexivity|].
      destruct (String.eqb_spec (ReplicaConfig.loadBalancing (ReplicaRouter.config s))
                  "round-robin") as [Err|_]; [contradiction | reflexivity].
Qed.

End RouterPickFacts.

Lemma getReadDriver_returns_usable_witness :
  reportsConnected (ReplicaRouter.world (Examples.connectedRouter "random")) 2
  = Some true.
Proof.
  unshelve epose proof
    (getReadDriver_returns_usable (Examples.connectedRouter "random") (1 # 2) 2 _)
    as W.
  - vm_compute. reflexivity.
  - destruct (proj1 W) as [Hw | [_ Hc]].
    + vm_compute in Hw. discriminate Hw.
    + exact Hc.
Defined.

Lemma getReadDriver_cursor_witness :
  ReplicaRouter.currentReadIndex
    (snd (ReplicaRouter.getReadDriver 0 Examples.reconnectedRouter)) = 0.
Proof.
  unshelve epose proof
    (proj1 (getReadDriver_cursor Examples.reconnectedRouter 0) _ _) as W.
  - vm_compute. discriminate.
  - vm_compute. reflexivity.
  - exact (proj1 W).
Defined.

Section RouterLifeCycle.
Context {D : Type} `{DbDriver D}.
Implicit Types (s : ReplicaRouter.t D) (w : World D) (r : nat) (q : Q).

Local Abbreviation replicaDriver reg base pw readHost :=
  (DriverRegistration.constructor reg
     (ConnectionConfig.withEndpoint base (ReadReplicaHost.host readHost)
        (ReadReplicaHost.port readHost)) pw).

(** The loop over the read hosts when every replica connects. *)
Lemma connectReadReplicas_all cfg base pw con rg reg
    (hosts : list ReadReplicaHost.t) :
  JsMap.get rg (ConnectionConfig.type base) = Some reg ->
  Forall (fun h => fst (drv_connect (replicaDriver reg base pw h)) = Ok tt) hosts ->
  forall wd rds idx hp tr,
    ReplicaRouter.connectReadReplicas hosts
      (ReplicaRouter.mk wd rds idx cfg base pw (mkWorld hp tr con rg))
    = (Ok tt,
       ReplicaRouter.mk wd (rds ++ seq (length hp) (length hosts)) idx cfg base pw
         (mkWorld
            (hp ++ map (fun h => snd (drv_connect (replicaDriver reg base pw h))) hosts)
            (tr ++ map (fun i => (i, MConnect)) (seq (length hp) (length hosts)))
            con rg)).
Proof.
  intros Hreg Hall. induction Hall as [|h hosts Hh Hall IH];
    intros wd rds idx hp tr.
  - cbn. rewrite !app_nil_r. reflexivity.
  - rewrite (connectReadReplicas_step wd rds idx cfg base pw hp tr con rg reg h
               hosts Hreg).
    cbv zeta. rewrite Hh. rewrite IH.
    rewrite length_app. cbn [length]. rewrite Nat.add_1_r.
    cbn [seq map app]. rewrite <- !app_assoc. reflexivity.
Qed.

(** [connect()] up to the loop over the read hosts. *)
Lemma connect_write_step wd rds idx cfg base pw hp tr con rg reg :
  JsMap.get rg (ConnectionConfig.type base) = Some reg ->
  let writeObject :=
    DriverRegistration.constructor reg
      (ConnectionConfig.withEndpoint base (ReplicaConfig.writeHost cfg)
         (ReplicaConfig.writePort cfg)) pw in
  let s1 := ReplicaRouter.mk (Some (length hp)) rds idx cfg base pw
              (mkWorld (hp ++ [snd (drv_connect writeObject)])
                 (tr ++ [(length hp, MConnect)]) con rg) in
  ReplicaRouter.connect
    (ReplicaRouter.mk wd rds idx cfg base pw (mkWorld hp tr con rg))
  = match fst (drv_connect writeObject) with
    | Ok _ => ReplicaRouter.connectReadReplicas (ReplicaConfig.readHosts cfg) s1
    | Throw e => (Throw e, s1)
    end.
Proof.
  intros Hreg writeObject s1.
  cbv [ReplicaRouter.connect bind gets ReplicaRouter.config
       ReplicaRouter.baseConfig ReplicaRouter.password ReplicaRouter.inWorld
       ReplicaRouter.world ReplicaRouter.writeDriver ReplicaRouter.readDrivers
       ReplicaRouter.currentReadIndex ReplicaRouter.setWriteDriver modify].
  pose proof (create_and_connect (mkWorld hp tr con rg) (ConnectionConfig.type base)
                (ConnectionConfig.withEndpoint base (ReplicaConfig.writeHost cfg)
                   (ReplicaConfig.writePort cfg)) pw reg Hreg) as Ec.
  cbv zeta in Ec. cbv [bind ret] in Ec.
  destruct (DriverFactory.create (ConnectionConfig.type base)
              (ConnectionConfig.withEndpoint base (ReplicaConfig.writeHost cfg)
                 (ReplicaConfig.writePort cfg)) pw (mkWorld hp tr con rg))
    as [[r|e0] wa] eqn:Ecreate; [|discriminate Ec].
  destruct (call r MConnect drv_connect wa) as [[p|e0] wb] eqn:Ecall;
    [|discriminate Ec].
  injection Ec as -> -> ->. fold writeObject.
  destruct (fst (drv_connect writeObject)) as [[]|e]; reflexivity.
Qed.

(** X24: [connect()] assigns the write driver before it awaits its
    connection.  When the connection of the write replica fails, the
    error reaches the caller, no read replica is tried, and the router
    keeps the driver that failed as its write driver:
    [getWriteDriver()] then returns it instead of throwing that the
    write replica is not connected. *)
Theorem router_connect_write_failure s reg (e : JsError) :
  let base := ReplicaRouter.baseConfig s in
  let cfg := ReplicaRouter.config s in
  let writeObject :=
    DriverRegistration.constructor reg
      (ConnectionConfig.withEndpoint base (ReplicaConfig.writeHost cfg)
         (ReplicaConfig.writePort cfg)) (ReplicaRouter.password s) in
  JsMap.get (registry (ReplicaRouter.world s)) (ConnectionConfig.type base) = Some reg ->
  fst (drv_connect writeObject) = Throw e ->
  let out := ReplicaRouter.connect s in
  let n := length (heap (ReplicaRouter.world s)) in
  fst out = Throw e
  /\ ReplicaRouter.writeDriver (snd out) = Some n
  /\ heap (ReplicaRouter.world (snd out))
     = heap (ReplicaRouter.world s) ++ [snd (drv_connect writeObject)]
  /\ trace (ReplicaRouter.world (snd out))
     = trace (ReplicaRouter.world s) ++ [(n, MConnect)]
  /\ ReplicaRouter.readDrivers (snd out) = ReplicaRouter.readDrivers s
  /\ ReplicaRouter.getWriteDriver (snd out) = (Ok n, snd out).
Proof.
  destruct s as [wd rds idx cfg base pw [hp tr con rg]].
  cbn [ReplicaRouter.baseConfig ReplicaRouter.password ReplicaRouter.config
       ReplicaRouter.world ReplicaRouter.readDrivers registry heap trace].
  cbv zeta. intros Hreg Hw.
  rewrite (connect_write_step wd rds idx cfg base pw hp tr con rg reg Hreg).
  cbv zeta. rewrite Hw. repeat split.
Qed.

End RouterLifeCycle.

Section RouterConnectSuccess.
Context {D : Type} `{DbDriver D} `{!DbDriverLaws D}.
Implicit Types (s : ReplicaRouter.t D) (w : World D) (r : nat) (q : Q).

Local Abbreviation replicaDriver reg base pw readHost :=
  (DriverRegistration.constructor reg
     (ConnectionConfig.withEndpoint base (ReadReplicaHost.host readHost)
        (ReadReplicaHost.port readHost)) pw).

Lemma someConnected_first (l : list nat) w r :
  reportsConnected w r = Some true ->
  ReplicaRouter.someConnected (r :: l) w = (Ok true, w).
Proof.
  intros Hr. cbn [ReplicaRouter.someConnected]. unfold bind.
  rewrite (isConnected_eval w r true Hr). reflexivity.
Qed.

Lemma filterConnected_all (l : list nat) w :
  (forall r, In r l -> reportsConnected w r = Some true) ->
  ReplicaRouterQueries.filterConnected l w = (Ok l, w).
Proof.
  induction l as [|r l IH]; intros Hall; cbn [ReplicaRouterQueries.filterConnected].
  - reflexivity.
  - unfold bind. rewrite (isConnected_eval w r true) by (apply Hall; left; reflexivity).
    rewrite IH by (intros r' Hr'; apply Hall; right; exact Hr'). reflexivity.
Qed.

(** X25: [connect()] when the write replica and every read replica
    connect.  The write driver is the first new object and the read
    drivers follow in the order of the configured hosts, each built for
    its own endpoint; they are appended to the read drivers the router
    already had; the cursor is not touched.  On a router that had no
    read drivers, [isConnected()] then answers true and the count of
    connected read replicas is the number of hosts. *)
Theorem router_connect_success s reg :
  let base := ReplicaRouter.baseConfig s in
  let pw := ReplicaRouter.password s in
  let cfg := ReplicaRouter.config s in
  let writeObject :=
    DriverRegistration.constructor reg
      (ConnectionConfig.withEndpoint base (ReplicaConfig.writeHost cfg)
         (ReplicaConfig.writePort cfg)) pw in
  JsMap.get (registry (ReplicaRouter.world s)) (ConnectionConfig.type base) = Some reg ->
  fst (drv_connect writeObject) = Ok tt ->
  Forall (fun h => fst (drv_connect (replicaDriver reg base pw h)) = Ok tt)
    (ReplicaConfig.readHosts cfg) ->
  let out := ReplicaRouter.connect s in
  let n := length (heap (ReplicaRouter.world s)) in
  let k := length (ReplicaConfig.readHosts cfg) in
  fst out = Ok tt
  /\ ReplicaRouter.writeDriver (snd out) = Some n
  /\ ReplicaRouter.readDrivers (snd out) = ReplicaRouter.readDrivers s ++ seq (S n) k
  /\ ReplicaRouter.currentReadIndex (snd out) = ReplicaRouter.currentReadIndex s
  /\ heap (ReplicaRouter.world (snd out)) !! n = Some (snd (drv_connect writeObject))
  /\ (forall i h, ReplicaConfig.readHosts cfg !! i = Some h ->
        heap (ReplicaRouter.world (snd out)) !! (S n + i)
        = Some (snd (drv_connect (replicaDriver reg base pw h))))
  /\ (forall i, i <= k ->
        reportsConnected (ReplicaRouter.world (snd out)) (n + i) = Some true)
  /\ (ReplicaRouter.readDrivers s = [] ->
      ReplicaRouter.isConnected (snd out) = (Ok true, snd out)
      /\ ReplicaRouterQueries.getConnectedReadReplicaCount (snd out)
         = (Ok k, snd out)).
Proof.
  destruct s as [wd rds idx cfg base pw [hp tr con rg]].
  cbn [ReplicaRouter.baseConfig ReplicaRouter.password ReplicaRouter.config
       ReplicaRouter.world ReplicaRouter.readDrivers ReplicaRouter.currentReadIndex
       registry heap trace].
  cbv zeta. intros Hreg Hw Hall.
  set (writeObject :=
         DriverRegistration.constructor reg
           (ConnectionConfig.withEndpoint base (ReplicaConfig.writeHost cfg)
              (ReplicaConfig.writePort cfg)) pw) in *.
  set (hosts := ReplicaConfig.readHosts cfg) in *.
  rewrite (connect_write_step wd rds idx cfg base pw hp tr con rg reg Hreg).
  cbv zeta. fold writeObject hosts. rewrite Hw.
  rewrite (connectReadReplicas_all cfg base pw con rg reg hosts Hreg Hall).
  cbn [fst snd ReplicaRouter.writeDriver ReplicaRouter.readDrivers
       ReplicaRouter.currentReadIndex ReplicaRouter.world heap trace].
  rewrite length_app. cbn [length]. rewrite Nat.add_1_r.
  set (hp' := (hp ++ [snd (drv_connect writeObject)])
              ++ map (fun h => snd (drv_connect (replicaDriver reg base pw h))) hosts).
  assert (Hwrite : hp' !! length hp = Some (snd (drv_connect writeObject))).
  { unfold hp'. rewrite <- app_assoc. rewrite lookup_app_r by lia.
    rewrite Nat.sub_diag. reflexivity. }
  assert (Hread : forall i h, hosts !! i = Some h ->
            hp' !! (S (length hp) + i)
            = Some (snd (drv_connect (replicaDriver reg base pw h)))).
  { intros i h Hi. unfold hp'.
    rewrite lookup_app_r by (rewrite length_app; cbn; lia).
    rewrite length_app. cbn [length].
    replace (S (length hp) + i - (length hp + 1)) with i by lia.
    rewrite list_lookup_fmap, Hi. reflexivity. }
  assert (Hconn : forall i, i <= length hosts ->
            reportsConnected
              (mkWorld hp'
                 (( tr ++ [(length hp, MConnect)])
                  ++ map (fun i => (i, MConnect)) (seq (S (length hp)) (length hosts)))
                 con rg) (length hp + i) = Some true).
  { intros i Hi. unfold reportsConnected. cbn [heap].
    destruct i as [|i].
    - rewrite Nat.add_0_r, Hwrite. cbn. f_equal.
      apply connect_ok_isConnected, Hw.
    - destruct (lookup_lt_is_Some_2 hosts i) as [h Hh]; [lia|].
      rewrite Nat.add_succ_r, <- Nat.add_succ_l, (Hread i h Hh). cbn. f_equal.
      apply connect_ok_isConnected. rewrite Forall_forall in Hall. apply Hall.
      eapply list_elem_of_lookup_2. exact Hh. }
  split; [reflexivity|]. split; [reflexivity|]. split; [reflexivity|].
  split; [reflexivity|]. split; [exact Hwrite|]. split; [exact Hread|].
  split; [exact Hconn|].
  intros ->. cbn [app].
  assert (Hreads : forall r, In r (seq (S (length hp)) (length hosts)) ->
            reportsConnected
              (mkWorld hp'
                 (( tr ++ [(length hp, MConnect)])
                  ++ map (fun i => (i, MConnect)) (seq (S (length hp)) (length hosts)))
                 con rg) r = Some true).
  { intros r Hr. apply in_seq in Hr.
    replace r with (length hp + (r - length hp)) by lia. apply Hconn. lia. }
  split.
  - cbv [ReplicaRouter.isConnected bind gets ReplicaRouter.writeDriver
         ReplicaRouter.readDrivers ReplicaRouter.inWorld ReplicaRouter.world].
    pose proof (Hconn 0 ltac:(lia)) as H0. rewrite Nat.add_0_r in H0.
    rewrite (isConnected_eval _ _ true H0).
    rewrite length_seq.
    destruct hosts as [|h hosts']; [reflexivity|].
    cbn [length Nat.eqb seq].
    rewrite (someConnected_first _ _ (S (length hp))); [reflexivity|].
    apply Hreads. cbn [length seq]. left. reflexivity.
  - cbv [ReplicaRouterQueries.getConnectedReadReplicaCount bind gets
         ReplicaRouter.readDrivers ReplicaRouter.inWorld ReplicaRouter.world].
    rewrite (filterConnected_all _ _ Hreads). cbv [ret]. rewrite length_seq.
    reflexivity.
Qed.

End RouterConnectSuccess.

Lemma router_connect_write_failure_witness :
  ReplicaRouter.getWriteDriver
    (snd (ReplicaRouter.connect (Examples.freshRouter "random" ["primary"])))
  = (Ok 0, snd (ReplicaRouter.connect (Examples.freshRouter "random" ["primary"]))).
Proof.
  unshelve epose proof
    (router_connect_write_failure (Examples.freshRouter "random" ["primary"])
       (DriverRegistration.mk (Examples.metadataOf "mssql" "Microsoft SQL Server")
          (Examples.mssqlWhereDown ["primary"]))
       (Error "connect ECONNREFUSED") _ _) as W.
  - reflexivity.
  - reflexivity.
  - exact (proj2 (proj2 (proj2 (proj2 (proj2 W))))).
Defined.

Lemma router_connect_success_witness :
  ReplicaRouter.readDrivers
    (snd (ReplicaRouter.connect (Examples.freshRouter "random" []))) = [1; 2; 3]
  /\ ReplicaRouter.isConnected
       (snd (ReplicaRouter.connect (Examples.freshRouter "random" [])))
     = (Ok true, snd (ReplicaRouter.connect (Examples.freshRouter "random" []))).
Proof.
  unshelve epose proof
    (router_connect_success (Examples.freshRouter "random" [])
       (DriverRegistration.mk (Examples.metadataOf "mssql" "Microsoft SQL Server")
          (Examples.mssqlWhereDown [])) _ _ _) as W.
  - reflexivity.
  - reflexivity.
  - repeat constructor.
  - destruct W as (_ & _ & Hr & _ & _ & _ & _ & Hc). split.
    + exact Hr.
    + exact (proj1 (Hc eq_refl)).
Defined.

Section RouterUse.
Context {D : Type} `{DbDriver D}.
Implicit Types (s : ReplicaRouter.t D) (w : World D) (r : nat) (q : Q).

(** The router with another world. *)
Local Abbreviation inWorldOf s w' :=
  (ReplicaRouter.mk (ReplicaRouter.writeDriver s) (ReplicaRouter.readDrivers s)
     (ReplicaRouter.currentReadIndex s) (ReplicaRouter.config s)
     (ReplicaRouter.baseConfig s) (ReplicaRouter.password s) w').




Lemma some_and_filter (l : list nat) w :
  (forall r, In r l -> is_Some (reportsConnected w r)) ->
  exists kept,
    ReplicaRouterQueries.filterConnected l w = (Ok kept, w)
    /\ ReplicaRouter.someConnected l w = (Ok (negb (Nat.eqb (length kept) 0)), w)
    /\ length kept <= length l.
Proof.
  induction l as [|r l IH]; intros Hall.
  - exists []. repeat split. cbn. lia.
  - destruct IH as (kept & Hf & Hs & Hlen);
      [intros r' Hr'; apply Hall; right; exact Hr'|].
    destruct (Hall r (or_introl eq_refl)) as [b Hb].
    cbn [ReplicaRouterQueries.filterConnected ReplicaRouter.someConnected].
    unfold bind. rewrite (isConnected_eval w r b Hb), Hf.
    destruct b.
    + exists (r :: kept). repeat split. cbn. lia.
    + exists kept. split; [reflexivity|]. split; [exact Hs|]. cbn. lia.
Qed.

(** X27: [isConnected()] of the router asks for the write driver and
    for some read driver, not for all of them: with the write driver
    connected it answers true exactly when there is no read driver or
    the count of connected read replicas is at least one, however many
    of them are down. *)
Theorem router_isConnected_some s (w0 : nat) :
  ReplicaRouter.writeDriver s = Some w0 ->
  reportsConnected (ReplicaRouter.world s) w0 = Some true ->
  (forall r, In r (ReplicaRouter.readDrivers s) ->
             is_Some (reportsConnected (ReplicaRouter.world s) r)) ->
  exists c,
    ReplicaRouterQueries.getConnectedReadReplicaCount s = (Ok c, s)
    /\ c <= length (ReplicaRouter.readDrivers s)
    /\ ReplicaRouter.isConnected s
       = (Ok (Nat.eqb (length (ReplicaRouter.readDrivers s)) 0 || Nat.ltb 0 c), s).
Proof.
  intros Hw Hw0 Hall.
  destruct (some_and_filter (ReplicaRouter.readDrivers s) (ReplicaRouter.world s) Hall)
    as (kept & Hf & Hs & Hlen).
  exists (length kept). split; [|split; [exact Hlen|]].
  - cbv [ReplicaRouterQueries.getConnectedReadReplicaCount bind gets
         ReplicaRouter.inWorld ret].
    rewrite Hf. destruct s; reflexivity.
  - cbv [ReplicaRouter.isConnected bind gets ret]. rewrite Hw.
    rewrite (inWorld_isConnected_eval s w0 true Hw0).
    destruct (Nat.eqb (length (ReplicaRouter.readDrivers s)) 0); [reflexivity|].
    unfold ReplicaRouter.inWorld. rewrite Hs.
    destruct (length kept); destruct s; reflexivity.
Qed.

(** X28: a query that the drivers' classifier takes for a write is
    sent to the write driver and nowhere else, with every strategy: no
    read driver is called and the cursor stays.  Without a write driver
    the call throws that the write replica is not connected, even when
    read replicas are connected. *)
Theorem router_write_query_route s sql params q :
  BaseDbDriver.isWriteQuery sql = true ->
  ReplicaRouter.executeQuery sql params q s
  = match ReplicaRouter.writeDriver s with
    | None => (Throw (Error "Write replica not connected"), s)
    | Some w0 =>
        match heap (ReplicaRouter.world s) !! w0 with
        | None => (Throw notAnObject, s)
        | Some d =>
            (fst (drv_executeQuery sql params d),
             inWorldOf s (called (ReplicaRouter.world s) w0 (MExecuteQuery sql)
                            (snd (drv_executeQuery sql params d))))
        end
    end.
Proof.
  intros Hw. rewrite <- router_isWriteQuery_base in Hw.
  cbv [ReplicaRouter.executeQuery bind]. rewrite Hw.
  cbv [ReplicaRouter.getWriteDriver bind gets throw ret].
  destruct (ReplicaRouter.writeDriver s) as [w0|] eqn:Hwd; [|reflexivity].
  cbv [ReplicaRouter.inWorld call].
  destruct (heap (ReplicaRouter.world s) !! w0) as [d|] eqn:Hd.
  - destruct (drv_executeQuery sql params d) as [[res|e] d']; cbn; rewrite Hwd;
      reflexivity.
  - destruct s; cbn in *. rewrite Hwd. reflexivity.
Qed.

(** X29: [createReplicaRouterIfNeeded] builds a router exactly for a
    configuration whose replica settings are present and enabled.  The
    router it returns is not connected: until [connect()] is called it
    refuses every query, write or read, with the error that the write
    replica is not connected, reports not connected and counts no
    connected read replica, and it touches no driver. *)
Theorem router_before_connect (config : ConnectionConfig.t) (password : string)
    w (router : ReplicaRouter.t D) sql params q :
  ReplicaRouterQueries.createReplicaRouterIfNeeded config password w = Some router ->
  (exists replicaConfig,
     ConnectionConfig.replicaConfig config = Some replicaConfig
     /\ ReplicaConfig.enabled replicaConfig = true
     /\ router = ReplicaRouter.new replicaConfig config password w)
  /\ ReplicaRouter.executeQuery sql params q router
     = (Throw (Error "Write replica not connected"), router)
  /\ ReplicaRouter.isConnected router = (Ok false, router)
  /\ ReplicaRouterQueries.getConnectedReadReplicaCount router = (Ok 0, router).
Proof.
  unfold ReplicaRouterQueries.createReplicaRouterIfNeeded.
  destruct (ConnectionConfig.replicaConfig config) as [rc|]; [|discriminate].
  destruct (ReplicaConfig.enabled rc) eqn:Hen; [|discriminate].
  intros [= <-]. split; [exists rc; repeat split; exact Hen|].
  split; [|split; reflexivity].
  cbv [ReplicaRouter.executeQuery ReplicaRouter.getReadDriver
       ReplicaRouter.getWriteDriver bind gets throw].
  destruct (ReplicaRouter.isWriteQuery sql); reflexivity.
Qed.

End RouterUse.

Lemma factory_register_then_create_witness :
  DriverFactory.create "postgres" (Examples.exampleConfig "postgres" None) "secret"
    (snd (DriverFactory.register (Examples.metadataOf "postgres" "PostgreSQL")
            (Drivers.new Postgres Examples.refusingEnv) Examples.exampleWorld))
  = (Ok 0,
     allocated
       (snd (DriverFactory.register (Examples.metadataOf "postgres" "PostgreSQL")
               (Drivers.new Postgres Examples.refusingEnv) Examples.exampleWorld))
       (Drivers.new Postgres Examples.refusingEnv
          (Examples.exampleConfig "postgres" None) "secret"))
  /\ JsMap.get
       (registry
          (snd (DriverFactory.register (Examples.metadataOf "postgres" "PostgreSQL")
                  (Drivers.new Postgres Examples.refusingEnv) Examples.exampleWorld)))
       "flaky"
     = JsMap.get (registry Examples.exampleWorld) "flaky".
Proof.
  pose proof (factory_register_then_create Examples.exampleWorld
                (Examples.metadataOf "postgres" "PostgreSQL")
                (Drivers.new Postgres Examples.refusingEnv)
                (Examples.exampleConfig "postgres" None) "secret") as W.
  cbv zeta in W. destruct W as (_ & Hc & _ & _ & _ & Ho & _).
  split; [exact Hc|]. apply Ho. discriminate.
Defined.

Lemma factory_create_iff_registered_witness :
  DriverFactory.create "oracle" (Examples.exampleConfig "oracle" None) "secret"
    Examples.exampleWorld
  = (Throw (Error "Unknown driver type: 'oracle'. Available drivers: postgres, flaky"),
     Examples.exampleWorld).
Proof.
  exact (proj1 (proj2 (factory_create_iff_registered Examples.exampleWorld "oracle"
                         (Examples.exampleConfig "oracle" None) "secret")) eq_refl).
Defined.


Lemma router_isConnected_some_witness :
  ReplicaRouter.isConnected (Scenarios.oneReplicaDown "random")
  = (Ok true, Scenarios.oneReplicaDown "random").
Proof.
  unshelve epose proof
    (router_isConnected_some (Scenarios.oneReplicaDown "random") 0 _ _ _) as W.
  - vm_compute. reflexivity.
  - vm_compute. reflexivity.
  - intros r Hr. vm_compute in Hr.
    destruct Hr as [<- | [<- | [<- | []]]]; vm_compute; eexists; reflexivity.
  - destruct W as (c & Hcount & _ & Hconn).
    assert (Hc : c = 2).
    { assert (E : fst (ReplicaRouterQueries.getConnectedReadReplicaCount
                         (Scenarios.oneReplicaDown "random")) = Ok 2)
        by (vm_compute; reflexivity).
      rewrite Hcount in E. injection E as E. exact E. }
    rewrite Hconn, Hc. vm_compute. reflexivity.
Defined.

Lemma router_write_query_route_witness :
  trace (ReplicaRouter.world
           (snd (ReplicaRouter.executeQuery "DELETE FROM t" None 0
                   (Examples.connectedRouter "round-robin"))))
  = trace (ReplicaRouter.world (Examples.connectedRouter "round-robin"))
    ++ [(0, MExecuteQuery "DELETE FROM t")].
Proof.
  unshelve epose proof
    (router_write_query_route (Examples.connectedRouter "round-robin")
       "DELETE FROM t" None 0 _) as W.
  - vm_compute. reflexivity.
  - rewrite W. vm_compute. reflexivity.
Defined.

Lemma router_before_connect_witness :
  ReplicaRouter.executeQuery "SELECT 1" None 0
    (ReplicaRouter.new (Examples.replicaConfig "random")
       (Scenarios.replicatedConfig "random") "secret" Examples.exampleWorld)
  = (Throw (Error "Write replica not connected"),
     ReplicaRouter.new (Examples.replicaConfig "random")
       (Scenarios.replicatedConfig "random") "secret" Examples.exampleWorld).
Proof.
  exact (proj1 (proj2 (router_before_connect (Scenarios.replicatedConfig "random")
                         "secret" Examples.exampleWorld _ "SELECT 1" None 0 eq_refl))).
Defined.
